(* ===== verification/_CoqProject ===== *)
-Q . S2P
Prelude.v
PyDict.v
Json.v
Aws.v
RamManager.v
DdbManager.v
Handler.v
EntrySpec.v
Refinement.v
TestMain.v
Utility.v
UtilityCli.v
