(* ===== verification/Prelude.v ===== *)
(** * Verification of lf_stale_ram_invite_monitor

    The program (src/src/lf_stale_ram_invite_monitor) is an AWS Lambda
    function that finds RAM resource-share invitations created by Lake
    Formation that are still ASSOCIATING after a timeout, and refreshes each
    one by disassociating and re-associating the invited principal.
    Re-association failures are written to a DynamoDB table so that the next
    scheduled run retries them.

    ** Parts of the program and how they interact

    - [ram_manager.py], class [RamManager]: [__init__] computes the cutoff
      [int(time.time()) - timeout_in_secs]; [get_new_expired_ram_invitations]
      pages through the ASSOCIATING principal associations and keeps, per
      share ARN, the principal of those of shares named [LakeFormation-*]
      created before the cutoff; [deassociate_account_from_ram_share] and
      [associate_account_with_ram_share] send the two RAM requests, or do
      nothing when the [dry_run] flag is false.
    - [ddb_manager.py], class [DdbManager]: reads the whole table with a
      paginated scan, decoding every [aws_account] attribute with
      [json.loads]; writes one record with [put_item]; deletes one with
      [delete_item], swallowing [ResourceNotFoundException].
    - [lambda_handler.py], [lambda_handler]: reads the event, calls the
      scanner, then the table read, merges both ([dict.update], the table
      wins), and runs the per-share disassociate / associate cycle inside
      nested [try]/[except] blocks, writing or deleting table records and
      counting successes and failures.
    - [tests/unit/test_main.py]: one scenario against mocked services.
    - [utility/fix_lakeformation_ram_invites.py]: a stand-alone repair
      script, not called by the Lambda function: it pages through the Lake
      Formation permissions granted through RAM shares, derives the account
      id of each principal ([get_account_id]), and re-creates the share's
      association when it is missing, FAILED or older than eleven hours;
      its command line ([argparse]: [--no-dry-run], [-l/--log_level])
      sets [IS_DRY_RUN] and the logging level.

    ** Files of this development, in dependency order

    - [Prelude] (this file): the state-and-exception monad [SE S E A := S ->
      (E + A) * S] used for every stateful Python function, with [try]/
      [except] as [se_try] (a handler returns [None] for an exception its
      clauses do not match) and a [for] loop as [se_foldM]; the notations
      [let*] and [;;;] in [py_scope]; the invariant combinators
      [se_preserves]; the hint databases [lfm]; counting lemmas.
    - [PyDict]: Python's insertion-ordered [dict] as an association list
      ([dict_setitem], [dict_update], [dict_contains], [dict_get]), its
      no-duplicate-keys invariant [dict_wf], its refinement to a stdpp
      [gmap] and the setoid [dict_equiv] with its [Proper] instances.
    - [Json]: CPython's [json.loads] (scanner and decoder, fuel [2 *
      length input + 1]); a string of digits decodes to an [int], no string [s]
      decodes to [PyStr s]; the fuel is enough ([json_loads_fuel_enough]).
    - [Aws]: the services as an oracle of replies ([Cloud]) and a state
      ([World]: the DynamoDB table as a [gmap], the RAM associations as a
      [gset], the trace of mutating requests); botocore's exceptions ([Exn],
      [is_client_error]), parameter validation, paginators ([for_pages],
      [ddb_scan_pages]); the frame relations [only_at] and [untouched].
    - [RamManager], [DdbManager], [Handler]: one Module per source file,
      one definition per method, composed the way the code composes them;
      the loop state of the handler is [Frame] (world and the two local
      counters, which keep their increments across exceptions).
    - [EntrySpec]: the specification's per-entry state machine (section 4.3
      of spec.md) as an inductive step relation, with no reference to the
      code.
    - [Refinement]: the handler implements that machine, under hypotheses
      that the findings show to be needed.
    - [TestMain]: the data of the unit test, its [setUp] world and its
      test method as a boolean check.
    - [Utility]: the repair script, its [while] loop with fuel (the loop
      returns [true] when it exits, [false] when the fuel runs out), the
      Lake Formation listing as an oracle with opaque tokens, and the
      paginated listing [paged] used to state its behaviour.
    - [UtilityCli]: the script's command line: [parse_args] as CPython
      3.11's argparse runs it for this parser (checked against CPython on
      3050 command lines while the model was written), the level check of
      [logging.basicConfig], and [script_main], the whole script from
      [sys.argv[1:]].

    ** What the theorems show (claim ids of the manifest)

    - refinement: the whole invocation computes the state machine's run
      over the merged work set (C1); the table read is the table decoded
      by [json.loads] (C15);
    - findings on the failure table: a written record never reads back as
      the [str] written (C3); a record whose account decodes to a non-[str]
      stays forever and its share is never touched again (C2); a record
      that is not JSON makes every invocation raise with no effect (C4);
      a [put_item] failure surfaces as [AttributeError] (C16);
    - findings on the loop: double counting when a marker delete fails
      (C5); a connection error loses the grant without a record (C6); a
      delete failure in the [UnknownResourceException] clause aborts the
      run (C7); a failed re-association whose marker cannot be written
      loses the grant with no record and the run goes on (C33); with
      [dry_run] false nothing is sent yet shares are counted
      as recreated and markers deleted (C13); the error response is dead
      code (C14);
    - the scanner: its contract with last-write-wins per share (C8), its
      errors (C19); the cutoff is sound (C9) and exact on whole seconds
      (C18), so that it misses invitations less than one second past the
      specification's cutoff;
    - ordering and bounds: disassociation precedes association (C10); the
      counters are bounded by the work set when no delete fails (C11);
      [remove_resource_share_from_ddb] on every branch (C17); the empty run
      (C20); the unit test's method passes for every load and start time
      (C12);
    - the repair script: it processes every page of the listing but the
      last (C21), so a one-page listing is not processed at all; a principal
      [get_account_id] rejects aborts the script (C22); the dry-run default
      changes nothing (C23), and no command line without an argument
      starting with [--n] leaves it (C35); [--no-dry-run], whose help
      says it performs no action, switches the real run on, and a level
      name in lower case stops the script with [ValueError] (C26); the
      per-share decision re-creates FAILED and
      stale associations (C24) and leaves another account's share alone
      (C25); [get_account_id] returns the account field of an IAM ARN and
      never raises [IndexError] (C32); its loop exits on every
      finite listing given one unit of fuel per page (C27);
    - types and progress: the invocation loops over a work set whose
      value at a share of the table is the decoded record, not the [str]
      its annotation promises, and the scan's [str] elsewhere (C31); a record stored as a JSON [str] is cleared by the
      first invocation whose replies for it succeed (C28);
    - errors of the reads and of the event: a failed first scan request
      propagates, an empty table included (C29); an event without a table
      name raises [KeyError] before any request (C30);
    - scope: on every branch an invocation only appends requests about
      shares of the failure table or of expired associations (C34).

    ** Modelling choices, bounds and fuel

    - Time is an integer number of microseconds; Python's [int()] of a
      [float] timestamp is [Z.quot _ 1000000] (truncation toward zero).
    - Strings are Rocq [string]s (8-bit characters); ARNs and account ids
      are ASCII.
    - Python [int]s are [Z]; the counters are [nat] (never negative, no
      overflow in Python).
    - [json_loads] gives its container parser fuel [2 * length input +
      1], enough because a nesting level costs two units and consumes at
      least one character: any larger fuel gives the same result
      ([json_loads_fuel_enough]); the
      scan's page cutting ([chunks]) takes fuel [length items], one per
      page at least; the repair script's loop is run with a fuel argument
      and its theorems assume fuel at least the number of pages, which is
      what the loop needs: one iteration per page.
    - The scan of the table is cut into pages of [ddb_scan_page_size + 1]
      items in [map_to_list] order; an empty table still gives one page,
      since the paginator always sends its first request.
    - A service is an oracle per invocation: each request's failure is a
      function of its arguments, so every reply pattern is covered by
      quantifying over [Cloud].

    ** Not modelled

    - The help and usage text of the repair script, its log output and
      the format given to [logging.basicConfig]: output only.
    - Event values of the wrong type: [Event] types them, so a
      [ram_timeout_in_seconds] that is not an [int] (a [TypeError] in
      [RamManager.__init__]) is outside the model.
    - Table items without an [aws_account] attribute (a [KeyError] in
      [decode_item]): only [add_resource_share_to_ddb] writes items, and
      it always sets the attribute.
    - Logging and tracing (aws_lambda_powertools): no effect on state or
      results; the module-level boto3 client construction; the [__main__]
      block; the unittest and moto plumbing of the test and its
      [tearDown]. *)

From stdpp Require Export base list strings gmap.
From Stdlib Require Export ZArith Lia.

Declare Scope py_scope.
Delimit Scope py_scope with py.

(** ** The state and exception monad

    A Python statement sequence that reads and writes some shared state
    [S] and may raise an exception [E] is a function from the state before
    to the outcome (an exception or a value) and the state after: the
    state reached before an exception is kept, as in Python. *)

Definition SE (S E A : Type) : Type := S -> (E + A) * S.

Definition se_ret {S E A} (a : A) : SE S E A := fun s => (inr a, s).

Definition se_raise {S E A} (e : E) : SE S E A := fun s => (inl e, s).

Definition se_bind {S E A B} (m : SE S E A) (k : A -> SE S E B) : SE S E B :=
  fun s => match m s with
           | (inl e, s') => (inl e, s')
           | (inr a, s') => k a s'
           end.

Definition se_get {S E} : SE S E S := fun s => (inr s, s).

Definition se_modify {S E} (f : S -> S) : SE S E unit := fun s => (inr tt, f s).

(** [try: m except ...]: the handler maps the raised exception to the body
    of the first matching [except] clause, or to [None] when no clause
    matches and the exception propagates.  An exception raised by a
    handler body is not caught by the sibling clauses. *)
Definition se_try {S E A} (m : SE S E A) (h : E -> option (SE S E A)) : SE S E A :=
  fun s => match m s with
           | (inl e, s') => match h e with
                            | Some k => k s'
                            | None => (inl e, s')
                            end
           | (inr a, s') => (inr a, s')
           end.

Notation "'let*' x ':=' m 'in' k" := (se_bind m (fun x => k))
  (at level 10, x name, m at level 100, k at level 200) : py_scope.
Notation "m ;;; k" := (se_bind m (fun _ => k))
  (at level 100, right associativity) : py_scope.

Open Scope py_scope.

(** A Python [for] loop over a list, threading local accumulators [acc]. *)
Fixpoint se_foldM {S E X Acc} (f : Acc -> X -> SE S E Acc) (acc : Acc)
    (l : list X) : SE S E Acc :=
  match l with
  | [] => se_ret acc
  | x :: l' => let* acc' := f acc x in se_foldM f acc' l'
  end.

(** ** Monad laws and running lemmas *)

Create HintDb lfm.
Create Rewrite HintDb lfm.

Section SELemmas.
Context {S E : Type}.

Lemma se_bind_assoc {A B C} (m : SE S E A) (k : A -> SE S E B)
    (k' : B -> SE S E C) s :
  se_bind (se_bind m k) k' s = se_bind m (fun a => se_bind (k a) k') s.
Proof. unfold se_bind. by destruct (m s) as [[e|a] s']. Qed.

Lemma se_bind_inr {A B} (m : SE S E A) (k : A -> SE S E B) s a s' :
  m s = (inr a, s') -> se_bind m k s = k a s'.
Proof. unfold se_bind. by intros ->. Qed.

Lemma se_bind_inl {A B} (m : SE S E A) (k : A -> SE S E B) s e s' :
  m s = (inl e, s') -> se_bind m k s = (inl e, s').
Proof. unfold se_bind. by intros ->. Qed.

Lemma se_try_inr {A} (m : SE S E A) h s a s' :
  m s = (inr a, s') -> se_try m h s = (inr a, s').
Proof. unfold se_try. by intros ->. Qed.

Lemma se_try_inl {A} (m : SE S E A) h s e s' :
  m s = (inl e, s') ->
  se_try m h s = match h e with Some k => k s' | None => (inl e, s') end.
Proof. unfold se_try. by intros ->. Qed.

(** A loop over [l1 ++ l2] runs the loop over [l1], then over [l2]. *)
Lemma se_foldM_app {X Acc} (f : Acc -> X -> SE S E Acc) acc l1 l2 s :
  se_foldM f acc (l1 ++ l2) s
  = se_bind (se_foldM f acc l1) (fun acc' => se_foldM f acc' l2) s.
Proof.
  revert acc s. induction l1 as [|x l1 IH]; intros acc s; [done|].
  simpl. rewrite se_bind_assoc.
  destruct (f acc x s) as [[e|a] s'] eqn:Hf.
  - by rewrite !(se_bind_inl _ _ _ _ _ Hf).
  - rewrite !(se_bind_inr _ _ _ _ _ Hf). apply IH.
Qed.

(** [except Exception as e: raise e] changes nothing. *)
Lemma se_try_reraise {A} (m : SE S E A) s : se_try m (fun e => Some (se_raise e)) s = m s.
Proof. unfold se_try. by destruct (m s) as [[e|a] s']. Qed.

(** ** Invariants of the state

    [se_preserves I m]: whatever [m] returns or raises, a state satisfying
    [I] before satisfies [I] after. *)
Definition se_preserves {A} (I : S -> Prop) (m : SE S E A) : Prop :=
  forall s, I s -> I (snd (m s)).

Lemma se_preserves_ret {A} I (a : A) : se_preserves I (se_ret a).
Proof. by intros s. Qed.

Lemma se_preserves_raise {A} I e : se_preserves I (@se_raise S E A e).
Proof. by intros s. Qed.

Lemma se_preserves_bind {A B} I (m : SE S E A) (k : A -> SE S E B) :
  se_preserves I m -> (forall a, se_preserves I (k a)) ->
  se_preserves I (se_bind m k).
Proof.
  intros Hm Hk s Hs. unfold se_bind. specialize (Hm s Hs).
  destruct (m s) as [[e|a] s']; [done|]. by apply Hk.
Qed.

Lemma se_preserves_try {A} I (m : SE S E A) h :
  se_preserves I m ->
  (forall e k, h e = Some k -> se_preserves I k) ->
  se_preserves I (se_try m h).
Proof.
  intros Hm Hh s Hs. unfold se_try. specialize (Hm s Hs).
  destruct (m s) as [[e|a] s']; [|done].
  destruct (h e) eqn:He; [by eapply Hh|done].
Qed.

Lemma se_preserves_modify I (f : S -> S) :
  (forall s, I s -> I (f s)) -> se_preserves I (@se_modify S E f).
Proof. intros Hf s. apply Hf. Qed.

Lemma se_preserves_foldM {X Acc} I (f : Acc -> X -> SE S E Acc) l :
  (forall acc x, x ∈ l -> se_preserves I (f acc x)) ->
  forall acc, se_preserves I (se_foldM f acc l).
Proof.
  induction l as [|x l IH]; intros Hf acc; simpl; [apply se_preserves_ret|].
  apply se_preserves_bind; [apply Hf; set_solver|].
  intros a. apply IH. intros acc' y Hy. apply Hf. set_solver.
Qed.
End SELemmas.

#[export] Hint Resolve se_preserves_ret se_preserves_raise se_preserves_bind
  se_preserves_try se_preserves_modify se_preserves_foldM : lfm.

(** ** Generic list lemmas *)

(** Counting the elements of a list that satisfy a boolean test. *)
Definition count_if {X} (p : X -> bool) (l : list X) : nat :=
  length (filter (fun x => p x = true) l).

Lemma count_if_le {X} (p : X -> bool) l : count_if p l <= length l.
Proof. unfold count_if. apply length_filter. Qed.

Lemma count_if_app {X} (p : X -> bool) l1 l2 :
  count_if p (l1 ++ l2) = count_if p l1 + count_if p l2.
Proof. unfold count_if. by rewrite filter_app, length_app. Qed.

#[export] Hint Rewrite @count_if_app : lfm.
