(* ===== verification/PyDict.v ===== *)
(** * Python dictionaries

    A Python [dict] iterates in insertion order, and assigning to a key
    already present replaces its value in place.  The handler's loop runs its
    RAM calls in the order of [expired_ram_shares.items()], so the order is
    kept: a dict is an association list.  Its content is also given as a
    stdpp [gmap] ([dict_to_map]), and the operations refine the map
    operations.  Dicts with the same content are equivalent ([dict_equiv]),
    and the read operations respect that equivalence. *)

From S2P Require Import Prelude.
From Stdlib Require Import Setoid Morphisms.

Section Dict.
Context {K V : Type} `{EqDecision K}.

(** [d.get(k)]: the value of the first (in a real dict: the only) entry
    with key [k]. *)
Fixpoint dict_get (d : list (K * V)) (k : K) : option V :=
  match d with
  | [] => None
  | (k', v) :: d' => if decide (k = k') then Some v else dict_get d' k
  end.

(** [k in d] *)
Definition dict_contains (d : list (K * V)) (k : K) : bool :=
  match dict_get d k with Some _ => true | None => false end.

(** [d[k] = v]: replace in place, or append a new entry at the end. *)
Fixpoint dict_setitem (d : list (K * V)) (k : K) (v : V) : list (K * V) :=
  match d with
  | [] => [(k, v)]
  | (k', v') :: d' =>
      if decide (k = k') then (k, v) :: d' else (k', v') :: dict_setitem d' k v
  end.

(** [d.update(o)]: assign every item of [o], in [o]'s order. *)
Definition dict_update (d o : list (K * V)) : list (K * V) :=
  fold_left (fun acc kv => dict_setitem acc kv.1 kv.2) o d.

(** The invariant of a dict: its keys are pairwise distinct. *)
Definition dict_wf (d : list (K * V)) : Prop := NoDup d.*1.

Lemma dict_get_setitem d k k' v :
  dict_get (dict_setitem d k v) k' = if decide (k' = k) then Some v else dict_get d k'.
Proof.
  induction d as [|[k0 v0] d IH]; simpl.
  - by repeat case_decide.
  - repeat (case_decide; simplify_eq/=); try done; congruence.
Qed.

Lemma dict_get_setitem_eq d k v : dict_get (dict_setitem d k v) k = Some v.
Proof. rewrite dict_get_setitem. by case_decide. Qed.

Lemma dict_get_setitem_ne d k k' v :
  k' <> k -> dict_get (dict_setitem d k v) k' = dict_get d k'.
Proof. intros Hne. rewrite dict_get_setitem. by case_decide. Qed.

Lemma dict_get_Some_elem d k v : dict_get d k = Some v -> (k, v) ∈ d.
Proof.
  induction d as [|[k0 v0] d IH]; simpl; [done|].
  case_decide; [intros [= ->]; subst; set_solver|]. set_solver.
Qed.

Lemma dict_get_None d k : dict_get d k = None <-> k ∉ d.*1.
Proof.
  induction d as [|[k0 v0] d IH]; simpl; [set_solver|].
  case_decide; [subst; set_solver|]. rewrite IH. set_solver.
Qed.

(** The keys after an assignment: unchanged if the key was there,
    otherwise the new key comes last. *)
Lemma dict_setitem_keys d k v :
  (dict_setitem d k v).*1 = if decide (k ∈ d.*1) then d.*1 else d.*1 ++ [k].
Proof.
  induction d as [|[k0 v0] d IH].
  - rewrite decide_False; [done|set_solver].
  - cbn [dict_setitem]. destruct (decide (k = k0)) as [->|Hne]; rewrite !fmap_cons.
    + by rewrite decide_True by set_solver.
    + rewrite IH. destruct (decide (k ∈ d.*1)).
      * by rewrite decide_True by set_solver.
      * by rewrite decide_False by set_solver.
Qed.

Lemma dict_setitem_wf d k v : dict_wf d -> dict_wf (dict_setitem d k v).
Proof.
  unfold dict_wf. rewrite dict_setitem_keys. case_decide; [done|].
  intros Hnd. apply NoDup_app. split_and!; [done| |apply NoDup_singleton].
  set_solver.
Qed.

Lemma dict_update_wf d o : dict_wf d -> dict_wf (dict_update d o).
Proof.
  unfold dict_update. revert d. induction o as [|[k v] o IH]; intros d Hd; simpl; [done|].
  apply IH. by apply dict_setitem_wf.
Qed.

(** Merge: after [d.update(o)], a key of [o] has [o]'s value; any other
    key keeps its value in [d]. *)
Lemma dict_get_update d o k :
  dict_wf o ->
  dict_get (dict_update d o) k
  = match dict_get o k with Some v => Some v | None => dict_get d k end.
Proof.
  unfold dict_update, dict_wf. revert d.
  induction o as [|[k0 v0] o IH]; intros d Hnd; simpl; [done|].
  inversion Hnd as [|? ? Hnin Hnd']; subst.
  rewrite IH by done. rewrite dict_get_setitem.
  case_decide as Heq; [subst|done].
  by rewrite (proj2 (dict_get_None o k0) Hnin).
Qed.

Lemma dict_update_keys_sub d o k : k ∈ (dict_update d o).*1 -> k ∈ d.*1 \/ k ∈ o.*1.
Proof.
  unfold dict_update. revert d. induction o as [|[k0 v0] o IH]; intros d; simpl; [auto|].
  intros Hk. destruct (IH _ Hk) as [Hin|Hin]; [|set_solver].
  rewrite dict_setitem_keys in Hin. case_decide; set_solver.
Qed.

(** In a dict, an entry is what [get] finds. *)
Lemma dict_wf_elem d k v : dict_wf d -> (k, v) ∈ d -> dict_get d k = Some v.
Proof.
  unfold dict_wf. induction d as [|[k0 v0] d IH]; intros Hnd Hin; [set_solver|].
  inversion Hnd as [|? ? Hnin Hnd']; subst. simpl.
  apply elem_of_cons in Hin as [[= -> ->]|Hin]; [by rewrite decide_True|].
  rewrite decide_False; [by apply IH|].
  intros ->. apply Hnin. apply list_elem_of_fmap. by exists (k0, v).
Qed.

Lemma dict_setitem_elem d k v kv :
  kv ∈ dict_setitem d k v -> kv ∈ d \/ kv = (k, v).
Proof.
  induction d as [|[k0 v0] d IH]; simpl; [set_solver|].
  case_decide; [set_solver|]. intros [->|Hin]%elem_of_cons; [set_solver|].
  destruct (IH Hin); set_solver.
Qed.

Lemma dict_update_elem d o kv : kv ∈ dict_update d o -> kv ∈ d \/ kv ∈ o.
Proof.
  unfold dict_update. revert d. induction o as [|[k' v'] o IH]; intros d; simpl; [auto|].
  intros Hin. destruct (IH _ Hin) as [Hd|Ho]; [|set_solver].
  destruct (dict_setitem_elem _ _ _ _ Hd); set_solver.
Qed.

Lemma dict_contains_get d k : dict_contains d k = true <-> is_Some (dict_get d k).
Proof. unfold dict_contains. destruct (dict_get d k); split; intros Hc; try done; by destruct Hc. Qed.

(** ** Refinement to a finite map *)
Context `{Countable K}.

Definition dict_to_map (d : list (K * V)) : gmap K V := list_to_map d.

Lemma dict_to_map_lookup d k : dict_to_map d !! k = dict_get d k.
Proof.
  unfold dict_to_map. induction d as [|[k0 v0] d IH]; simpl; [done|].
  rewrite lookup_insert. repeat case_decide; subst; done.
Qed.

Lemma dict_to_map_setitem d k v :
  dict_to_map (dict_setitem d k v) = <[k:=v]> (dict_to_map d).
Proof.
  apply map_eq. intros k'. rewrite lookup_insert, !dict_to_map_lookup, dict_get_setitem.
  repeat case_decide; congruence.
Qed.

Lemma dict_to_map_update d o :
  dict_wf o -> dict_to_map (dict_update d o) = dict_to_map o ∪ dict_to_map d.
Proof.
  intros Ho. apply map_eq. intros k.
  rewrite lookup_union, !dict_to_map_lookup, dict_get_update by done.
  by destruct (dict_get o k), (dict_get d k).
Qed.

(** ** Equivalence of dicts with the same content *)
Definition dict_equiv (d1 d2 : list (K * V)) : Prop :=
  forall k, dict_get d1 k = dict_get d2 k.

#[global] Instance dict_equiv_equivalence : Equivalence dict_equiv.
Proof. split; repeat intro; congruence. Qed.

#[global] Instance dict_get_proper : Proper (dict_equiv ==> eq ==> eq) dict_get.
Proof. intros d1 d2 Hd k ? <-. apply Hd. Qed.

#[global] Instance dict_contains_proper : Proper (dict_equiv ==> eq ==> eq) dict_contains.
Proof. intros d1 d2 Hd k ? <-. unfold dict_contains. by rewrite (Hd k). Qed.

#[global] Instance dict_setitem_proper :
  Proper (dict_equiv ==> eq ==> eq ==> dict_equiv) dict_setitem.
Proof.
  intros d1 d2 Hd k ? <- v ? <- k'. rewrite !dict_get_setitem. by rewrite (Hd k').
Qed.

Lemma dict_equiv_to_map d1 d2 : dict_equiv d1 d2 <-> dict_to_map d1 = dict_to_map d2.
Proof.
  split.
  - intros Hd. apply map_eq. intros k. by rewrite !dict_to_map_lookup.
  - intros Hm k. by rewrite <- !dict_to_map_lookup, Hm.
Qed.
End Dict.

#[export] Hint Resolve dict_setitem_wf dict_update_wf : lfm.
#[export] Hint Rewrite @dict_get_setitem_eq @dict_to_map_lookup : lfm.
