(* ===== verification/Json.v ===== *)
(** * Python's [json.loads]

    [DdbManager.get_previously_failed_accounts_for_resource_share] decodes
    every stored [aws_account] attribute with [json.loads].  This file models
    CPython's decoder (json/decoder.py, json/scanner.py, with the same
    grammar as the C accelerator): whitespace [ \t\n\r], the literals
    [null], [true], [false], [NaN], [Infinity], [-Infinity], numbers by the
    scanner's regular expression (an optional minus; [0] or a nonzero digit
    followed by digits; an optional fraction [.digits]; an optional exponent
    [e] or [E], optional sign, digits), an [int] when there is neither
    fraction nor exponent, strings in strict mode
    (no raw control characters; a backslash escapes a quote, a backslash, a
    slash, [b], [f], [n], [r], [t], or introduces [uXXXX]),
    arrays and objects (duplicate keys: the last value wins, at the first
    key's position, as [dict(pairs)] does), and the final "Extra data"
    check.  Decoding failures ([JSONDecodeError]) are [None].

    Characters are 8-bit: a [\uXXXX] escape decodes to the character
    [XXXX mod 256], which is exact for ASCII and stands for the Unicode
    character otherwise.  A float is kept as the text of its literal: only
    its being a [float], not its value, matters here.

    The container parsers take fuel; [json_loads] gives fuel
    [2 * length input + 1]: a nesting level costs two units (one for
    [scan_once], one for the element loop) and consumes at least one
    character, and the last theorem of this file shows that more fuel never
    changes the result. *)

From S2P Require Import Prelude PyDict.
From Stdlib Require Import Ascii String.
Local Open Scope Z_scope.

(** Python values produced by [json.loads]. *)
Inductive PyVal : Type :=
| PyNone
| PyBool (b : bool)
| PyInt (z : Z)
| PyFloat (literal : string)
| PyStr (s : string)
| PyList (l : list PyVal)
| PyDictV (d : list (string * PyVal)).

(** [isinstance(v, str)] *)
Definition is_str (v : PyVal) : bool := match v with PyStr _ => true | _ => false end.

Definition code (c : ascii) : nat := nat_of_ascii c.

(** The double-quote character. *)
Definition dquote : ascii := ascii_of_nat 34.

Definition is_ws (c : ascii) : bool :=
  Ascii.eqb c " "%char || (code c =? 9)%nat || (code c =? 10)%nat || (code c =? 13)%nat.

Definition is_digit (c : ascii) : bool := (48 <=? code c)%nat && (code c <=? 57)%nat.

Definition digit_val (c : ascii) : Z := Z.of_nat (code c) - 48.

Fixpoint skip_ws (l : list ascii) : list ascii :=
  match l with
  | c :: r => if is_ws c then skip_ws r else l
  | [] => []
  end.

Fixpoint span_digits (l : list ascii) : list ascii * list ascii :=
  match l with
  | c :: r => if is_digit c then let '(ds, rest) := span_digits r in (c :: ds, rest)
              else ([], l)
  | [] => ([], [])
  end.

(** [int(digits)] *)
Definition digits_value (ds : list ascii) : Z :=
  fold_left (fun acc c => 10 * acc + digit_val c) ds 0.

Fixpoint strip_prefix (p l : list ascii) : option (list ascii) :=
  match p, l with
  | [], _ => Some l
  | c :: p', d :: l' => if Ascii.eqb c d then strip_prefix p' l' else None
  | _ :: _, [] => None
  end.

Definition chars (s : string) : list ascii := list_ascii_of_string s.

(** [0|[1-9]\d*] *)
Definition match_int (l : list ascii) : option (list ascii * list ascii) :=
  match l with
  | c :: r =>
      if Ascii.eqb c "0"%char then Some ([c], r)
      else if is_digit c then let '(ds, rest) := span_digits r in Some (c :: ds, rest)
      else None
  | [] => None
  end.

(** [(\.\d+)?] *)
Definition match_frac (l : list ascii) : list ascii * list ascii :=
  match l with
  | c :: d :: r =>
      if Ascii.eqb c "."%char && is_digit d
      then let '(ds, rest) := span_digits r in (c :: d :: ds, rest)
      else ([], l)
  | _ => ([], l)
  end.

(** [([eE][-+]?\d+)?] *)
Definition match_exp (l : list ascii) : list ascii * list ascii :=
  match l with
  | e :: r =>
      if Ascii.eqb e "e"%char || Ascii.eqb e "E"%char then
        let '(sgn, r1) :=
          match r with
          | s :: r' => if Ascii.eqb s "+"%char || Ascii.eqb s "-"%char then ([s], r') else ([], r)
          | [] => ([], r)
          end in
        match r1 with
        | d :: r2 =>
            if is_digit d then let '(ds, rest) := span_digits r2 in (e :: sgn ++ d :: ds, rest)
            else ([], l)
        | [] => ([], l)
        end
      else ([], l)
  | [] => ([], l)
  end.

(** [match_number] of the scanner: an [int] when the fraction and the
    exponent are both absent, a [float] otherwise. *)
Definition match_number (l : list ascii) : option (PyVal * list ascii) :=
  let '(neg, l1) := match l with
                    | c :: r => if Ascii.eqb c "-"%char then (true, r) else (false, l)
                    | [] => (false, l)
                    end in
  match match_int l1 with
  | None => None
  | Some (ip, r1) =>
      let '(fr, r2) := match_frac r1 in
      let '(ex, r3) := match_exp r2 in
      match fr, ex with
      | [], [] => Some (PyInt ((if neg then -1 else 1) * digits_value ip), r3)
      | _, _ => Some (PyFloat (string_of_list_ascii
                        ((if neg then ["-"%char] else []) ++ ip ++ fr ++ ex)), r3)
      end
  end.

Definition hex_val (c : ascii) : option nat :=
  let n := code c in
  if (48 <=? n)%nat && (n <=? 57)%nat then Some (n - 48)%nat
  else if (65 <=? n)%nat && (n <=? 70)%nat then Some (n - 55)%nat
  else if (97 <=? n)%nat && (n <=? 102)%nat then Some (n - 87)%nat
  else None.

(** The one-character escapes of [BACKSLASH] in json/decoder.py. *)
Definition simple_escape (c : ascii) : option ascii :=
  if Ascii.eqb c dquote then Some dquote
  else if Ascii.eqb c "\"%char then Some "\"%char
  else if Ascii.eqb c "/"%char then Some "/"%char
  else if Ascii.eqb c "b"%char then Some (ascii_of_nat 8)
  else if Ascii.eqb c "f"%char then Some (ascii_of_nat 12)
  else if Ascii.eqb c "n"%char then Some (ascii_of_nat 10)
  else if Ascii.eqb c "r"%char then Some (ascii_of_nat 13)
  else if Ascii.eqb c "t"%char then Some (ascii_of_nat 9)
  else None.

(** [scanstring], strict: the input starts after the opening quote; the
    result is the decoded characters and the input after the closing
    quote. *)
Fixpoint scanstring (l : list ascii) : option (list ascii * list ascii) :=
  match l with
  | [] => None
  | c :: r =>
      if Ascii.eqb c dquote then Some ([], r)
      else if Ascii.eqb c "\"%char then
        match r with
        | e :: r1 =>
            if Ascii.eqb e "u"%char then
              match r1 with
              | h1 :: h2 :: h3 :: h4 :: r' =>
                  match hex_val h1, hex_val h2, hex_val h3, hex_val h4 with
                  | Some a, Some b, Some c', Some d =>
                      match scanstring r' with
                      | Some (cs, rest) =>
                          Some (ascii_of_nat (((a * 16 + b) * 16 + c') * 16 + d)%nat :: cs, rest)
                      | None => None
                      end
                  | _, _, _, _ => None
                  end
              | _ => None
              end
            else match simple_escape e with
                 | Some ch => match scanstring r1 with
                              | Some (cs, rest) => Some (ch :: cs, rest)
                              | None => None
                              end
                 | None => None
                 end
        | [] => None
        end
      else if (code c <? 32)%nat then None
      else match scanstring r with
           | Some (cs, rest) => Some (c :: cs, rest)
           | None => None
           end
  end.

(** [scan_once] and the array and object loops of the decoder. *)
Fixpoint scan_once (fuel : nat) (l : list ascii) : option (PyVal * list ascii) :=
  match fuel with
  | O => None
  | S f =>
      match l with
      | [] => None
      | c :: r =>
          if Ascii.eqb c dquote then
            match scanstring r with
            | Some (cs, r') => Some (PyStr (string_of_list_ascii cs), r')
            | None => None
            end
          else if Ascii.eqb c "{"%char then
            match skip_ws r with
            | c' :: r' => if Ascii.eqb c' "}"%char then Some (PyDictV [], r')
                          else match parse_object f [] (c' :: r') with
                               | Some (d, r'') => Some (PyDictV d, r'')
                               | None => None
                               end
            | [] => None
            end
          else if Ascii.eqb c "["%char then
            match skip_ws r with
            | c' :: r' => if Ascii.eqb c' "]"%char then Some (PyList [], r')
                          else match parse_array f [] (c' :: r') with
                               | Some (vs, r'') => Some (PyList vs, r'')
                               | None => None
                               end
            | [] => None
            end
          else match strip_prefix (chars "null") l with
          | Some r' => Some (PyNone, r')
          | None =>
          match strip_prefix (chars "true") l with
          | Some r' => Some (PyBool true, r')
          | None =>
          match strip_prefix (chars "false") l with
          | Some r' => Some (PyBool false, r')
          | None =>
          match match_number l with
          | Some res => Some res
          | None =>
          match strip_prefix (chars "NaN") l with
          | Some r' => Some (PyFloat "NaN", r')
          | None =>
          match strip_prefix (chars "Infinity") l with
          | Some r' => Some (PyFloat "Infinity", r')
          | None =>
          match strip_prefix (chars "-Infinity") l with
          | Some r' => Some (PyFloat "-Infinity", r')
          | None => None
          end end end end end end end
      end
  end
with parse_array (fuel : nat) (acc : list PyVal) (l : list ascii)
    : option (list PyVal * list ascii) :=
  match fuel with
  | O => None
  | S f =>
      match scan_once f l with
      | None => None
      | Some (v, r) =>
          match skip_ws r with
          | c :: r' =>
              if Ascii.eqb c "]"%char then Some (rev (v :: acc), r')
              else if Ascii.eqb c ","%char then parse_array f (v :: acc) (skip_ws r')
              else None
          | [] => None
          end
      end
  end
with parse_object (fuel : nat) (acc : list (string * PyVal)) (l : list ascii)
    : option (list (string * PyVal) * list ascii) :=
  match fuel with
  | O => None
  | S f =>
      match l with
      | c :: r =>
          if Ascii.eqb c dquote then
            match scanstring r with
            | None => None
            | Some (key, r1) =>
                match skip_ws r1 with
                | c1 :: r2 =>
                    if Ascii.eqb c1 ":"%char then
                      match scan_once f (skip_ws r2) with
                      | None => None
                      | Some (v, r3) =>
                          let acc' := dict_setitem acc (string_of_list_ascii key) v in
                          match skip_ws r3 with
                          | c2 :: r4 =>
                              if Ascii.eqb c2 "}"%char then Some (acc', r4)
                              else if Ascii.eqb c2 ","%char then parse_object f acc' (skip_ws r4)
                              else None
                          | [] => None
                          end
                      end
                    else None
                | [] => None
                end
            end
          else None
      | [] => None
      end
  end.

(** [json.loads(s)] with a given fuel: [None] is a [JSONDecodeError]. *)
Definition json_loads_fuel (fuel : nat) (s : string) : option PyVal :=
  let l := chars s in
  match scan_once fuel (skip_ws l) with
  | Some (v, r) => match skip_ws r with [] => Some v | _ => None end
  | None => None
  end.

(** [json.loads(s)]: fuel [2 * length s + 1], which
    the last theorem of this file shows to be enough. *)
Definition json_loads (s : string) : option PyVal :=
  json_loads_fuel (S (2 * List.length (chars s))) s.

(** ** What the decoder gives back for the strings this program stores *)

Lemma chars_of_list (l : list ascii) : chars (string_of_list_ascii l) = l.
Proof. apply list_ascii_of_string_of_list_ascii. Qed.

Lemma span_digits_all (l : list ascii) : Forall (fun c => is_digit c = true) l -> span_digits l = (l, []).
Proof. induction 1 as [|c l Hc _ IH]; simpl; [done|]. by rewrite Hc, IH. Qed.

Lemma digit_eqb_l (c x : ascii) : is_digit c = true -> is_digit x = false -> Ascii.eqb c x = false.
Proof. intros Hc Hx. apply Ascii.eqb_neq. intros ->. congruence. Qed.

Lemma digit_eqb_r (c x : ascii) : is_digit c = true -> is_digit x = false -> Ascii.eqb x c = false.
Proof. intros Hc Hx. apply Ascii.eqb_neq. intros <-. congruence. Qed.

Lemma digit_not_ws (c : ascii) : is_digit c = true -> is_ws c = false.
Proof.
  intros Hc. unfold is_ws. rewrite (digit_eqb_l c " "%char Hc eq_refl).
  unfold is_digit in Hc. apply andb_prop in Hc as [H1 _]. apply Nat.leb_le in H1.
  simpl. repeat rewrite (proj2 (Nat.eqb_neq _ _)) by lia. done.
Qed.

(** Discharges the scanner's character tests [Ascii.eqb c x] of a digit
    [c] against punctuation and letters [x]. *)
Ltac digit_tests Hc :=
  lazymatch type of Hc with
  | is_digit ?c = true =>
    repeat match goal with
    | |- context [Ascii.eqb c ?x] => rewrite (digit_eqb_l c x Hc eq_refl)
    | |- context [Ascii.eqb ?x c] => rewrite (digit_eqb_r c x Hc eq_refl)
    end
  end; cbn [orb andb strip_prefix chars list_ascii_of_string].

(** On an input that starts with a digit, the scanner only tries the
    number pattern. *)
Lemma scan_once_digit (f : nat) (c : ascii) (r : list ascii) :
  is_digit c = true -> scan_once (S f) (c :: r) = match_number (c :: r).
Proof.
  intros Hc. cbn [scan_once chars list_ascii_of_string strip_prefix]. digit_tests Hc.
  by destruct (match_number (c :: r)).
Qed.

Lemma match_frac_digit (d : ascii) (r : list ascii) :
  is_digit d = true -> match_frac (d :: r) = ([], d :: r).
Proof. intros Hd. destruct r; simpl; [done|]. by digit_tests Hd. Qed.

Lemma match_exp_digit (d : ascii) (r : list ascii) :
  is_digit d = true -> match_exp (d :: r) = ([], d :: r).
Proof. intros Hd. simpl. by digit_tests Hd. Qed.

(** A nonempty string of decimal digits that does not start with [0]
    decodes to the Python [int] it denotes. *)
Lemma json_loads_digits (c : ascii) (ds : list ascii) :
  is_digit c = true -> c <> "0"%char ->
  Forall (fun d => is_digit d = true) ds ->
  json_loads (string_of_list_ascii (c :: ds)) = Some (PyInt (digits_value (c :: ds))).
Proof.
  intros Hc Hc0 Hds. unfold json_loads, json_loads_fuel. rewrite chars_of_list. cbn [skip_ws].
  rewrite (digit_not_ws c Hc), (scan_once_digit _ _ _ Hc).
  unfold match_number, match_int. digit_tests Hc. simpl.
  rewrite (proj2 (Ascii.eqb_neq c _) Hc0), Hc, (span_digits_all ds Hds). simpl.
  by rewrite Z.mul_1_l.
Qed.

(** A digit string with a leading zero and more digits is a decoding
    error ("Extra data" after the number [0]). *)
Lemma json_loads_leading_zero (d : ascii) (ds : list ascii) :
  is_digit d = true ->
  json_loads (string_of_list_ascii ("0"%char :: d :: ds)) = None.
Proof.
  intros Hd. unfold json_loads, json_loads_fuel. rewrite chars_of_list.
  change (skip_ws ("0"%char :: d :: ds)) with ("0"%char :: d :: ds).
  rewrite (scan_once_digit _ "0"%char _ eq_refl).
  unfold match_number, match_int. cbn -[match_frac match_exp].
  rewrite (match_frac_digit d ds Hd), (match_exp_digit d ds Hd). simpl.
  by rewrite (digit_not_ws d Hd).
Qed.

(** The characters a JSON text may start with (after whitespace). *)
Definition json_start (c : ascii) : bool :=
  existsb (Ascii.eqb c) (dquote :: chars "{[ntfNI-") || is_digit c.

Lemma strip_prefix_head (x c : ascii) (p r r' : list ascii) :
  strip_prefix (x :: p) (c :: r) = Some r' -> c = x.
Proof. simpl. destruct (Ascii.eqb_spec x c); [done|discriminate]. Qed.

Lemma match_int_head (c : ascii) (r : list ascii) res :
  match_int (c :: r) = Some res -> is_digit c = true.
Proof.
  simpl. destruct (Ascii.eqb_spec c "0"%char) as [->|_]; [done|].
  by destruct (is_digit c).
Qed.

Lemma match_number_head (c : ascii) (r : list ascii) res :
  match_number (c :: r) = Some res -> c = "-"%char \/ is_digit c = true.
Proof.
  unfold match_number. destruct (Ascii.eqb_spec c "-"%char) as [->|_]; [auto|].
  destruct (match_int (c :: r)) as [[ip r1]|] eqn:E; [|done].
  intros _. right. by eapply match_int_head.
Qed.

Lemma match_number_not_str (l : list ascii) (v : PyVal) (r : list ascii) :
  match_number l = Some (v, r) -> is_str v = false.
Proof. unfold match_number. intros H. by repeat (case_match; simplify_eq/=). Qed.

(** Only a text that starts with a double quote decodes to a [str]. *)
Lemma scan_once_str (f : nat) (c : ascii) (r : list ascii) (t : string) (r' : list ascii) :
  scan_once f (c :: r) = Some (PyStr t, r') -> c = dquote.
Proof.
  destruct f as [|f]; [done|]. cbn [scan_once].
  destruct (Ascii.eqb_spec c dquote) as [->|_]; [done|].
  destruct (Ascii.eqb c "{"%char); [by repeat (case_match; simplify_eq/=)|].
  destruct (Ascii.eqb c "["%char); [by repeat (case_match; simplify_eq/=)|].
  repeat case_match; intros; simplify_eq/=.
  by apply match_number_not_str in H2.
Qed.

(** A text whose first character is not [json_start] does not decode. *)
Lemma scan_once_start (f : nat) (c : ascii) (r : list ascii) res :
  scan_once f (c :: r) = Some res -> json_start c = true.
Proof.
  unfold json_start. destruct f as [|f]; [done|]. cbn [scan_once].
  destruct (Ascii.eqb_spec c dquote) as [->|_]; [done|].
  destruct (Ascii.eqb_spec c "{"%char) as [->|_]; [done|].
  destruct (Ascii.eqb_spec c "["%char) as [->|_]; [done|].
  repeat case_match; intros; simplify_eq;
    repeat match goal with
    | H : strip_prefix (chars ?s) (c :: r) = Some _ |- _ =>
        apply strip_prefix_head in H; subst c; reflexivity
    | H : match_number (c :: r) = Some _ |- _ =>
        apply match_number_head in H; destruct H as [->|Hd];
        [reflexivity|by rewrite Hd, orb_true_r]
    end.
Qed.

Lemma json_loads_str (s t : string) :
  json_loads s = Some (PyStr t) -> exists r, skip_ws (chars s) = dquote :: r.
Proof.
  unfold json_loads, json_loads_fuel. destruct (skip_ws (chars s)) as [|c r]; [by destruct (List.length _)|].
  destruct (scan_once _ (c :: r)) as [[v r']|] eqn:E; [|done].
  destruct (skip_ws r'); [|done]. intros [= ->]. apply scan_once_str in E. subst. eauto.
Qed.

Lemma json_loads_start (s : string) (v : PyVal) :
  json_loads s = Some v -> exists c r, skip_ws (chars s) = c :: r /\ json_start c = true.
Proof.
  unfold json_loads, json_loads_fuel. destruct (skip_ws (chars s)) as [|c r]; [by destruct (List.length _)|].
  destruct (scan_once _ (c :: r)) as [[v' r']|] eqn:E; [|done].
  intros _. apply scan_once_start in E. eauto.
Qed.

(** [scanstring] consumes at least one more character than it produces:
    the closing quote, and one or more input characters per output
    character. *)
Lemma scanstring_length (l : list ascii) :
  forall cs rest, scanstring l = Some (cs, rest) ->
  (List.length cs + List.length rest < List.length l)%nat.
Proof.
  induction l as [l IH] using (induction_ltof1 _ (@List.length ascii)); unfold ltof in IH.
  intros cs rest H. destruct l as [|c r]; [done|]. cbn [scanstring] in H.
  repeat case_match; simplify_eq/=; try lia;
    match goal with
    | E : scanstring ?r' = Some (?cs', ?rest') |- _ =>
        assert (List.length cs' + List.length rest' < List.length r')%nat
          by (apply IH; [simpl; lia|done])
    end; simpl; lia.
Qed.

Lemma skip_ws_length (l : list ascii) : (List.length (skip_ws l) <= List.length l)%nat.
Proof. induction l as [|x l IHl]; simpl; [lia|]. destruct (is_ws x); simpl; lia. Qed.

(** Decoding never gives back, as a [str], the very text it was given. *)
Lemma json_loads_not_self (s : string) : json_loads s <> Some (PyStr s).
Proof.
  intros H. unfold json_loads, json_loads_fuel in H.
  pose proof (skip_ws_length (chars s)) as Hle.
  destruct (skip_ws (chars s)) as [|c r] eqn:Es; [by destruct (List.length _)|].
  destruct (scan_once _ (c :: r)) as [[v r']|] eqn:E; [|done].
  destruct (skip_ws r'); [|done]. injection H as ->.
  pose proof (scan_once_str _ _ _ _ _ E) as ->.
  destruct (List.length (chars s)) as [|n] eqn:Hlen; [simpl in Hle; lia|].
  cbn [scan_once] in E. rewrite Ascii.eqb_refl in E.
  destruct (scanstring r) as [[cs rest]|] eqn:Esc; [|done]. injection E as Ecs _.
  apply scanstring_length in Esc.
  apply (f_equal (fun t => List.length (chars t))) in Ecs.
  rewrite chars_of_list in Ecs. simpl in Hle. lia.
Qed.

(** ** The fuel of the decoder is enough

    Every parser returns a suffix of its input, strictly shorter than it;
    hence a call with fuel at least twice the input's length gives the
    same result as a call with more fuel. *)

Lemma skip_ws_cons_length (l r : list ascii) c :
  skip_ws l = c :: r -> (List.length r < List.length l)%nat.
Proof. intros E. pose proof (skip_ws_length l) as H. rewrite E in H. simpl in H. lia. Qed.

Lemma strip_prefix_length (p l r : list ascii) :
  strip_prefix p l = Some r -> (List.length r + List.length p = List.length l)%nat.
Proof.
  revert l. induction p as [|c p IH]; intros [|d l] H; simplify_eq/=; try lia.
  destruct (Ascii.eqb c d); [|done]. apply IH in H. lia.
Qed.

Lemma span_digits_length (l ds rest : list ascii) :
  span_digits l = (ds, rest) -> (List.length ds + List.length rest = List.length l)%nat.
Proof.
  revert ds rest. induction l as [|c l IH]; intros ds rest H; simpl in H; [by simplify_eq|].
  destruct (is_digit c); [|by simplify_eq].
  destruct (span_digits l) as [ds' rest'] eqn:E. injection H as <- <-.
  specialize (IH _ _ eq_refl). simpl. lia.
Qed.

Ltac json_lengths :=
  repeat match goal with
  | E : span_digits _ = (_, _) |- _ => apply span_digits_length in E
  | E : strip_prefix _ _ = Some _ |- _ => apply strip_prefix_length in E
  | E : scanstring _ = Some (_, _) |- _ => apply scanstring_length in E
  | E : skip_ws _ = _ :: _ |- _ => apply skip_ws_cons_length in E
  end;
  repeat match goal with
  | |- context [List.length (skip_ws ?x)] =>
      pose proof (skip_ws_length x); generalize dependent (List.length (skip_ws x)); intros
  | _ : context [List.length (skip_ws ?x)] |- _ =>
      pose proof (skip_ws_length x); generalize dependent (List.length (skip_ws x)); intros
  end; simpl in *; lia.

Lemma match_number_length (l r : list ascii) v :
  match_number l = Some (v, r) -> (List.length r < List.length l)%nat.
Proof.
  unfold match_number, match_int, match_frac, match_exp.
  intros H. repeat (case_match; simplify_eq/=); json_lengths.
Qed.

(** The literals and numbers at the end of [scan_once] consume their text. *)
Ltac scalar_length H :=
  repeat match type of H with
  | match strip_prefix ?p ?x with Some _ => _ | None => _ end = _ =>
      let E := fresh "E" in
      destruct (strip_prefix p x) eqn:E;
      [simplify_eq; apply strip_prefix_length in E; simpl in *; lia|]
  | match match_number ?x with Some _ => _ | None => _ end = _ =>
      let E := fresh "E" in
      destruct (match_number x) as [[? ?]|] eqn:E;
      [simplify_eq; apply match_number_length in E; lia|]
  end; done.

Lemma scan_once_length n :
  (forall l v r, scan_once n l = Some (v, r) -> (List.length r < List.length l)%nat) /\
  (forall acc l vs r, parse_array n acc l = Some (vs, r) -> (List.length r < List.length l)%nat) /\
  (forall acc l d r, parse_object n acc l = Some (d, r) -> (List.length r < List.length l)%nat).
Proof.
  induction n as [|f (IHs & IHa & IHo)]; [done|]. split_and!.
  - intros [|c l] v r H; [done|]. cbn [scan_once] in H.
    destruct (Ascii.eqb c dquote).
    { destruct (scanstring l) as [[cs r']|] eqn:E; simplify_eq.
      apply scanstring_length in E. simpl. lia. }
    destruct (Ascii.eqb c "{"%char).
    { destruct (skip_ws l) as [|c' r'] eqn:E; [done|]. apply skip_ws_cons_length in E.
      destruct (Ascii.eqb c' "}"%char); [simplify_eq; simpl; lia|].
      destruct (parse_object f [] (c' :: r')) as [[d r'']|] eqn:Eo; simplify_eq.
      apply IHo in Eo. simpl in *. lia. }
    destruct (Ascii.eqb c "["%char).
    { destruct (skip_ws l) as [|c' r'] eqn:E; [done|]. apply skip_ws_cons_length in E.
      destruct (Ascii.eqb c' "]"%char); [simplify_eq; simpl; lia|].
      destruct (parse_array f [] (c' :: r')) as [[vs r'']|] eqn:Ea; simplify_eq.
      apply IHa in Ea. simpl in *. lia. }
    scalar_length H.
  - intros acc l vs r H. cbn [parse_array] in H.
    destruct (scan_once f l) as [[v r1]|] eqn:Es; [|done]. apply IHs in Es.
    destruct (skip_ws r1) as [|c r'] eqn:E; [done|]. apply skip_ws_cons_length in E.
    destruct (Ascii.eqb c "]"%char); [simplify_eq; lia|].
    destruct (Ascii.eqb c ","%char); [|done].
    apply IHa in H. pose proof (skip_ws_length r'). lia.
  - intros acc [|c l] d r H; [done|]. cbn [parse_object] in H.
    destruct (Ascii.eqb c dquote); [|done].
    destruct (scanstring l) as [[key r1]|] eqn:Ek; [|done]. apply scanstring_length in Ek.
    destruct (skip_ws r1) as [|c1 r2] eqn:E1; [done|]. apply skip_ws_cons_length in E1.
    destruct (Ascii.eqb c1 ":"%char); [|done].
    destruct (scan_once f (skip_ws r2)) as [[v r3]|] eqn:Es; [|done]. apply IHs in Es.
    pose proof (skip_ws_length r2).
    destruct (skip_ws r3) as [|c2 r4] eqn:E3; [done|]. apply skip_ws_cons_length in E3.
    destruct (Ascii.eqb c2 "}"%char); [simplify_eq; simpl in *; lia|].
    destruct (Ascii.eqb c2 ","%char); [|done].
    apply IHo in H. pose proof (skip_ws_length r4). simpl in *. lia.
Qed.

Lemma scan_once_fuel n :
  (forall l m, (2 * List.length l <= n <= m)%nat -> scan_once m l = scan_once n l) /\
  (forall acc l m, (2 * List.length l < n <= m)%nat -> parse_array m acc l = parse_array n acc l) /\
  (forall acc l m, (2 * List.length l < n <= m)%nat -> parse_object m acc l = parse_object n acc l).
Proof.
  induction n as [|f (IHs & IHa & IHo)].
  { split_and!; intros; [destruct l; [by destruct m | simpl in *; lia] | lia | lia]. }
  pose proof (scan_once_length f) as (Ls & _).
  split_and!; [intros l [|m] Hm | intros acc l [|m] Hm | intros acc l [|m] Hm]; try lia.
  - destruct l as [|c r]; [done|]. cbn [scan_once]. pose proof (skip_ws_length r).
    destruct (skip_ws r) as [|c' r'] eqn:E; [done|].
    rewrite (IHa [] (c' :: r') m), (IHo [] (c' :: r') m) by (simpl in *; lia). done.
  - cbn [parse_array]. rewrite (IHs l m) by lia.
    destruct (scan_once f l) as [[v r]|] eqn:Es; [|done]. apply Ls in Es.
    destruct (skip_ws r) as [|c r'] eqn:E; [done|]. apply skip_ws_cons_length in E.
    pose proof (skip_ws_length r').
    case_match; [done|]. case_match; [|done]. apply IHa. lia.
  - destruct l as [|c r]; [done|]. cbn [parse_object].
    case_match; [|done]. destruct (scanstring r) as [[key r1]|] eqn:Ek; [|done].
    apply scanstring_length in Ek.
    destruct (skip_ws r1) as [|c1 r2] eqn:E1; [done|]. apply skip_ws_cons_length in E1.
    case_match; [|done]. pose proof (skip_ws_length r2).
    rewrite (IHs (skip_ws r2) m) by (simpl in *; lia).
    destruct (scan_once f (skip_ws r2)) as [[v r3]|] eqn:Es; [|done]. apply Ls in Es.
    destruct (skip_ws r3) as [|c2 r4] eqn:E3; [done|]. apply skip_ws_cons_length in E3.
    pose proof (skip_ws_length r4).
    case_match; [done|]. case_match; [|done]. apply IHo. simpl in *; lia.
Qed.

(** The fuel of [json_loads] is enough: decoding with any fuel above
    twice the input's length gives the result of [json_loads], so no
    decoding in the development fails for lack of fuel. *)
Theorem json_loads_fuel_enough (s : string) (n : nat) :
  (2 * List.length (chars s) < n)%nat -> json_loads_fuel n s = json_loads s.
Proof.
  intros Hn. unfold json_loads, json_loads_fuel.
  pose proof (skip_ws_length (chars s)).
  rewrite (proj1 (scan_once_fuel (S (2 * List.length (chars s)))) _ n) by lia. done.
Qed.

