(* ===== verification/Aws.v ===== *)
(** * The AWS services the program calls

    The handler talks to two services through boto3 clients: RAM
    ([get_resource_share_associations], [disassociate_resource_share],
    [associate_resource_share]) and DynamoDB ([scan], [put_item],
    [delete_item]).  Their state is the [World]: the failure table (its
    [resourceShareArn] key and the [S] value of its [aws_account]
    attribute), the set of (share, principal) associations of RAM, and the
    trace of mutating requests sent, in order.  What the services answer in
    one invocation is an oracle, [Cloud]: the clock, the pages of the
    association listing, the page size and failure of the table scan, and,
    per request, whether it fails and with which exception.

    boto3's client-side validation is modelled where the code depends on it:
    [principals] must be a list of [str] and an [S] attribute must be a
    [str], otherwise botocore raises [ParamValidationError] before sending
    anything.  A successful [delete_item] of an absent key is a no-op, as in
    DynamoDB. *)

From S2P Require Import Prelude PyDict Json.

(** ** Exceptions *)

Inductive Exn : Type :=
| UnknownResourceException      (** RAM error code; a [ClientError] *)
| InternalServerError           (** DynamoDB error code; a [ClientError] *)
| ResourceNotFoundException     (** DynamoDB error code; a [ClientError] *)
| ServiceError (code : string)  (** any other error response; a [ClientError] *)
| ConnectionError               (** [BotoCoreError]: endpoint or read timeout; not a [ClientError] *)
| ParamValidationError          (** botocore client-side validation; not a [ClientError] *)
| AttributeError                (** Python *)
| KeyError (key : string)       (** Python *)
| JSONDecodeError               (** Python's json *)
| ValueError                    (** Python *)
| IndexError                    (** Python *)
| TypeError                     (** Python *)
| SystemExit (code : Z).        (** Python: [sys.exit], raised by [argparse] *)

#[export] Instance Exn_eq_dec : EqDecision Exn.
Proof. solve_decision. Defined.

(** [isinstance(e, botocore.exceptions.ClientError)] *)
Definition is_client_error (e : Exn) : bool :=
  match e with
  | UnknownResourceException | InternalServerError | ResourceNotFoundException
  | ServiceError _ => true
  | _ => false
  end.

(** ** Data returned by the services *)

(** An element of [resourceShareAssociations]; [creationTime] is the
    datetime as microseconds since the epoch. *)
Record Association : Type := mkAssociation {
  resourceShareArn : string;
  resourceShareName : string;
  associatedEntity : string;
  creationTime : Z;
}.

Inductive ApiCall : Type :=
| DisassociateResourceShare (arn principal : string)
| AssociateResourceShare (arn principal : string)
| PutItem (arn account : string)
| DeleteItem (arn : string).

#[export] Instance ApiCall_eq_dec : EqDecision ApiCall.
Proof. solve_decision. Defined.

Record World : Type := mkWorld {
  ddb_table : gmap string string;
  ram_associations : gset (string * string);
  api_calls : list ApiCall;
}.

Record Cloud : Type := mkCloud {
  time_now : Z;                                   (** [time.time()], microseconds *)
  ram_pages : list (Exn + list Association);      (** ASSOCIATING principal associations *)
  ram_disassociate_error : string -> string -> option Exn;
  ram_associate_error : string -> string -> option Exn;
  ddb_scan_page_size : nat;                       (** items per page, minus one *)
  ddb_scan_error : option (nat * Exn);            (** the page whose request fails *)
  ddb_put_error : string -> string -> option Exn;
  ddb_delete_error : string -> option Exn;
}.

Notation PyM := (SE World Exn).

Definition record_call (a : ApiCall) (w : World) : World :=
  {| ddb_table := ddb_table w; ram_associations := ram_associations w;
     api_calls := api_calls w ++ [a] |}.

Definition set_table (t : gmap string string) (w : World) : World :=
  {| ddb_table := t; ram_associations := ram_associations w; api_calls := api_calls w |}.

Definition set_associations (a : gset (string * string)) (w : World) : World :=
  {| ddb_table := ddb_table w; ram_associations := a; api_calls := api_calls w |}.

(** A request that is sent: it is recorded; on success the state changes by
    [upd]; otherwise the oracle's exception is raised. *)
Definition send (a : ApiCall) (err : option Exn) (upd : World -> World) : PyM unit :=
  fun w => let w1 := record_call a w in
           match err with
           | None => (inr tt, upd w1)
           | Some e => (inl e, w1)
           end.

Section Clients.
Variable c : Cloud.

(** [ram_client.disassociate_resource_share(resourceShareArn=arn, principals=[p])] *)
Definition ram_disassociate_resource_share (arn : string) (p : PyVal) : PyM unit :=
  match p with
  | PyStr s => send (DisassociateResourceShare arn s) (ram_disassociate_error c arn s)
                 (fun w => set_associations (ram_associations w ∖ {[(arn, s)]}) w)
  | _ => se_raise ParamValidationError
  end.

(** [ram_client.associate_resource_share(resourceShareArn=arn, principals=[p])] *)
Definition ram_associate_resource_share (arn : string) (p : PyVal) : PyM unit :=
  match p with
  | PyStr s => send (AssociateResourceShare arn s) (ram_associate_error c arn s)
                 (fun w => set_associations ({[(arn, s)]} ∪ ram_associations w) w)
  | _ => se_raise ParamValidationError
  end.

(** [ddb_client.put_item(TableName=..., Item={resourceShareArn: {S: arn},
    aws_account: {S: v}})] *)
Definition ddb_put_item (arn : string) (v : PyVal) : PyM unit :=
  match v with
  | PyStr s => send (PutItem arn s) (ddb_put_error c arn s)
                 (fun w => set_table (<[arn := s]> (ddb_table w)) w)
  | _ => se_raise ParamValidationError
  end.

(** [ddb_client.delete_item(TableName=..., Key={resourceShareArn: {S: arn}})] *)
Definition ddb_delete_item (arn : string) : PyM unit :=
  send (DeleteItem arn) (ddb_delete_error c arn)
    (fun w => set_table (delete arn (ddb_table w)) w).

(** The pages of [scan] over the table: its items in [map_to_list] order
    (the service's order is unspecified), [ddb_scan_page_size + 1] per
    page, up to the page whose request fails. *)
Fixpoint chunks (n : nat) (fuel : nat) (l : list (string * string)) : list (list (string * string)) :=
  match fuel, l with
  | _, [] => []
  | O, _ => [l]
  | S f, _ => take (S n) l :: chunks n f (drop (S n) l)
  end.

Fixpoint cut_at_error (i : nat) (e : Exn) (pages : list (list (string * string)))
    : list (Exn + list (string * string)) :=
  match i, pages with
  | _, [] => []
  | O, _ => [inl e]
  | S i', p :: ps => inr p :: cut_at_error i' e ps
  end.

(** The pages of one scan: the first request is always sent, so an empty
    table gives one empty page. *)
Definition scan_pages (n : nat) (items : list (string * string)) : list (list (string * string)) :=
  match items with
  | [] => [[]]
  | _ => chunks n (length items) items
  end.

Definition ddb_scan_pages (t : gmap string string) : list (Exn + list (string * string)) :=
  let items := map_to_list t in
  let pages := scan_pages (ddb_scan_page_size c) items in
  match ddb_scan_error c with
  | None => map inr pages
  | Some (i, e) => cut_at_error i e pages
  end.
End Clients.

(** Iterating over a paginator: a page whose request failed raises. *)
Definition for_pages {S A P} (pages : list (Exn + P)) (body : A -> P -> SE S Exn A) (acc : A)
    : SE S Exn A :=
  se_foldM (fun acc pg => match pg with inl e => se_raise e | inr p => body acc p end) acc pages.

(** ** Frame lemmas *)

Lemma send_table a err upd w :
  (forall w', ddb_table (upd w') = ddb_table w') ->
  ddb_table (snd (send a err upd w)) = ddb_table w.
Proof. intros Hu. unfold send. destruct err; simpl; [done|]. by rewrite Hu. Qed.

Lemma chunks_concat n fuel l : length l <= fuel -> concat (chunks n fuel l) = l.
Proof.
  revert l. induction fuel as [|f IH]; intros l Hl; destruct l as [|x l]; simpl in *; try done; try lia.
  rewrite IH by (rewrite length_drop; simpl; lia).
  by rewrite <- (take_drop n l) at 3.
Qed.

Lemma scan_pages_concat n l : concat (scan_pages n l) = l.
Proof. destruct l as [|x l]; [done|]. by apply chunks_concat. Qed.

(** ** Concrete clouds and worlds for the examples *)

(** A cloud in which every request succeeds and nothing is listed. *)
Definition cloud_ok : Cloud :=
  {| time_now := 0; ram_pages := [];
     ram_disassociate_error := fun _ _ => None; ram_associate_error := fun _ _ => None;
     ddb_scan_page_size := 0; ddb_scan_error := None;
     ddb_put_error := fun _ _ => None; ddb_delete_error := fun _ => None |}.

Definition world_of (t : list (string * string)) (a : list (string * string)) : World :=
  {| ddb_table := list_to_map t; ram_associations := list_to_set a; api_calls := [] |}.

(** ** Requests that concern one share

    [only_at k w w']: from [w] to [w'] nothing changed outside share [k]:
    the table and the associations of every other share are the same, and
    every request sent in between concerns [k]. *)

Definition call_key (a : ApiCall) : string :=
  match a with
  | DisassociateResourceShare k _ | AssociateResourceShare k _ | PutItem k _ | DeleteItem k => k
  end.

Definition only_at (k : string) (w w' : World) : Prop :=
  (forall k', k' <> k -> ddb_table w' !! k' = ddb_table w !! k') /\
  (forall k' p, k' <> k -> (k', p) ∈ ram_associations w' <-> (k', p) ∈ ram_associations w) /\
  exists new, api_calls w' = api_calls w ++ new /\ Forall (fun a => call_key a = k) new.

Lemma only_at_refl k w : only_at k w w.
Proof. split_and!; [done|done|]. exists []. by rewrite app_nil_r. Qed.

Lemma only_at_trans k w1 w2 w3 : only_at k w1 w2 -> only_at k w2 w3 -> only_at k w1 w3.
Proof.
  intros (Ht1 & Ha1 & n1 & Hc1 & Hf1) (Ht2 & Ha2 & n2 & Hc2 & Hf2). split_and!.
  - intros k' Hk. by rewrite Ht2, Ht1.
  - intros k' p Hk. by rewrite Ha2, Ha1.
  - exists (n1 ++ n2). rewrite Hc2, Hc1, app_assoc. split; [done|]. by apply Forall_app.
Qed.

Lemma send_only_at k a err upd w :
  call_key a = k -> only_at k (record_call a w) (upd (record_call a w)) ->
  only_at k w (snd (send a err upd w)).
Proof.
  intros Hk Hupd. apply (only_at_trans _ _ (record_call a w)).
  - split_and!; [done|done|]. exists [a]. split; [done|]. by constructor.
  - unfold send. destruct err; [apply only_at_refl|done].
Qed.

Section ClientFrames.
Variable c : Cloud.
Variable k : string.

Lemma set_table_only_at w t :
  (forall k', k' <> k -> t !! k' = ddb_table w !! k') -> only_at k w (set_table t w).
Proof. intros Ht. split_and!; [done|done|]. exists []. by rewrite app_nil_r. Qed.

Lemma set_associations_only_at w a :
  (forall k' p, k' <> k -> (k', p) ∈ a <-> (k', p) ∈ ram_associations w) ->
  only_at k w (set_associations a w).
Proof. intros Ha. split_and!; [done|done|]. exists []. by rewrite app_nil_r. Qed.

Lemma ram_disassociate_only_at p w :
  only_at k w (snd (ram_disassociate_resource_share c k p w)).
Proof.
  destruct p; try apply only_at_refl. apply send_only_at; [done|].
  apply set_associations_only_at. intros k' p Hk. set_solver.
Qed.

Lemma ram_associate_only_at p w :
  only_at k w (snd (ram_associate_resource_share c k p w)).
Proof.
  destruct p; try apply only_at_refl. apply send_only_at; [done|].
  apply set_associations_only_at. intros k' p Hk. set_solver.
Qed.

Lemma ddb_put_only_at v w : only_at k w (snd (ddb_put_item c k v w)).
Proof.
  destruct v; try apply only_at_refl. apply send_only_at; [done|].
  apply set_table_only_at. intros k' Hk. by rewrite lookup_insert_ne.
Qed.

Lemma ddb_delete_only_at w : only_at k w (snd (ddb_delete_item c k w)).
Proof.
  apply send_only_at; [done|]. apply set_table_only_at. intros k' Hk.
  by rewrite lookup_delete_ne.
Qed.
End ClientFrames.

#[export] Hint Resolve only_at_refl ram_disassociate_only_at ram_associate_only_at
  ddb_put_only_at ddb_delete_only_at : lfm.

(** [untouched arn w0 w]: between [w0] and [w] the table entry of [arn] and
    the associations of share [arn] did not change, and no request about
    [arn] was sent. *)
Definition untouched (arn : string) (w0 w : World) : Prop :=
  ddb_table w !! arn = ddb_table w0 !! arn /\
  (forall p, (arn, p) ∈ ram_associations w <-> (arn, p) ∈ ram_associations w0) /\
  exists new, api_calls w = api_calls w0 ++ new /\ Forall (fun a => call_key a <> arn) new.

Lemma untouched_refl arn w : untouched arn w w.
Proof. split_and!; [done|done|]. exists []. by rewrite app_nil_r. Qed.

Lemma untouched_trans arn w1 w2 w3 :
  untouched arn w1 w2 -> untouched arn w2 w3 -> untouched arn w1 w3.
Proof.
  intros (Ht1 & Ha1 & n1 & Hc1 & Hf1) (Ht2 & Ha2 & n2 & Hc2 & Hf2). split_and!.
  - by rewrite Ht2, Ht1.
  - intros p. by rewrite Ha2, Ha1.
  - exists (n1 ++ n2). rewrite Hc2, Hc1, app_assoc. split; [done|]. by apply Forall_app.
Qed.

Lemma only_at_untouched arn k w0 w w' :
  k <> arn -> untouched arn w0 w -> only_at k w w' -> untouched arn w0 w'.
Proof.
  intros Hk Hu (Ht & Ha & n & Hc & Hf). eapply untouched_trans; [exact Hu|].
  split_and!.
  - by apply Ht.
  - intros p. by apply Ha.
  - exists n. split; [done|]. eapply Forall_impl; [exact Hf|]. intros a ->. done.
Qed.

(** A paginated read whose body does not change the state does not change
    it either. *)
Lemma for_pages_pure {S A P} (pages : list (Exn + P)) (body : A -> P -> SE S Exn A) acc s :
  (forall a p s', snd (body a p s') = s') -> snd (for_pages pages body acc s) = s.
Proof.
  intros Hb. apply (se_preserves_foldM (fun s' => s' = s)); [|done].
  intros a [e|p] _ s' ->; [done|]. apply Hb.
Qed.

Lemma for_pages_inr {S A P} (pages : list (Exn + P)) body (acc : A) (s : S) a s' :
  for_pages pages body acc s = (inr a, s') -> exists ps, pages = map inr ps.
Proof.
  unfold for_pages. revert acc s.
  induction pages as [|[e|p] pages IH]; intros acc s; cbn [se_foldM].
  - by exists [].
  - unfold se_bind, se_raise. intros; discriminate.
  - unfold se_bind. destruct (body acc p s) as [[e|a'] s'']; [intros; discriminate|].
    intros H. destruct (IH _ _ H) as [ps ->]. by exists (p :: ps).
Qed.

(** Iterating pages of items is iterating the items. *)
Lemma for_pages_concat {S A X} (ps : list (list X)) (f : A -> X -> SE S Exn A) acc s :
  for_pages (map inr ps) (fun acc p => se_foldM f acc p) acc s = se_foldM f acc (concat ps) s.
Proof.
  revert acc s. induction ps as [|p ps IH]; intros acc s; [done|].
  cbn [map concat]. rewrite se_foldM_app. unfold for_pages in *. simpl.
  unfold se_bind at 1 2. destruct (se_foldM f acc p s) as [[e|a] s']; [done|]. apply IH.
Qed.

(** A cloud that lists [pages] at time [now] and gives the same reply to
    every request of each kind. *)
Definition cloud_with (now : Z) (pages : list (Exn + list Association))
    (dis ass put del : option Exn) : Cloud :=
  {| time_now := now; ram_pages := pages;
     ram_disassociate_error := fun _ _ => dis; ram_associate_error := fun _ _ => ass;
     ddb_scan_page_size := 0; ddb_scan_error := None;
     ddb_put_error := fun _ _ => put; ddb_delete_error := fun _ => del |}.
