(* ===== verification/RamManager.v ===== *)
(** * ram_manager.py: class [RamManager]

    [RamManager] keeps the cutoff [timeout_timestamp = int(time.time()) -
    timeout_in_secs] and the [dry_run] flag.  The scan of expired
    invitations is read-only; the two RAM calls are sent only when
    [dry_run] is true (the flag's name is the opposite of its effect). *)

From S2P Require Import Prelude PyDict Json Aws.

Module RamManager.

Record RamManager : Type := mkRamManager {
  timeout_timestamp : Z;
  dry_run : bool;
}.

(** [int(t)] of a timestamp [t] given in microseconds: truncation toward
    zero. *)
Definition py_int_seconds (us : Z) : Z := Z.quot us 1000000.

(** [RamManager.__init__] *)
Definition init (c : Cloud) (timeout_in_secs : Z) (dry_run : bool) : RamManager :=
  {| timeout_timestamp := py_int_seconds (time_now c) - timeout_in_secs;
     dry_run := dry_run |}.

(** The test of the inner loop: [invitation["resourceShareName"].startswith
    ("LakeFormation-") and int(self.timeout_timestamp) > int(invite_ts)]. *)
Definition is_expired (m : RamManager) (inv : Association) : bool :=
  String.prefix "LakeFormation-" (resourceShareName inv)
  && (py_int_seconds (creationTime inv) <? timeout_timestamp m)%Z.

(** The loop over the invitations of one page. *)
Definition collect_page (m : RamManager) (expired : list (string * PyVal))
    (page : list Association) : list (string * PyVal) :=
  fold_left (fun d inv =>
               if is_expired m inv
               then dict_setitem d (resourceShareArn inv) (PyStr (associatedEntity inv))
               else d) page expired.

(** [get_new_expired_ram_invitations] *)
Definition get_new_expired_ram_invitations (c : Cloud) (m : RamManager)
    : PyM (list (string * PyVal)) :=
  for_pages (ram_pages c) (fun expired page => se_ret (collect_page m expired page)) [].

(** [deassociate_account_from_ram_share] *)
Definition deassociate_account_from_ram_share (c : Cloud) (m : RamManager)
    (resource_share_arn : string) (aws_account_id : PyVal) : PyM unit :=
  if dry_run m then ram_disassociate_resource_share c resource_share_arn aws_account_id
  else se_ret tt.

(** [associate_account_with_ram_share] *)
Definition associate_account_with_ram_share (c : Cloud) (m : RamManager)
    (resource_share_arn : string) (aws_account_id : PyVal) : PyM unit :=
  if dry_run m then ram_associate_resource_share c resource_share_arn aws_account_id
  else se_ret tt.

(** ** The scan *)

Lemma collect_page_app m d l1 l2 :
  collect_page m d (l1 ++ l2) = collect_page m (collect_page m d l1) l2.
Proof. unfold collect_page. apply fold_left_app. Qed.

Lemma collect_page_wf m d l : dict_wf d -> dict_wf (collect_page m d l).
Proof.
  unfold collect_page. revert d. induction l as [|a l IH]; intros d Hd; simpl; [done|].
  apply IH. case_match; [by apply dict_setitem_wf|done].
Qed.

(** Last write wins: the value kept for an ARN is the entity of the last
    expired association with that ARN; an ARN is kept iff some expired
    association has it. *)
Lemma collect_page_get m d l k :
  dict_get (collect_page m d l) k =
  match last (filter (fun a => is_expired m a = true /\ resourceShareArn a = k) l) with
  | Some a => Some (PyStr (associatedEntity a))
  | None => dict_get d k
  end.
Proof.
  revert d. induction l as [|a l IH] using rev_ind; intros d; [done|].
  rewrite collect_page_app, filter_app. simpl.
  destruct (is_expired m a) eqn:Ha.
  - rewrite dict_get_setitem. rewrite IH.
    destruct (decide (k = resourceShareArn a)) as [->|Hne].
    + rewrite filter_cons_True by done. by rewrite last_app.
    + rewrite filter_cons_False by naive_solver. by rewrite app_nil_r.
  - rewrite IH, filter_cons_False by (intros [? _]; congruence). by rewrite app_nil_r.
Qed.

Lemma for_pages_ret_ok {S A P} (ps : list P) (f : A -> P -> A) acc (s : S) :
  for_pages (map inr ps) (fun a p => se_ret (f a p)) acc s = (inr (fold_left f ps acc), s).
Proof. revert acc. induction ps as [|p ps IH]; intros acc; [done|]. apply IH. Qed.

Lemma for_pages_ret_err {S A P} (ps : list P) e rest (f : A -> P -> A) acc (s : S) :
  for_pages (map inr ps ++ inl e :: rest) (fun a p => se_ret (f a p)) acc s = (inl e, s).
Proof. revert acc. induction ps as [|p ps IH]; intros acc; [done|]. apply IH. Qed.

Lemma collect_pages m ps :
  fold_left (collect_page m) ps [] = collect_page m [] (concat ps).
Proof.
  assert (forall d, fold_left (collect_page m) ps d = collect_page m d (concat ps)) as H;
    [|apply H].
  induction ps as [|p ps IH]; intros d; simpl; [done|]. by rewrite IH, collect_page_app.
Qed.

Lemma get_new_expired_ok c m w d w' :
  get_new_expired_ram_invitations c m w = (inr d, w') ->
  exists ps, ram_pages c = map inr ps /\ d = collect_page m [] (concat ps) /\ w' = w.
Proof.
  unfold get_new_expired_ram_invitations. intros H.
  pose proof (for_pages_inr _ _ _ _ _ _ H) as [ps Hps]. rewrite Hps, for_pages_ret_ok in H.
  injection H as <- <-. exists ps. split_and!; [done| |done]. apply collect_pages.
Qed.

Lemma get_new_expired_wf c m w d w' :
  get_new_expired_ram_invitations c m w = (inr d, w') -> dict_wf d.
Proof.
  intros H. apply get_new_expired_ok in H as (ps & _ & -> & _).
  apply collect_page_wf. constructor.
Qed.

Lemma collect_page_none m d l :
  Forall (fun a => is_expired m a = false) l -> collect_page m d l = d.
Proof.
  intros Hl. unfold collect_page. revert d. induction Hl as [|a l Ha _ IH]; intros d; [done|].
  simpl. rewrite Ha. apply IH.
Qed.

Lemma collect_page_str m d l :
  Forall (fun kv => is_str kv.2 = true) d -> Forall (fun kv => is_str kv.2 = true) (collect_page m d l).
Proof.
  unfold collect_page. revert d. induction l as [|a l IH]; intros d Hd; simpl; [done|].
  apply IH. case_match; [|done].
  apply Forall_forall. intros kv Hin. destruct (dict_setitem_elem _ _ _ _ Hin) as [Hkv | ->].
  - by eapply Forall_forall in Hd.
  - done.
Qed.

(** Every key the scan keeps comes from an expired association. *)
Lemma collect_page_keys m d l k :
  k ∈ (collect_page m d l).*1 ->
  k ∈ d.*1 \/ exists inv, inv ∈ l /\ is_expired m inv = true /\ resourceShareArn inv = k.
Proof.
  unfold collect_page. revert d. induction l as [|a l IH]; intros d Hk; simpl in Hk; [by left|].
  destruct (IH _ Hk) as [Hd|(inv & Hin & He & Ha)]; [|right; exists inv; set_solver].
  destruct (is_expired m a) eqn:E; [|by left].
  rewrite dict_setitem_keys in Hd. case_decide; [by left|].
  apply elem_of_app in Hd as [Hd | ->%list_elem_of_singleton]; [by left|].
  right. exists a. set_solver.
Qed.

(** The scan sends nothing and changes nothing. *)
Lemma get_new_expired_pure c m w : snd (get_new_expired_ram_invitations c m w) = w.
Proof. by apply for_pages_pure. Qed.

(** ** The scanner's contract *)

(** C8: when every page of the listing arrives, the scan returns, changes
    nothing, and maps each share to the principal of the last expired
    association of that share in listing order; a share with no expired
    association is absent. *)
Theorem get_new_expired_ram_invitations_spec c m w ps :
  ram_pages c = map inr ps ->
  exists d, get_new_expired_ram_invitations c m w = (inr d, w) /\ dict_wf d /\
    forall k, dict_get d k =
      option_map (fun a => PyStr (associatedEntity a))
        (last (filter (fun a => is_expired m a = true /\ resourceShareArn a = k) (concat ps))).
Proof.
  intros Hp. exists (collect_page m [] (concat ps)).
  unfold get_new_expired_ram_invitations. rewrite Hp, for_pages_ret_ok, collect_pages.
  split_and!; [done|apply collect_page_wf; constructor|].
  intros k. rewrite collect_page_get. by destruct (last _).
Qed.

Lemma get_new_expired_ram_invitations_spec_witness :
  let a := mkAssociation "arn:s" "LakeFormation-x" "111" 0 in
  let c := {| time_now := 100000000; ram_pages := [inr [a]];
              ram_disassociate_error := fun _ _ => None; ram_associate_error := fun _ _ => None;
              ddb_scan_page_size := 0; ddb_scan_error := None;
              ddb_put_error := fun _ _ => None; ddb_delete_error := fun _ => None |} in
  ram_pages c = map inr [[a]] /\
  exists d, get_new_expired_ram_invitations c (init c 10 true) (world_of [] []) =
              (inr d, world_of [] []) /\ dict_wf d /\
    forall k, dict_get d k =
      option_map (fun a => PyStr (associatedEntity a))
        (last (filter (fun a => is_expired (init c 10 true) a = true /\ resourceShareArn a = k)
                 (concat [[a]]))).
Proof.
  intros a c. assert (H : ram_pages c = map inr [[a]]) by reflexivity.
  split; [exact H|exact (get_new_expired_ram_invitations_spec c (init c 10 true) _ _ H)].
Defined.

(** C19: a listing error raised by a page stops the scan with that error,
    whatever the pages before it held; nothing is sent. *)
Theorem get_new_expired_ram_invitations_error c m w ps e rest :
  ram_pages c = map inr ps ++ inl e :: rest ->
  get_new_expired_ram_invitations c m w = (inl e, w).
Proof. intros Hp. unfold get_new_expired_ram_invitations. by rewrite Hp, for_pages_ret_err. Qed.

Lemma get_new_expired_ram_invitations_error_witness :
  let c := {| time_now := 0; ram_pages := [inr []; inl InternalServerError];
              ram_disassociate_error := fun _ _ => None; ram_associate_error := fun _ _ => None;
              ddb_scan_page_size := 0; ddb_scan_error := None;
              ddb_put_error := fun _ _ => None; ddb_delete_error := fun _ => None |} in
  ram_pages c = map inr [[]] ++ inl InternalServerError :: [] /\
  get_new_expired_ram_invitations c (init c 10 true) (world_of [] [])
    = (inl InternalServerError, world_of [] []).
Proof.
  intros c. assert (H : ram_pages c = map inr [[]] ++ inl InternalServerError :: [])
    by reflexivity.
  split; [exact H|exact (get_new_expired_ram_invitations_error c _ _ _ _ _ H)].
Defined.

(** ** The cutoff *)

Section Cutoff.
Local Open Scope Z_scope.

Lemma quot_lt_iff (x t : Z) : 0 <= x -> x ÷ 1000000 < t <-> x < t * 1000000.
Proof. intros Hx. rewrite Z.quot_div_nonneg by lia. Z.div_mod_to_equations. lia. Qed.

(** C18: for a creation time after the epoch, an association is expired
    exactly when its share is a [LakeFormation-] share and it was created
    before the start of the second [timeout_timestamp]: the comparison is
    on whole seconds. *)
Theorem is_expired_iff m a :
  0 <= creationTime a ->
  is_expired m a = true <->
  String.prefix "LakeFormation-" (resourceShareName a) = true /\
  creationTime a < timeout_timestamp m * 1000000.
Proof.
  intros Hc. unfold is_expired, py_int_seconds.
  rewrite andb_true_iff, Z.ltb_lt, quot_lt_iff by done. done.
Qed.

Lemma is_expired_iff_witness :
  let m := mkRamManager 90 true in
  let a := mkAssociation "arn:s" "LakeFormation-x" "111" 89999999 in
  0 <= creationTime a /\
  (is_expired m a = true <->
   String.prefix "LakeFormation-" (resourceShareName a) = true /\
   creationTime a < timeout_timestamp m * 1000000).
Proof.
  intros m a. assert (H : 0 <= creationTime a) by (simpl; lia).
  split; [exact H|exact (is_expired_iff m a H)].
Defined.

(** C9: the scan selects only associations that really are older than the
    timeout: a selected association was created more than
    [timeout_in_secs] seconds before the run started. *)
Theorem is_expired_sound c timeout dry a :
  0 <= time_now c -> 0 <= creationTime a ->
  is_expired (init c timeout dry) a = true ->
  creationTime a + timeout * 1000000 < time_now c.
Proof.
  intros Hn Hc. unfold is_expired, init, py_int_seconds. simpl.
  rewrite andb_true_iff, Z.ltb_lt, !Z.quot_div_nonneg by lia. intros [_ H].
  Z.div_mod_to_equations. lia.
Qed.

Lemma is_expired_sound_witness :
  let c := {| time_now := 100000000; ram_pages := [];
              ram_disassociate_error := fun _ _ => None; ram_associate_error := fun _ _ => None;
              ddb_scan_page_size := 0; ddb_scan_error := None;
              ddb_put_error := fun _ _ => None; ddb_delete_error := fun _ => None |} in
  let a := mkAssociation "arn:s" "LakeFormation-x" "111" 89000000 in
  0 <= time_now c /\ 0 <= creationTime a /\ is_expired (init c 10 true) a = true /\
  creationTime a + 10 * 1000000 < time_now c.
Proof.
  intros c a.
  assert (H1 : 0 <= time_now c) by (simpl; lia).
  assert (H2 : 0 <= creationTime a) by (simpl; lia).
  assert (H3 : is_expired (init c 10 true) a = true) by reflexivity.
  split_and!; [exact H1|exact H2|exact H3|exact (is_expired_sound c 10 true a H1 H2 H3)].
Defined.

End Cutoff.

End RamManager.
