(* ===== verification/DdbManager.v ===== *)
(** * ddb_manager.py: class [DdbManager]

    The failure table maps [resourceShareArn] to the [S] string of the
    [aws_account] attribute.  [add_resource_share_to_ddb] writes the account
    as it is, while [get_previously_failed_accounts_for_resource_share]
    reads it back through [json.loads]: the two are not inverse, which the
    theorems of this file make precise.

    In [add_resource_share_to_ddb] the [except] clause names
    [self.ddb_client.meta.client.exceptions.InternalServerError].  The
    client is a low-level [boto3.client("dynamodb")], whose [meta] has no
    attribute [client]: evaluating the clause, which Python does only when
    [put_item] raised, raises [AttributeError].  So every failure of
    [put_item] leaves the method as [AttributeError] and the
    [logger.critical] line is never reached. *)

From S2P Require Import Prelude PyDict Json Aws.

Module DdbManager.

Record DdbManager : Type := mkDdbManager { ddb_table_name : string }.

(** One item of a scan page: [permissions_from_ddb[item["resourceShareArn"]
    ["S"]] = json.loads(item["aws_account"]["S"])]. *)
Definition decode_item (acc : list (string * PyVal)) (item : string * string)
    : PyM (list (string * PyVal)) :=
  match json_loads item.2 with
  | Some v => se_ret (dict_setitem acc item.1 v)
  | None => se_raise JSONDecodeError
  end.

(** [get_previously_failed_accounts_for_resource_share] *)
Definition get_previously_failed_accounts_for_resource_share (c : Cloud) (m : DdbManager)
    : PyM (list (string * PyVal)) :=
  let* w := se_get in
  for_pages (ddb_scan_pages c (ddb_table w)) (fun acc page => se_foldM decode_item acc page) [].

(** [add_resource_share_to_ddb] *)
Definition add_resource_share_to_ddb (c : Cloud) (m : DdbManager)
    (resource_share_arn : string) (aws_account_id : PyVal) : PyM unit :=
  se_try (ddb_put_item c resource_share_arn aws_account_id)
         (fun _ => Some (se_raise AttributeError)).

(** [remove_resource_share_from_ddb] *)
Definition remove_resource_share_from_ddb (c : Cloud) (m : DdbManager)
    (resource_share_arn : string) : PyM unit :=
  se_try (ddb_delete_item c resource_share_arn)
         (fun e => if decide (e = ResourceNotFoundException) then Some (se_ret tt) else None).

(** ** Reading the table *)

Lemma decode_items_ok (items : list (string * string)) acc w :
  Forall (fun it => is_Some (json_loads it.2)) items ->
  se_foldM decode_item acc items w
  = (inr (fold_left (fun d it => match json_loads it.2 with
                                 | Some v => dict_setitem d it.1 v
                                 | None => d end) items acc), w).
Proof.
  intros Hall. revert acc. induction Hall as [|[k s] items [v Hv] _ IH]; intros acc; [done|].
  cbn [se_foldM]. unfold se_bind, decode_item. simpl in *. rewrite Hv. apply IH.
Qed.

Lemma decode_items_err (pre : list (string * string)) k s post acc w :
  Forall (fun it => is_Some (json_loads it.2)) pre -> json_loads s = None ->
  se_foldM decode_item acc (pre ++ (k, s) :: post) w = (inl JSONDecodeError, w).
Proof.
  intros Hpre Hs. rewrite se_foldM_app. erewrite se_bind_inr by (by apply decode_items_ok).
  cbn [se_foldM]. unfold se_bind, decode_item. simpl. by rewrite Hs.
Qed.

Lemma for_pages_decode_ok (ps : list (list (string * string))) acc w :
  Forall (fun it => is_Some (json_loads it.2)) (concat ps) ->
  for_pages (map inr ps) (fun acc page => se_foldM decode_item acc page) acc w
  = (inr (fold_left (fun d it => match json_loads it.2 with
                                 | Some v => dict_setitem d it.1 v
                                 | None => d end) (concat ps) acc), w).
Proof.
  revert acc. induction ps as [|p ps IH]; intros acc Hall; [done|].
  simpl in Hall. apply Forall_app in Hall as [Hp Hps].
  cbn [map for_pages se_foldM]. unfold se_bind at 1. rewrite decode_items_ok by done.
  unfold for_pages in IH. rewrite IH by done. cbn [concat]. by rewrite fold_left_app.
Qed.

(** ** Writing and deleting *)

Lemma put_item_table c arn v w :
  ddb_table (snd (ddb_put_item c arn v w)) =
  match v, ddb_put_error c arn (match v with PyStr s => s | _ => "" end) with
  | PyStr s, None => <[arn := s]> (ddb_table w)
  | _, _ => ddb_table w
  end.
Proof. unfold ddb_put_item, send. destruct v; simpl; try done. by destruct ddb_put_error. Qed.

(** The pages of a scan, when every page was fetched, hold the table's
    items. *)
Lemma cut_at_error_inr i e (pages : list (list (string * string))) ps :
  cut_at_error i e pages = map inr ps -> ps = pages.
Proof.
  revert i ps. induction pages as [|p pages IH]; intros i ps; destruct i, ps; simpl; try done.
  intros [= -> H]. f_equal. by eapply IH.
Qed.

Lemma ddb_scan_pages_concat c t ps :
  ddb_scan_pages c t = map inr ps -> concat ps = map_to_list t.
Proof.
  unfold ddb_scan_pages. intros H.
  assert (ps = scan_pages (ddb_scan_page_size c) (map_to_list t)) as ->.
  { destruct (ddb_scan_error c) as [[i e]|].
    - by eapply cut_at_error_inr.
    - by apply (inj (fmap inr)) in H. }
  apply scan_pages_concat.
Qed.

Lemma decode_items_Exists (l : list (string * string)) acc w :
  Exists (fun it => json_loads it.2 = None) l ->
  se_foldM decode_item acc l w = (inl JSONDecodeError, w).
Proof.
  revert acc. induction l as [|[k s] l IH]; intros acc Hex; [by inversion Hex|].
  cbn [se_foldM]. unfold se_bind, decode_item. simpl.
  destruct (json_loads s) eqn:Hs; [|done].
  apply IH. inversion Hex as [? ? Hn|]; subst; [simpl in Hn; congruence|done].
Qed.

Lemma decode_fold_get (l : list (string * string)) d0 k :
  NoDup l.*1 -> Forall (fun it => is_Some (json_loads it.2)) l ->
  dict_get (fold_left (fun d it => match json_loads it.2 with
                                   | Some v => dict_setitem d it.1 v
                                   | None => d end) l d0) k
  = match (list_to_map l : gmap string string) !! k with
    | Some s => json_loads s
    | None => dict_get d0 k
    end.
Proof.
  revert d0. induction l as [|[k0 s0] l IH]; intros d0 Hnd Hall; [done|].
  inversion Hnd as [|? ? Hnin Hnd']; subst. inversion Hall as [|? ? [v Hv] Hall']; subst.
  simpl in *. rewrite Hv, IH by done. rewrite lookup_insert, dict_get_setitem.
  destruct (decide (k0 = k)) as [->|Hne].
  - assert ((list_to_map l : gmap string string) !! k = None) as ->
      by (apply not_elem_of_list_to_map; done).
    by rewrite !decide_True.
  - by rewrite !decide_False by congruence.
Qed.

Lemma decode_fold_wf (l : list (string * string)) d0 :
  dict_wf d0 ->
  dict_wf (fold_left (fun d it => match json_loads it.2 with
                                  | Some v => dict_setitem d it.1 v
                                  | None => d end) l d0).
Proof.
  revert d0. induction l as [|[k s] l IH]; intros d0 Hd0; simpl; [done|].
  apply IH. destruct (json_loads s); [by apply dict_setitem_wf|done].
Qed.

(** ** Reading the table refines the table composed with [json.loads]

    When the read returns, the state is unchanged and the dict maps each
    ARN of the table to the decoding of its stored account, and nothing
    else. *)
Lemma get_previously_failed_ok c m w d w' :
  get_previously_failed_accounts_for_resource_share c m w = (inr d, w') ->
  w' = w /\ dict_wf d /\ (forall k, dict_get d k = ddb_table w !! k ≫= json_loads) /\
  (forall k s, ddb_table w !! k = Some s -> is_Some (json_loads s)).
Proof.
  unfold get_previously_failed_accounts_for_resource_share, se_bind, se_get. intros H.
  pose proof (for_pages_inr _ _ _ _ _ _ H) as [ps Hps].
  pose proof (ddb_scan_pages_concat _ _ _ Hps) as Hcat.
  rewrite Hps, for_pages_concat, Hcat in H.
  destruct (decide (Forall (fun it => is_Some (json_loads it.2)) (map_to_list (ddb_table w))))
    as [Hall|Hnot].
  - rewrite decode_items_ok in H by done. injection H as <- <-. split_and!; [done| | |].
    + apply decode_fold_wf. constructor.
    + intros k. rewrite decode_fold_get by (done || apply NoDup_fst_map_to_list).
      rewrite list_to_map_to_list. by destruct (ddb_table w !! k).
    + intros k s Hk. rewrite Forall_forall in Hall. apply (Hall (k, s)).
      by apply elem_of_map_to_list.
  - apply not_Forall_Exists in Hnot; [|intros x; apply _].
    rewrite decode_items_Exists in H; [discriminate|].
    eapply Exists_impl; [exact Hnot|]. intros [k s] Hns. unfold compose in Hns. simpl in *.
    destruct (json_loads s); [exfalso; apply Hns; eauto|done].
Qed.

Lemma add_ok_table c m arn acct w w' :
  add_resource_share_to_ddb c m arn (PyStr acct) w = (inr tt, w') ->
  ddb_table w' = <[arn := acct]> (ddb_table w).
Proof.
  unfold add_resource_share_to_ddb, se_try, ddb_put_item, send.
  destruct (ddb_put_error c arn acct); simpl; [discriminate|]. by intros [= <-].
Qed.

(** C3: a record written by [add_resource_share_to_ddb] is never read back
    as the [str] that was written: the account is stored without JSON
    quoting and decoded with [json.loads]. *)
Theorem add_then_get_not_roundtrip c m arn acct w w' d w'' :
  add_resource_share_to_ddb c m arn (PyStr acct) w = (inr tt, w') ->
  get_previously_failed_accounts_for_resource_share c m w' = (inr d, w'') ->
  dict_get d arn <> Some (PyStr acct).
Proof.
  intros Hadd Hget. apply add_ok_table in Hadd.
  apply get_previously_failed_ok in Hget as (_ & _ & Hd & _).
  rewrite Hd, Hadd, lookup_insert_eq. apply json_loads_not_self.
Qed.

Lemma add_then_get_not_roundtrip_witness :
  let m := mkDdbManager "t" in
  let w1 := snd (add_resource_share_to_ddb cloud_ok m "arn:s" (PyStr "111111111111")
                   (world_of [] [])) in
  let r := get_previously_failed_accounts_for_resource_share cloud_ok m w1 in
  add_resource_share_to_ddb cloud_ok m "arn:s" (PyStr "111111111111") (world_of [] [])
    = (inr tt, w1) /\
  r = (inr [("arn:s", PyInt 111111111111)], w1) /\
  dict_get [("arn:s", PyInt 111111111111)] "arn:s" <> Some (PyStr "111111111111").
Proof.
  intros m w1 r.
  assert (H1 : add_resource_share_to_ddb cloud_ok m "arn:s" (PyStr "111111111111")
                 (world_of [] []) = (inr tt, w1)) by reflexivity.
  assert (H2 : r = (inr [("arn:s", PyInt 111111111111)], w1)) by (vm_compute; reflexivity).
  split; [exact H1|]. split; [exact H2|].
  exact (add_then_get_not_roundtrip _ _ _ _ _ _ _ _ H1 H2).
Defined.

(** An empty table reads as an empty dict when its one scan request
    succeeds. *)
Lemma get_previously_failed_empty c m w :
  ddb_scan_error c = None -> ddb_table w = ∅ ->
  get_previously_failed_accounts_for_resource_share c m w = (inr [], w).
Proof.
  intros He Ht. unfold get_previously_failed_accounts_for_resource_share, se_bind, se_get,
    ddb_scan_pages.
  by rewrite Ht, map_to_list_empty, He.
Qed.

(** When the scan succeeds and every stored account decodes, the read
    returns. *)
Lemma get_previously_failed_total c m w :
  ddb_scan_error c = None ->
  (forall k s, ddb_table w !! k = Some s -> is_Some (json_loads s)) ->
  exists d, get_previously_failed_accounts_for_resource_share c m w = (inr d, w).
Proof.
  intros He Hall. unfold get_previously_failed_accounts_for_resource_share, se_bind, se_get.
  assert (ddb_scan_pages c (ddb_table w) =
          map inr (scan_pages (ddb_scan_page_size c) (map_to_list (ddb_table w)))) as Hp
    by (unfold ddb_scan_pages; by rewrite He).
  rewrite Hp, for_pages_concat, scan_pages_concat.
  rewrite decode_items_ok; [by eexists|].
  apply Forall_forall. intros [k s] Hin. apply elem_of_map_to_list in Hin. by apply (Hall k).
Qed.

(** The read sends nothing and changes nothing. *)
Lemma get_previously_failed_pure c m w :
  snd (get_previously_failed_accounts_for_resource_share c m w) = w.
Proof.
  unfold get_previously_failed_accounts_for_resource_share, se_bind, se_get.
  apply for_pages_pure. intros a p s'.
  apply (se_preserves_foldM (fun s => s = s')); [|done].
  intros acc it _ s ->. unfold decode_item. by destruct (json_loads it.2).
Qed.

(** ** The contract of each operation *)

(** C15: when the scan succeeds and every stored account is JSON, the read
    returns the table decoded by [json.loads], key by key, changes nothing,
    and returns a dict without duplicate keys. *)
Theorem get_previously_failed_spec c m w :
  ddb_scan_error c = None ->
  (forall k s, ddb_table w !! k = Some s -> is_Some (json_loads s)) ->
  exists d, get_previously_failed_accounts_for_resource_share c m w = (inr d, w) /\
    dict_wf d /\ forall k, dict_get d k = ddb_table w !! k ≫= json_loads.
Proof.
  intros He Hall. destruct (get_previously_failed_total c m w He Hall) as [d Hd].
  exists d. pose proof Hd as (_ & Hwf & Hget & _)%get_previously_failed_ok. done.
Qed.

Lemma get_previously_failed_spec_witness :
  let w := world_of [("arn:s", "111111111111")] [] in
  ddb_scan_error cloud_ok = None /\
  (forall k s, ddb_table w !! k = Some s -> is_Some (json_loads s)) /\
  exists d, get_previously_failed_accounts_for_resource_share cloud_ok (mkDdbManager "t") w
              = (inr d, w) /\
    dict_wf d /\ forall k, dict_get d k = ddb_table w !! k ≫= json_loads.
Proof.
  intros w. assert (H1 : ddb_scan_error cloud_ok = None) by reflexivity.
  assert (H2 : forall k s, ddb_table w !! k = Some s -> is_Some (json_loads s)).
  { intros k s Hk. unfold w, world_of in Hk. simpl in Hk.
    destruct (decide (k = "arn:s")) as [->|Hne].
    - rewrite lookup_insert in Hk. injection Hk as <-. by eexists.
    - by rewrite lookup_insert_ne, lookup_empty in Hk. }
  split_and!; [exact H1|exact H2|exact (get_previously_failed_spec cloud_ok _ w H1 H2)].
Defined.

(** C16: [add_resource_share_to_ddb] fails only with [AttributeError]:
    evaluating [self.ddb_client.meta.client.exceptions.InternalServerError]
    in the [except] clause raises before the critical log, since a low-level
    client's [meta] has no [client]; a failed write leaves the table as it
    was. *)
Theorem add_resource_share_to_ddb_error c m arn v w e w' :
  add_resource_share_to_ddb c m arn v w = (inl e, w') ->
  e = AttributeError /\ ddb_table w' = ddb_table w.
Proof.
  unfold add_resource_share_to_ddb, se_try, ddb_put_item, send, se_raise.
  destruct v; try by intros [= <- <-].
  destruct (ddb_put_error c arn s); simpl; [by intros [= <- <-]|discriminate].
Qed.

Lemma add_resource_share_to_ddb_error_witness :
  let c := {| time_now := 0; ram_pages := [];
              ram_disassociate_error := fun _ _ => None; ram_associate_error := fun _ _ => None;
              ddb_scan_page_size := 0; ddb_scan_error := None;
              ddb_put_error := fun _ _ => Some InternalServerError;
              ddb_delete_error := fun _ => None |} in
  let r := add_resource_share_to_ddb c (mkDdbManager "t") "arn:s" (PyStr "111") (world_of [] []) in
  r = (inl AttributeError, r.2) /\
  AttributeError = AttributeError /\ ddb_table r.2 = ddb_table (world_of [] []).
Proof.
  intros c r. assert (H : r = (inl AttributeError, r.2)) by reflexivity.
  split; [exact H|exact (add_resource_share_to_ddb_error c (mkDdbManager "t") "arn:s" (PyStr "111")
                           (world_of [] []) _ _ H)].
Defined.

(** C17: [remove_resource_share_from_ddb] sends one delete; it succeeds and
    deletes the record, or swallows [ResourceNotFoundException] leaving the
    table as it was, or re-raises every other error. *)
Theorem remove_resource_share_from_ddb_spec c m arn w :
  let r := remove_resource_share_from_ddb c m arn w in
  api_calls r.2 = api_calls w ++ [DeleteItem arn] /\
  ddb_table r.2 = (if ddb_delete_error c arn is None then delete arn (ddb_table w)
                   else ddb_table w) /\
  r.1 = match ddb_delete_error c arn with
        | None => inr tt
        | Some e => if decide (e = ResourceNotFoundException) then inr tt else inl e
        end.
Proof.
  unfold remove_resource_share_from_ddb, se_try, ddb_delete_item, send.
  destruct (ddb_delete_error c arn) as [e|]; simpl; [|done].
  by destruct (decide (e = ResourceNotFoundException)).
Qed.

(** C29: a failure of the scan's first request propagates out of the read
    with nothing changed, whatever the table holds, an empty table
    included: the paginator always sends that request. *)
Theorem get_previously_failed_scan_error c m w e :
  ddb_scan_error c = Some (0%nat, e) ->
  get_previously_failed_accounts_for_resource_share c m w = (inl e, w).
Proof.
  intros He. unfold get_previously_failed_accounts_for_resource_share, se_bind, se_get,
    ddb_scan_pages. rewrite He.
  destruct (map_to_list (ddb_table w)) as [|x l]; [done|]. done.
Qed.

Lemma get_previously_failed_scan_error_witness :
  let c := {| time_now := 0; ram_pages := [];
              ram_disassociate_error := fun _ _ => None; ram_associate_error := fun _ _ => None;
              ddb_scan_page_size := 0; ddb_scan_error := Some (0%nat, InternalServerError);
              ddb_put_error := fun _ _ => None; ddb_delete_error := fun _ => None |} in
  ddb_scan_error c = Some (0%nat, InternalServerError) /\
  get_previously_failed_accounts_for_resource_share c (mkDdbManager "t") (world_of [] [])
    = (inl InternalServerError, world_of [] []).
Proof.
  intros c. assert (H : ddb_scan_error c = Some (0%nat, InternalServerError)) by reflexivity.
  split; [exact H|exact (get_previously_failed_scan_error c _ _ _ H)].
Defined.

End DdbManager.
