(* ===== verification/Handler.v ===== *)
(** * lambda_handler.py: [lambda_handler]

    The handler reads the event, builds the two managers, merges the scan
    result with the table ([expired_ram_shares.update(previously_failed_
    accounts)]), and runs one refresh per entry of the merged dict.  The
    loop's local counters [refreshed_ram_shares] and
    [failed_ram_shares_count] are Python variables: an increment made
    before an exception stays made.  They are therefore part of the state of
    the loop ([Frame]), next to the [World].

    The body of one iteration is [refresh_share]: the outer [try] with its
    [except UnknownResourceException] and [except Exception] clauses around
    the disassociate call and the inner [try] whose [except ClientError]
    clause writes the failure table.  An exception raised inside an
    [except] clause is not caught by the sibling clauses: it leaves the loop
    and the handler (whose own [except Exception as e: raise e] re-raises
    it before reaching the structured error response). *)

From S2P Require Import Prelude PyDict Json Aws RamManager DdbManager.
From Stdlib Require Import DecimalString.
Import RamManager DdbManager.

Module Handler.

(** The event: every key is optional. *)
Record Event : Type := mkEvent {
  ev_ram_timeout_in_seconds : option Z;
  ev_dry_run : option bool;
  ev_ddb_table_name : option string;
}.

(** The two shapes of dict the handler can return. *)
Inductive LambdaResult : Type :=
| Summary (message : string) (recreated_count failed_count : nat)
| ErrorResponse (error : string).

Definition ELEVEN_HOURS_IN_SECS : Z := 11 * 60 * 60.

(** [str(n)] of a non-negative Python [int]. *)
Definition py_str (n : nat) : string := NilEmpty.string_of_uint (Nat.to_uint n).

(** [f"Recreated {refreshed_ram_shares} RAM invitations. Failed = {failed_ram_shares_count}"] *)
Definition summary_message (refreshed failed : nat) : string :=
  "Recreated " ++ py_str refreshed ++ " RAM invitations. Failed = " ++ py_str failed.

(** The state of the loop: the world and the two local counters. *)
Record Frame : Type := mkFrame {
  fr_world : World;
  refreshed_ram_shares : nat;
  failed_ram_shares_count : nat;
}.

Definition on_world {A} (m : PyM A) : SE Frame Exn A :=
  fun fr => let '(r, w') := m (fr_world fr) in
            (r, mkFrame w' (refreshed_ram_shares fr) (failed_ram_shares_count fr)).

(** [refreshed_ram_shares = refreshed_ram_shares + 1] *)
Definition incr_refreshed : SE Frame Exn unit :=
  se_modify (fun fr => mkFrame (fr_world fr) (S (refreshed_ram_shares fr)) (failed_ram_shares_count fr)).

(** [failed_ram_shares_count = failed_ram_shares_count + 1] *)
Definition incr_failed : SE Frame Exn unit :=
  se_modify (fun fr => mkFrame (fr_world fr) (refreshed_ram_shares fr) (S (failed_ram_shares_count fr))).

Section Run.
Variable c : Cloud.
Variable ram_manager : RamManager.
Variable ddb_manager : DdbManager.
Variable previously_failed_accounts : list (string * PyVal).

(** [if resource_share_arn in previously_failed_accounts:
       ddb_manager.remove_resource_share_from_ddb(resource_share_arn)] *)
Definition clear_if_previously_failed (resource_share_arn : string) : SE Frame Exn unit :=
  if dict_contains previously_failed_accounts resource_share_arn
  then on_world (remove_resource_share_from_ddb c ddb_manager resource_share_arn)
  else se_ret tt.

(** One iteration of [for resource_share_arn, aws_account_id in
    expired_ram_shares.items()]. *)
Definition refresh_share (item : string * PyVal) : SE Frame Exn unit :=
  let '(resource_share_arn, aws_account_id) := item in
  se_try
    (on_world (deassociate_account_from_ram_share c ram_manager resource_share_arn aws_account_id) ;;;
     se_try
       (on_world (associate_account_with_ram_share c ram_manager resource_share_arn aws_account_id) ;;;
        incr_refreshed ;;;
        clear_if_previously_failed resource_share_arn)
       (fun e => if is_client_error e
                 then Some (on_world (add_resource_share_to_ddb c ddb_manager
                                        resource_share_arn aws_account_id) ;;;
                            incr_failed)
                 else None))
    (fun e => if decide (e = UnknownResourceException)
              then Some (clear_if_previously_failed resource_share_arn)
              else Some incr_failed).

(** The loop, from counters [0, 0]: the counters at the end, or the
    exception that left it. *)
Definition run_loop (expired_ram_shares : list (string * PyVal)) : PyM (nat * nat) :=
  fun w =>
    let '(r, fr) := se_foldM (fun _ item => refresh_share item) tt expired_ram_shares
                      (mkFrame w 0 0) in
    (match r with
     | inl e => inl e
     | inr _ => inr (refreshed_ram_shares fr, failed_ram_shares_count fr)
     end, fr_world fr).
End Run.

(** [lambda_handler(event, _context)] *)
Definition lambda_handler (c : Cloud) (event : Event) : PyM LambdaResult :=
  se_try
    (let timeout_in_seconds := default ELEVEN_HOURS_IN_SECS (ev_ram_timeout_in_seconds event) in
     let dry_run := default true (ev_dry_run event) in
     let ram_manager := RamManager.init c timeout_in_seconds dry_run in
     match ev_ddb_table_name event with
     | None => se_raise (KeyError "ddb_table_name")
     | Some table_name =>
         let ddb_manager := mkDdbManager table_name in
         let* expired := get_new_expired_ram_invitations c ram_manager in
         let* previously_failed_accounts :=
           get_previously_failed_accounts_for_resource_share c ddb_manager in
         let expired_ram_shares := dict_update expired previously_failed_accounts in
         match expired_ram_shares with
         | [] => se_ret (Summary "No expired RAM shares found." 0 0)
         | _ :: _ =>
             let* counts := run_loop c ram_manager ddb_manager previously_failed_accounts
                              expired_ram_shares in
             se_ret (Summary (summary_message counts.1 counts.2) counts.1 counts.2)
         end
     end)
    (fun e => Some (se_raise e)).

(** Unfolds one iteration down to the requests it sends. *)
Ltac run_share :=
  unfold refresh_share, deassociate_account_from_ram_share, associate_account_with_ram_share,
    clear_if_previously_failed, remove_resource_share_from_ddb, add_resource_share_to_ddb,
    se_try, se_bind, on_world, send, ddb_delete_item, ddb_put_item,
    ram_disassociate_resource_share, ram_associate_resource_share; simpl.

(** Case analysis on every reply an iteration receives. *)
Ltac split_replies :=
  repeat (match goal with
          | |- context [ram_disassociate_error ?c ?a ?s] => destruct (ram_disassociate_error c a s)
          | |- context [ram_associate_error ?c ?a ?s] => destruct (ram_associate_error c a s)
          | |- context [ddb_delete_error ?c ?a] => destruct (ddb_delete_error c a) eqn:?
          | |- context [ddb_put_error ?c ?a ?s] => destruct (ddb_put_error c a s)
          | |- context [is_client_error ?e] => destruct (is_client_error e)
          | |- context [decide ?P] => destruct (decide P)
          | |- context [dict_contains ?p ?a] => destruct (dict_contains p a)
          | |- context [dry_run ?m] => destruct (dry_run m)
          | |- context [match ?v with PyStr _ => _ | _ => _ end] => destruct v
          end; simpl).

(** ** Frames: what one iteration may change *)

Lemma steps_at_preserves {A} k (m : PyM A) :
  (forall w, only_at k w (snd (m w))) -> forall w0, se_preserves (only_at k w0) m.
Proof. intros Hm w0 w Hw. eapply only_at_trans; [exact Hw|apply Hm]. Qed.

Lemma on_world_preserves {A} (I : World -> Prop) (m : PyM A) :
  se_preserves I m -> se_preserves (fun fr => I (fr_world fr)) (on_world m).
Proof.
  intros Hm fr H. unfold on_world. specialize (Hm _ H).
  destruct (m (fr_world fr)) as [r w']. done.
Qed.

Lemma incr_refreshed_preserves (I : World -> Prop) :
  se_preserves (fun fr => I (fr_world fr)) incr_refreshed.
Proof. by intros fr. Qed.

Lemma incr_failed_preserves (I : World -> Prop) :
  se_preserves (fun fr => I (fr_world fr)) incr_failed.
Proof. by intros fr. Qed.

Lemma se_try_snd {S E A} (m : SE S E A) (h : E -> option (SE S E A)) s :
  (forall e k, h e = Some k -> forall s', snd (k s') = s') -> snd (se_try m h s) = snd (m s).
Proof.
  intros Hh. unfold se_try. destruct (m s) as [[e|a] s']; [|done].
  destruct (h e) eqn:He; [by eapply Hh|done].
Qed.

Section Frames.
Variables (c : Cloud) (ram : RamManager) (ddb : DdbManager) (prev : list (string * PyVal)).
Variable k : string.

Lemma deassociate_only_at v w :
  only_at k w (snd (deassociate_account_from_ram_share c ram k v w)).
Proof. unfold deassociate_account_from_ram_share. destruct (dry_run ram); auto with lfm. Qed.

Lemma associate_only_at v w :
  only_at k w (snd (associate_account_with_ram_share c ram k v w)).
Proof. unfold associate_account_with_ram_share. destruct (dry_run ram); auto with lfm. Qed.

Lemma remove_only_at w : only_at k w (snd (remove_resource_share_from_ddb c ddb k w)).
Proof.
  unfold remove_resource_share_from_ddb. rewrite se_try_snd; [auto with lfm|].
  intros e m Hm s'. case_decide; by simplify_eq.
Qed.

Lemma add_only_at v w : only_at k w (snd (add_resource_share_to_ddb c ddb k v w)).
Proof.
  unfold add_resource_share_to_ddb. rewrite se_try_snd; [auto with lfm|].
  intros e m Hm s'. by simplify_eq.
Qed.

Hint Resolve deassociate_only_at associate_only_at remove_only_at add_only_at : lfm.
Hint Resolve on_world_preserves incr_refreshed_preserves incr_failed_preserves : lfm.
Hint Extern 1 (se_preserves (only_at _ _) _) => apply steps_at_preserves : lfm.

Lemma clear_preserves w0 :
  se_preserves (fun fr => only_at k w0 (fr_world fr)) (clear_if_previously_failed c ddb prev k).
Proof. unfold clear_if_previously_failed. destruct dict_contains; auto with lfm. Qed.

Hint Resolve clear_preserves : lfm.

(** One iteration for share [k] changes nothing outside [k]. *)
Lemma refresh_share_only_at v fr :
  only_at k (fr_world fr) (fr_world (snd (refresh_share c ram ddb prev (k, v) fr))).
Proof.
  revert fr. assert (forall w0, se_preserves (fun fr => only_at k w0 (fr_world fr))
                                 (refresh_share c ram ddb prev (k, v))) as H.
  { intros w0. unfold refresh_share. apply se_preserves_try.
    - apply se_preserves_bind; [auto with lfm|intros _]. apply se_preserves_try.
      + repeat (apply se_preserves_bind; [auto with lfm|intros _]). auto with lfm.
      + intros e m Hm. destruct (is_client_error e); simplify_eq.
        apply se_preserves_bind; auto with lfm.
    - intros e m Hm. case_decide; simplify_eq; auto with lfm. }
  intros fr. apply (H (fr_world fr)). apply only_at_refl.
Qed.
End Frames.

Lemma se_bind_snd {S E A B} (m : SE S E A) (k : A -> SE S E B) s :
  snd (se_bind m k s) = match m s with (inl _, s') => s' | (inr a, s') => snd (k a s') end.
Proof. unfold se_bind. by destruct (m s) as [[e|a] s']. Qed.

(** An entry whose account is not a [str] fails boto3's validation of
    [principals] before anything is sent: it is counted as failed and
    nothing else happens. *)
Lemma refresh_share_nonstr c ram ddb prev k v fr :
  dry_run ram = true -> is_str v = false ->
  refresh_share c ram ddb prev (k, v) fr =
  (inr tt, mkFrame (fr_world fr) (refreshed_ram_shares fr) (S (failed_ram_shares_count fr))).
Proof.
  intros Hd Hv. unfold refresh_share, deassociate_account_from_ram_share. rewrite Hd.
  destruct v; try discriminate; destruct fr; reflexivity.
Qed.

Lemma loop_untouched c ram ddb prev arn (work : list (string * PyVal)) w0 :
  dry_run ram = true -> (forall v, (arn, v) ∈ work -> is_str v = false) ->
  se_preserves (fun fr => untouched arn w0 (fr_world fr))
    (se_foldM (fun _ item => refresh_share c ram ddb prev item) tt work).
Proof.
  intros Hd Hv. apply se_preserves_foldM. intros _ [k v] Hin fr Hu.
  destruct (decide (k = arn)) as [->|Hne].
  - by rewrite refresh_share_nonstr by auto.
  - eapply only_at_untouched; [done|exact Hu|apply refresh_share_only_at].
Qed.

Lemma run_loop_untouched c ram ddb prev arn work w :
  dry_run ram = true -> (forall v, (arn, v) ∈ work -> is_str v = false) ->
  untouched arn w (snd (run_loop c ram ddb prev work w)).
Proof.
  intros Hd Hv. unfold run_loop.
  pose proof (loop_untouched c ram ddb prev arn work w Hd Hv (mkFrame w 0 0) (untouched_refl _ _)) as H.
  destruct (se_foldM _ tt work (mkFrame w 0 0)) as [[e|u] fr]; done.
Qed.

(** One run, with the flag at its default, leaves untouched every table
    record whose account does not decode to a [str]. *)
Lemma lambda_handler_untouched c ev w arn acct v :
  default true (ev_dry_run ev) = true ->
  ddb_table w !! arn = Some acct -> json_loads acct = Some v -> is_str v = false ->
  untouched arn w (snd (lambda_handler c ev w)).
Proof.
  intros Hd Ht Hj Hv. unfold lambda_handler.
  rewrite se_try_snd by (intros e m [= <-] s'; done).
  destruct (ev_ddb_table_name ev) as [name|]; [|apply untouched_refl].
  rewrite se_bind_snd.
  destruct (get_new_expired_ram_invitations _ _ w) as [[e|expired] w1] eqn:E1;
    pose proof (get_new_expired_pure c (RamManager.init c (default ELEVEN_HOURS_IN_SECS
      (ev_ram_timeout_in_seconds ev)) (default true (ev_dry_run ev))) w) as P1;
    rewrite E1 in P1; simpl in P1; subst w1; [apply untouched_refl|].
  rewrite se_bind_snd.
  destruct (get_previously_failed_accounts_for_resource_share _ _ w) as [[e|prev] w2] eqn:E2;
    [pose proof (get_previously_failed_pure c (mkDdbManager name) w) as P2;
     rewrite E2 in P2; simpl in P2; subst w2; apply untouched_refl|].
  apply get_previously_failed_ok in E2 as (-> & Hwf & Hget & _).
  apply get_new_expired_wf in E1.
  destruct (dict_update expired prev) as [|x xs] eqn:Eu; [apply untouched_refl|].
  rewrite se_bind_snd, <- Eu.
  destruct (run_loop _ _ _ _ _ w) as [r3 w3] eqn:E3.
  assert (untouched arn w w3) as Hu.
  { replace w3 with (snd (run_loop c (RamManager.init c (default ELEVEN_HOURS_IN_SECS
      (ev_ram_timeout_in_seconds ev)) (default true (ev_dry_run ev))) (mkDdbManager name) prev
      (dict_update expired prev) w)) by (by rewrite E3).
    apply run_loop_untouched; [done|]. intros v' Hin.
    apply dict_wf_elem in Hin; [|by apply dict_update_wf].
    rewrite dict_get_update, Hget, Ht in Hin by done. simpl in Hin. rewrite Hj in Hin.
    by injection Hin as <-. }
  by destruct r3.
Qed.

(** ** Scheduled runs

    The Lambda function is invoked again and again, each time with the
    clouds' answers of that moment and an event that leaves [dry_run] at
    its default ([None] or [Some true]). *)
Inductive scheduled_run : World -> World -> Prop :=
| run_once c ev w :
    default true (ev_dry_run ev) = true -> scheduled_run w (snd (lambda_handler c ev w)).

(** C2: a failure record whose stored account does not decode to a [str]
    (a 12-digit account id decodes to an [int]) is never cleared: across
    any sequence of runs, its table entry stays, no request about its share
    is sent, and the share's associations never change, so a principal left
    disassociated is never re-associated. *)
Theorem stuck_record_persists w w' arn acct v :
  ddb_table w !! arn = Some acct -> json_loads acct = Some v -> is_str v = false ->
  rtc scheduled_run w w' -> untouched arn w w'.
Proof.
  intros Ht Hj Hv Hr. induction Hr as [w|w1 w2 w3 Hstep _ IH]; [apply untouched_refl|].
  inversion Hstep as [c ev w Hd]; subst.
  pose proof (lambda_handler_untouched c ev w1 arn acct v Hd Ht Hj Hv) as Hu.
  eapply untouched_trans; [exact Hu|]. apply IH. by destruct Hu as [-> _].
Qed.

Lemma stuck_record_persists_witness :
  let w := world_of [("arn:s", "111111111111")] [] in
  let ev := mkEvent None None (Some "t") in
  ddb_table w !! "arn:s" = Some "111111111111" /\
  json_loads "111111111111" = Some (PyInt 111111111111) /\
  is_str (PyInt 111111111111) = false /\
  rtc scheduled_run w (snd (lambda_handler cloud_ok ev w)) /\
  untouched "arn:s" w (snd (lambda_handler cloud_ok ev w)).
Proof.
  intros w ev.
  assert (H1 : ddb_table w !! "arn:s" = Some "111111111111") by reflexivity.
  assert (H2 : json_loads "111111111111" = Some (PyInt 111111111111)) by (vm_compute; reflexivity).
  assert (H3 : is_str (PyInt 111111111111) = false) by reflexivity.
  assert (H4 : rtc scheduled_run w (snd (lambda_handler cloud_ok ev w)))
    by (apply rtc_once; by constructor).
  split_and!; [exact H1|exact H2|exact H3|exact H4|].
  exact (stuck_record_persists _ _ _ _ _ H1 H2 H3 H4).
Defined.

(** ** What one iteration does when a request fails *)

(** C5: when the re-association succeeds but deleting the marker of a
    previously failed share fails with a [ClientError] (other than
    [ResourceNotFoundException]), the inner [except ClientError] clause
    runs after [refreshed_ram_shares] was incremented: the entry is counted
    both as recreated and as failed, and its marker is written again
    although the share was re-associated. *)
Theorem refresh_share_double_count c ram ddb prev arn s fr e :
  dry_run ram = true -> dict_contains prev arn = true ->
  ram_disassociate_error c arn s = None -> ram_associate_error c arn s = None ->
  ddb_delete_error c arn = Some e -> is_client_error e = true ->
  e <> ResourceNotFoundException -> ddb_put_error c arn s = None ->
  exists fr', refresh_share c ram ddb prev (arn, PyStr s) fr = (inr tt, fr') /\
    refreshed_ram_shares fr' = S (refreshed_ram_shares fr) /\
    failed_ram_shares_count fr' = S (failed_ram_shares_count fr) /\
    ddb_table (fr_world fr') !! arn = Some s /\
    (arn, s) ∈ ram_associations (fr_world fr').
Proof.
  intros Hd Hp Hdis Hass Hdel Hce Hne Hput. destruct fr as [w r f]. run_share.
  rewrite Hd, Hdis, Hass, Hp. simpl. rewrite Hdel. simpl.
  rewrite decide_False by done. rewrite Hce, Hput. simpl.
  eexists. split_and!; [reflexivity|done|done|by simplify_map_eq|set_solver].
Qed.

Lemma refresh_share_double_count_witness :
  let c := cloud_with 0 [] None None None (Some InternalServerError) in
  let ram := RamManager.mkRamManager 0 true in
  let prev := [("arn:s", PyInt 1)] in
  dry_run ram = true /\ dict_contains prev "arn:s" = true /\
  ram_disassociate_error c "arn:s" "111" = None /\ ram_associate_error c "arn:s" "111" = None /\
  ddb_delete_error c "arn:s" = Some InternalServerError /\
  is_client_error InternalServerError = true /\ InternalServerError <> ResourceNotFoundException /\
  ddb_put_error c "arn:s" "111" = None /\
  exists fr', refresh_share c ram (mkDdbManager "t") prev ("arn:s", PyStr "111")
                (mkFrame (world_of [] []) 0 0) = (inr tt, fr') /\
    refreshed_ram_shares fr' = 1 /\ failed_ram_shares_count fr' = 1 /\
    ddb_table (fr_world fr') !! "arn:s" = Some "111" /\
    ("arn:s", "111") ∈ ram_associations (fr_world fr').
Proof.
  intros c ram prev. split_and!; try reflexivity; [discriminate|].
  exact (refresh_share_double_count c ram (mkDdbManager "t") prev "arn:s" "111"
           (mkFrame (world_of [] []) 0 0) InternalServerError
           eq_refl eq_refl eq_refl eq_refl eq_refl eq_refl ltac:(discriminate) eq_refl).
Defined.

(** The outcome of an iteration that loses a grant: it counts a failure,
    writes no marker, and leaves the principal disassociated, so that no
    later run has a record to retry. *)
Definition lost_grant (arn s : string) (fr fr' : Frame) : Prop :=
  refreshed_ram_shares fr' = refreshed_ram_shares fr /\
  failed_ram_shares_count fr' = S (failed_ram_shares_count fr) /\
  ddb_table (fr_world fr') = ddb_table (fr_world fr) /\
  (arn, s) ∉ ram_associations (fr_world fr').

(** C6: a re-association that fails with an error that is not a
    [ClientError] (a connection error or a timeout of botocore) after a
    successful disassociation escapes the inner [except]: the outer
    [except Exception] counts a failure, but no marker is written and the
    principal stays disassociated, with no record to retry it. *)
Theorem refresh_share_connection_error c ram ddb prev arn s fr e :
  dry_run ram = true ->
  ram_disassociate_error c arn s = None -> ram_associate_error c arn s = Some e ->
  is_client_error e = false ->
  exists fr', refresh_share c ram ddb prev (arn, PyStr s) fr = (inr tt, fr') /\
    lost_grant arn s fr fr'.
Proof.
  intros Hd Hdis Hass Hce. destruct fr as [w r f]. run_share.
  rewrite Hd, Hdis, Hass. simpl. rewrite Hce. simpl.
  rewrite decide_False by (intros ->; discriminate).
  eexists. split; [reflexivity|]. split_and!; [done|done|done|set_solver].
Qed.

Lemma refresh_share_connection_error_witness :
  let c := cloud_with 0 [] None (Some ConnectionError) None None in
  let ram := RamManager.mkRamManager 0 true in
  let fr := mkFrame (world_of [] [("arn:s", "111")]) 0 0 in
  dry_run ram = true /\
  ram_disassociate_error c "arn:s" "111" = None /\
  ram_associate_error c "arn:s" "111" = Some ConnectionError /\
  is_client_error ConnectionError = false /\
  exists fr', refresh_share c ram (mkDdbManager "t") [] ("arn:s", PyStr "111") fr = (inr tt, fr') /\
    lost_grant "arn:s" "111" fr fr'.
Proof.
  intros c ram fr. split_and!; [reflexivity|reflexivity|reflexivity|reflexivity|].
  exact (refresh_share_connection_error c ram (mkDdbManager "t") [] "arn:s" "111" fr
           ConnectionError eq_refl eq_refl eq_refl eq_refl).
Defined.

(** C33: when the re-association fails with a [ClientError] and writing
    the marker fails too, [add_resource_share_to_ddb]'s exception (an
    [AttributeError]) leaves the inner [except] clause and is caught by the
    outer [except Exception]: the loop goes on, a failure is counted, and
    the grant is lost with no record, where the specification wants the
    failure to be critical and re-raised. *)
Theorem refresh_share_put_failure c ram ddb prev arn s fr e e' :
  dry_run ram = true ->
  ram_disassociate_error c arn s = None -> ram_associate_error c arn s = Some e ->
  is_client_error e = true -> ddb_put_error c arn s = Some e' ->
  exists fr', refresh_share c ram ddb prev (arn, PyStr s) fr = (inr tt, fr') /\
    lost_grant arn s fr fr'.
Proof.
  intros Hd Hdis Hass Hce Hput. destruct fr as [w r f]. run_share.
  rewrite Hd, Hdis, Hass. simpl. rewrite Hce, Hput. simpl.
  eexists. split; [reflexivity|]. split_and!; [done|done|done|set_solver].
Qed.

Lemma refresh_share_put_failure_witness :
  let c := cloud_with 0 [] None (Some InternalServerError) (Some InternalServerError) None in
  let ram := RamManager.mkRamManager 0 true in
  let fr := mkFrame (world_of [] [("arn:s", "111")]) 0 0 in
  dry_run ram = true /\
  ram_disassociate_error c "arn:s" "111" = None /\
  ram_associate_error c "arn:s" "111" = Some InternalServerError /\
  is_client_error InternalServerError = true /\
  ddb_put_error c "arn:s" "111" = Some InternalServerError /\
  exists fr', refresh_share c ram (mkDdbManager "t") [] ("arn:s", PyStr "111") fr = (inr tt, fr') /\
    lost_grant "arn:s" "111" fr fr'.
Proof.
  intros c ram fr. split_and!; [reflexivity|reflexivity|reflexivity|reflexivity|reflexivity|].
  exact (refresh_share_put_failure c ram (mkDdbManager "t") [] "arn:s" "111" fr
           InternalServerError InternalServerError eq_refl eq_refl eq_refl eq_refl eq_refl).
Defined.

(** C7: when a share that was previously failed no longer exists, the
    [except UnknownResourceException] clause deletes its marker; if that
    delete fails (other than [ResourceNotFoundException]), the exception is
    raised inside an [except] clause, escapes the sibling [except
    Exception], and leaves the loop: the entries after it are not
    processed at all. *)
Theorem run_loop_cleanup_failure_aborts c ram ddb prev arn s rest w e :
  dry_run ram = true -> dict_contains prev arn = true ->
  ram_disassociate_error c arn s = Some UnknownResourceException ->
  ddb_delete_error c arn = Some e -> e <> ResourceNotFoundException ->
  run_loop c ram ddb prev ((arn, PyStr s) :: rest) w =
    (inl e, record_call (DeleteItem arn) (record_call (DisassociateResourceShare arn s) w)).
Proof.
  intros Hd Hp Hdis Hdel Hne. unfold run_loop. cbn [se_foldM]. run_share.
  rewrite Hd, Hdis. simpl. rewrite Hp. simpl. rewrite Hdel. simpl.
  by rewrite decide_False.
Qed.

Lemma run_loop_cleanup_failure_aborts_witness :
  let c := cloud_with 0 [] (Some UnknownResourceException) None None (Some InternalServerError) in
  let ram := RamManager.mkRamManager 0 true in
  let prev := [("arn:a", PyInt 1)] in
  dry_run ram = true /\ dict_contains prev "arn:a" = true /\
  ram_disassociate_error c "arn:a" "111" = Some UnknownResourceException /\
  ddb_delete_error c "arn:a" = Some InternalServerError /\
  InternalServerError <> ResourceNotFoundException /\
  run_loop c ram (mkDdbManager "t") prev [("arn:a", PyStr "111"); ("arn:b", PyStr "222")]
    (world_of [] []) =
    (inl InternalServerError, record_call (DeleteItem "arn:a")
       (record_call (DisassociateResourceShare "arn:a" "111") (world_of [] []))).
Proof.
  intros c ram prev. split_and!; [reflexivity..|discriminate|].
  exact (run_loop_cleanup_failure_aborts c ram (mkDdbManager "t") prev "arn:a" "111"
           [("arn:b", PyStr "222")] (world_of [] []) InternalServerError
           eq_refl eq_refl eq_refl eq_refl ltac:(discriminate)).
Defined.

(** C13: when the flag [dry_run] is false (the mode its name presents as a
    dry run), no RAM request is sent, yet every entry is counted as
    recreated and the marker of every previously failed share is deleted:
    the pending work is dropped without being done. *)
Theorem refresh_share_dry_run_false c ram ddb prev arn v fr :
  dry_run ram = false -> dict_contains prev arn = true -> ddb_delete_error c arn = None ->
  exists fr', refresh_share c ram ddb prev (arn, v) fr = (inr tt, fr') /\
    refreshed_ram_shares fr' = S (refreshed_ram_shares fr) /\
    failed_ram_shares_count fr' = failed_ram_shares_count fr /\
    ddb_table (fr_world fr') = delete arn (ddb_table (fr_world fr)) /\
    api_calls (fr_world fr') = api_calls (fr_world fr) ++ [DeleteItem arn].
Proof.
  intros Hd Hp Hdel. destruct fr as [w r f]. run_share.
  rewrite Hd. simpl. rewrite Hp. simpl. rewrite Hdel. simpl.
  eexists. by split_and!.
Qed.

Lemma refresh_share_dry_run_false_witness :
  let c := cloud_ok in
  let ram := RamManager.mkRamManager 0 false in
  let prev := [("arn:s", PyInt 111)] in
  dry_run ram = false /\ dict_contains prev "arn:s" = true /\ ddb_delete_error c "arn:s" = None /\
  exists fr', refresh_share c ram (mkDdbManager "t") prev ("arn:s", PyInt 111)
                (mkFrame (world_of [("arn:s", "111")] []) 0 0) = (inr tt, fr') /\
    refreshed_ram_shares fr' = 1 /\ failed_ram_shares_count fr' = 0 /\
    ddb_table (fr_world fr') = delete "arn:s" (ddb_table (world_of [("arn:s", "111")] [])) /\
    api_calls (fr_world fr') = [] ++ [DeleteItem "arn:s"].
Proof.
  intros c ram prev. split_and!; try reflexivity.
  exact (refresh_share_dry_run_false c ram (mkDdbManager "t") prev "arn:s" (PyInt 111)
           (mkFrame (world_of [("arn:s", "111")] []) 0 0) eq_refl eq_refl eq_refl).
Defined.

(** For a [str] principal, one iteration first requests the
    disassociation; every later request of the iteration concerns the same
    share, and the association is requested only if the disassociation
    succeeded. *)
Lemma refresh_share_disassociate_first c ram ddb prev arn s fr :
  dry_run ram = true ->
  exists l,
    api_calls (fr_world (snd (refresh_share c ram ddb prev (arn, PyStr s) fr))) =
      api_calls (fr_world fr) ++ DisassociateResourceShare arn s :: l /\
    Forall (fun a => call_key a = arn) l /\
    (AssociateResourceShare arn s ∈ l -> ram_disassociate_error c arn s = None).
Proof.
  intros Hd. destruct fr as [w r f]. run_share. rewrite Hd. simpl. split_replies;
    simpl; rewrite <- ?app_assoc; simpl; eexists; (split; [reflexivity|]);
    (split; [repeat constructor|intros Hin; first [done|set_solver]]).
Qed.

(** A work set whose principals are all [str]s. *)
Definition as_work_set (items : list (string * string)) : list (string * PyVal) :=
  map (fun kp => (kp.1, PyStr kp.2)) items.

(** The requests of one entry [(k, p)]: its disassociation first, then
    requests about [k] only, among them the association only if the
    disassociation succeeded. *)
Definition entry_block (c : Cloud) (k p : string) (blk : list ApiCall) : Prop :=
  exists rest : list ApiCall, blk = DisassociateResourceShare k p :: rest /\
    Forall (fun a => call_key a = k) rest /\
    (AssociateResourceShare k p ∈ rest -> ram_disassociate_error c k p = None).

Lemma loop_blocks c ram ddb prev items fr :
  dry_run ram = true ->
  let r := se_foldM (fun _ item => refresh_share c ram ddb prev item) tt (as_work_set items) fr in
  exists blocks,
    api_calls (fr_world r.2) = api_calls (fr_world fr) ++ concat blocks /\
    Forall2 (fun blk kp => entry_block c kp.1 kp.2 blk) blocks (take (length blocks) items) /\
    (r.1 = inr tt -> length blocks = length items).
Proof.
  intros Hd. revert fr. induction items as [|[k p] items IH]; intros fr; cbv zeta.
  - exists []. cbn. by rewrite app_nil_r.
  - cbn [as_work_set map se_foldM fst snd]. unfold se_bind.
    destruct (refresh_share_disassociate_first c ram ddb prev k p fr Hd) as (l & Hl & Hk & Ha).
    destruct (refresh_share c ram ddb prev (k, PyStr p) fr) as [[e|[]] fr1] eqn:E;
      cbn [snd] in Hl.
    + exists [DisassociateResourceShare k p :: l]. cbn [fst snd concat length take].
      rewrite app_nil_r. split_and!; [done|constructor; [by exists l|constructor]|done].
    + destruct (IH fr1) as (blocks & Hb & Hf & Hlen). unfold as_work_set in Hb, Hlen.
      exists ((DisassociateResourceShare k p :: l) :: blocks). cbn [concat length take].
      split_and!.
      * rewrite Hb, Hl, <- app_assoc. done.
      * constructor; [by exists l|done].
      * intros Hr. by rewrite Hlen.
Qed.

(** C10: with the requests sent (the default [dry_run]), a run of the loop
    over a work set of [str] principals processes the entries one at a
    time in work-set order: its requests are consecutive blocks, one per
    entry, each starting with the entry's disassociation and concerning
    that entry's share only, with the association requested only after a
    successful disassociation; a loop that completes has a block for every
    entry. *)
Theorem run_loop_entries_in_order c ram ddb prev items w :
  dry_run ram = true ->
  let r := run_loop c ram ddb prev (as_work_set items) w in
  exists blocks,
    api_calls r.2 = api_calls w ++ concat blocks /\
    Forall2 (fun blk kp => entry_block c kp.1 kp.2 blk) blocks (take (length blocks) items) /\
    (forall n m, r.1 = inr (n, m) -> length blocks = length items).
Proof.
  intros Hd. unfold run_loop.
  destruct (loop_blocks c ram ddb prev items (mkFrame w 0 0) Hd) as (blocks & Hb & Hf & Hlen).
  destruct (se_foldM _ tt (as_work_set items) (mkFrame w 0 0)) as [[e|[]] fr]; cbn in *.
  - exists blocks. by split_and!.
  - exists blocks. split_and!; [done|done|]. intros n m _. by apply Hlen.
Qed.

Lemma run_loop_entries_in_order_witness :
  let ram := RamManager.mkRamManager 0 true in
  let items := [("arn:a", "111111111111"); ("arn:b", "222222222222")] in
  dry_run ram = true /\
  let r := run_loop cloud_ok ram (mkDdbManager "t") [] (as_work_set items) (world_of [] []) in
  exists blocks,
    api_calls r.2 = api_calls (world_of [] []) ++ concat blocks /\
    Forall2 (fun blk kp => entry_block cloud_ok kp.1 kp.2 blk) blocks (take (length blocks) items) /\
    (forall n m, r.1 = inr (n, m) -> length blocks = length items).
Proof.
  intros ram items. assert (H : dry_run ram = true) by reflexivity.
  split; [exact H|exact (run_loop_entries_in_order cloud_ok ram (mkDdbManager "t") [] items _ H)].
Defined.

(** One iteration adds at most one to the two counters together, unless
    the delete of its marker fails. *)
Lemma refresh_share_counts c ram ddb prev arn v fr :
  ddb_delete_error c arn = None ->
  let fr' := snd (refresh_share c ram ddb prev (arn, v) fr) in
  refreshed_ram_shares fr' + failed_ram_shares_count fr'
    <= S (refreshed_ram_shares fr + failed_ram_shares_count fr).
Proof.
  intros Hdel. destruct fr as [w r f]. run_share. simpl. split_replies; try congruence; lia.
Qed.

Lemma loop_counts c ram ddb prev (work : list (string * PyVal)) fr :
  Forall (fun kv => ddb_delete_error c kv.1 = None) work ->
  let fr' := snd (se_foldM (fun _ item => refresh_share c ram ddb prev item) tt work fr) in
  refreshed_ram_shares fr' + failed_ram_shares_count fr'
    <= length work + refreshed_ram_shares fr + failed_ram_shares_count fr.
Proof.
  intros Hall. revert fr. induction Hall as [|[k v] work Hk _ IH]; intros fr;
    cbn [se_foldM se_ret length snd]; [lia|].
  unfold se_bind. pose proof (refresh_share_counts c ram ddb prev k v fr Hk) as Hc.
  destruct (refresh_share c ram ddb prev (k, v) fr) as [[e|u] fr1]; cbn [snd] in *; [lia|].
  destruct u. specialize (IH fr1). lia.
Qed.

(** C11: when no marker delete fails, the two counters of a completed loop
    add up to at most the size of the work set: no entry is counted
    twice. *)
Theorem run_loop_counts_bounded c ram ddb prev work w n m w' :
  Forall (fun kv => ddb_delete_error c kv.1 = None) work ->
  run_loop c ram ddb prev work w = (inr (n, m), w') -> n + m <= length work.
Proof.
  intros Hall Hrun. unfold run_loop in Hrun.
  pose proof (loop_counts c ram ddb prev work (mkFrame w 0 0) Hall) as Hc. simpl in Hc.
  destruct (se_foldM _ tt work _) as [[e|u] fr]; [discriminate|].
  injection Hrun as <- <- _. simpl in Hc. lia.
Qed.

Lemma run_loop_counts_bounded_witness :
  let work := [("arn:a", PyStr "1"); ("arn:b", PyInt 2)] in
  Forall (fun kv => ddb_delete_error cloud_ok kv.1 = None) work /\
  run_loop cloud_ok (RamManager.mkRamManager 0 true) (mkDdbManager "t") [] work (world_of [] [])
    = (inr (1, 1), snd (run_loop cloud_ok (RamManager.mkRamManager 0 true) (mkDdbManager "t") []
                          work (world_of [] []))) /\
  1 + 1 <= length work.
Proof.
  intros work.
  assert (H1 : Forall (fun kv => ddb_delete_error cloud_ok kv.1 = None) work)
    by repeat constructor.
  assert (H2 : run_loop cloud_ok (RamManager.mkRamManager 0 true) (mkDdbManager "t") [] work
                 (world_of [] []) = (inr (1, 1), snd (run_loop cloud_ok
                 (RamManager.mkRamManager 0 true) (mkDdbManager "t") [] work (world_of [] []))))
    by reflexivity.
  split_and!; [exact H1|exact H2|].
  exact (run_loop_counts_bounded _ _ _ _ _ _ _ _ _ H1 H2).
Defined.

(** ** Whole invocations *)

(** A stored account that is not JSON makes the handler raise before its
    loop, changing nothing. *)
Lemma undecodable_record_raises c ev w arn acct :
  ddb_table w !! arn = Some acct -> json_loads acct = None ->
  exists e, lambda_handler c ev w = (inl e, w).
Proof.
  intros Ht Hj. unfold lambda_handler. rewrite se_try_reraise.
  destruct (ev_ddb_table_name ev) as [name|]; [|by eexists].
  unfold se_bind at 1.
  destruct (get_new_expired_ram_invitations _ _ w) as [[e|expired] w1] eqn:E1;
    pose proof (get_new_expired_pure c (RamManager.init c (default ELEVEN_HOURS_IN_SECS
      (ev_ram_timeout_in_seconds ev)) (default true (ev_dry_run ev))) w) as P1;
    rewrite E1 in P1; simpl in P1; subst w1; [by eexists|].
  unfold se_bind at 1.
  destruct (get_previously_failed_accounts_for_resource_share _ _ w) as [[e|prev] w2] eqn:E2.
  - pose proof (get_previously_failed_pure c (mkDdbManager name) w) as P2.
    rewrite E2 in P2. simpl in P2. subst w2. by eexists.
  - apply get_previously_failed_ok in E2 as (_ & _ & _ & Hall).
    destruct (Hall arn acct Ht) as [v Hv]. congruence.
Qed.

(** Invocations: one run of the handler, with any cloud and any event. *)
Inductive invocation : World -> World -> Prop :=
| invoke c ev w : invocation w (snd (lambda_handler c ev w)).

(** C4: a record whose stored account is not JSON at all (an ARN such as
    [arn:aws:organizations::...] written by [add_resource_share_to_ddb])
    makes every later invocation fail before its loop: whatever the cloud
    answers and whatever the event, the handler raises and changes
    nothing, so every sequence of invocations stays in the same world and
    no invitation is refreshed any more. *)
Theorem undecodable_record_blocks_invocations w arn acct :
  ddb_table w !! arn = Some acct -> json_loads acct = None ->
  (forall c ev, exists e, lambda_handler c ev w = (inl e, w)) /\
  (forall w', rtc invocation w w' -> w' = w).
Proof.
  intros Ht Hj. split; [intros c ev; by apply (undecodable_record_raises c ev w arn acct)|].
  intros w' Hr. induction Hr as [|w1 w2 w3 Hstep _ IH]; [done|].
  inversion Hstep as [c ev ? ]; subst.
  destruct (undecodable_record_raises c ev w1 arn acct Ht Hj) as [e He].
  rewrite He in IH. simpl in IH. by apply IH.
Qed.

Lemma undecodable_record_blocks_invocations_witness :
  let acct := "arn:aws:organizations::111111111111:ou/o-1/ou-2" in
  let w := world_of [("arn:s", acct)] [] in
  ddb_table w !! "arn:s" = Some acct /\ json_loads acct = None /\
  (forall c ev, exists e, lambda_handler c ev w = (inl e, w)) /\
  (forall w', rtc invocation w w' -> w' = w).
Proof.
  intros acct w.
  assert (H1 : ddb_table w !! "arn:s" = Some acct) by reflexivity.
  assert (H2 : json_loads acct = None) by (vm_compute; reflexivity).
  split_and!; [exact H1|exact H2|exact (proj1 (undecodable_record_blocks_invocations w "arn:s" acct H1 H2))
              |exact (proj2 (undecodable_record_blocks_invocations w "arn:s" acct H1 H2))].
Defined.

(** C14: the structured error response of the outer [except] clause is
    unreachable: [raise e] comes first, so the handler either raises or
    returns a summary. *)
Theorem lambda_handler_no_error_response c ev w err :
  fst (lambda_handler c ev w) <> inr (ErrorResponse err).
Proof.
  unfold lambda_handler. rewrite se_try_reraise.
  destruct (ev_ddb_table_name ev) as [name|]; [|by intros [=]]. unfold se_bind.
  destruct (get_new_expired_ram_invitations _ _ w) as [[e|expired] w1]; [by intros [=]|].
  destruct (get_previously_failed_accounts_for_resource_share _ _ w1) as [[e|prev] w2];
    [by intros [=]|].
  destruct (dict_update expired prev); [by intros [=]|].
  by destruct (run_loop _ _ _ _ _ w2) as [[e|cnt] w3]; intros [=].
Qed.

(** C20: when the scan lists no expired invitation and the table is empty,
    the handler returns the empty summary and sends nothing. *)
Theorem lambda_handler_nothing_to_do c ev w name ps :
  ev_ddb_table_name ev = Some name -> ram_pages c = map inr ps ->
  Forall (fun a => RamManager.is_expired
            (RamManager.init c (default ELEVEN_HOURS_IN_SECS (ev_ram_timeout_in_seconds ev))
               (default true (ev_dry_run ev))) a = false) (concat ps) ->
  ddb_scan_error c = None -> ddb_table w = ∅ ->
  lambda_handler c ev w = (inr (Summary "No expired RAM shares found." 0 0), w).
Proof.
  intros Hn Hp Hnone Hs Ht. unfold lambda_handler. rewrite se_try_reraise, Hn.
  set (m := RamManager.init _ _ _).
  assert (Hexp : get_new_expired_ram_invitations c m w = (inr [], w)).
  { unfold get_new_expired_ram_invitations. rewrite Hp, for_pages_ret_ok, collect_pages.
    by rewrite collect_page_none. }
  assert (Hprev : get_previously_failed_accounts_for_resource_share c (mkDdbManager name) w
                  = (inr [], w)).
  { by apply get_previously_failed_empty. }
  rewrite (se_bind_inr _ _ _ _ _ Hexp), (se_bind_inr _ _ _ _ _ Hprev). done.
Qed.

Lemma lambda_handler_nothing_to_do_witness :
  ev_ddb_table_name (mkEvent None None (Some "t")) = Some "t" /\
  ram_pages cloud_ok = map inr [] /\
  Forall (fun a => RamManager.is_expired (RamManager.init cloud_ok ELEVEN_HOURS_IN_SECS true) a = false)
    (concat []) /\
  ddb_scan_error cloud_ok = None /\ ddb_table (world_of [] []) = ∅ /\
  lambda_handler cloud_ok (mkEvent None None (Some "t")) (world_of [] [])
    = (inr (Summary "No expired RAM shares found." 0 0), world_of [] []).
Proof.
  split_and!; [reflexivity|reflexivity|constructor|reflexivity|reflexivity|].
  exact (lambda_handler_nothing_to_do cloud_ok (mkEvent None None (Some "t")) (world_of [] [])
           "t" [] eq_refl eq_refl (Forall_nil_2 _) eq_refl eq_refl).
Defined.

(** C30: an event without ["ddb_table_name"] makes the handler raise
    [KeyError] before any request, changing nothing. *)
Theorem lambda_handler_missing_table_name c ev w :
  ev_ddb_table_name ev = None ->
  lambda_handler c ev w = (inl (KeyError "ddb_table_name"), w).
Proof. intros Hn. unfold lambda_handler. by rewrite se_try_reraise, Hn. Qed.

Lemma lambda_handler_missing_table_name_witness :
  ev_ddb_table_name (mkEvent (Some 10%Z) None None) = None /\
  lambda_handler cloud_ok (mkEvent (Some 10%Z) None None) (world_of [] [])
    = (inl (KeyError "ddb_table_name"), world_of [] []).
Proof.
  split; [reflexivity|].
  exact (lambda_handler_missing_table_name cloud_ok (mkEvent (Some 10%Z) None None)
           (world_of [] []) eq_refl).
Defined.

(** C31: the type of the loop's input, against its annotation
    [dict[str, str]]: when both reads return, the invocation is the loop
    over a work set whose value at a share of the failure table is
    [json.loads] of the stored record (an [int] for a 12-digit account),
    whatever the scan found for that share, and whose value at any other
    share is the scan's, always a [str]. *)
Theorem work_set_typed c ev w name ps :
  ev_ddb_table_name ev = Some name -> ram_pages c = map inr ps -> ddb_scan_error c = None ->
  (forall k s, ddb_table w !! k = Some s -> is_Some (json_loads s)) ->
  let m := RamManager.init c (default ELEVEN_HOURS_IN_SECS (ev_ram_timeout_in_seconds ev))
             (default true (ev_dry_run ev)) in
  exists prev work,
    lambda_handler c ev w =
      match work with
      | [] => (inr (Summary "No expired RAM shares found." 0 0), w)
      | _ :: _ =>
          match run_loop c m (mkDdbManager name) prev work w with
          | (inl e, w') => (inl e, w')
          | (inr (r, f), w') => (inr (Summary (summary_message r f) r f), w')
          end
      end /\
    (forall k, dict_get work k =
       match ddb_table w !! k with
       | Some acct => json_loads acct
       | None => dict_get (collect_page m [] (concat ps)) k
       end) /\
    (forall k v, dict_get (collect_page m [] (concat ps)) k = Some v -> is_str v = true).
Proof.
  intros Hname Hpages Hscan Hdec m.
  destruct (get_previously_failed_total c (mkDdbManager name) w Hscan Hdec) as [prev Hprev].
  pose proof Hprev as (_ & Hwf & Hget & _)%get_previously_failed_ok.
  set (expired := collect_page m [] (concat ps)).
  assert (Hexp : get_new_expired_ram_invitations c m w = (inr expired, w)).
  { unfold get_new_expired_ram_invitations. rewrite Hpages, for_pages_ret_ok.
    by rewrite collect_pages. }
  exists prev, (dict_update expired prev). split_and!.
  - unfold lambda_handler. rewrite Hname. unfold se_try at 1.
    rewrite (se_bind_inr _ _ _ _ _ Hexp), (se_bind_inr _ _ _ _ _ Hprev). fold m.
    destruct (dict_update expired prev) as [|x xs]; [done|]. unfold se_bind.
    by destruct (run_loop c m (mkDdbManager name) prev (x :: xs) w) as [[e|[r f]] w'].
  - intros k. rewrite dict_get_update, Hget by done.
    destruct (ddb_table w !! k) as [acct|] eqn:Ht; [|done]. simpl.
    by destruct (Hdec _ _ Ht) as [v ->].
  - intros k v Hv%dict_get_Some_elem.
    pose proof (collect_page_str m [] (concat ps) (List.Forall_nil _)) as Hs.
    rewrite Forall_forall in Hs. exact (Hs (k, v) Hv).
Qed.

Lemma work_set_typed_witness :
  let a := mkAssociation "arn:t" "LakeFormation-x" "111111111111" 0 in
  let c := {| time_now := 100000000; ram_pages := [inr [a]];
              ram_disassociate_error := fun _ _ => None; ram_associate_error := fun _ _ => None;
              ddb_scan_page_size := 0; ddb_scan_error := None;
              ddb_put_error := fun _ _ => None; ddb_delete_error := fun _ => None |} in
  let ev := mkEvent (Some 10%Z) None (Some "t") in
  let w := world_of [("arn:t", "222222222222")] [] in
  ev_ddb_table_name ev = Some "t" /\ ram_pages c = map inr [[a]] /\ ddb_scan_error c = None /\
  (forall k s, ddb_table w !! k = Some s -> is_Some (json_loads s)) /\
  exists work : list (string * PyVal),
    (forall k, dict_get work k =
       match ddb_table w !! k with
       | Some acct => json_loads acct
       | None => dict_get (collect_page (RamManager.init c 10%Z true) [] (concat [[a]])) k
       end) /\
    dict_get work "arn:t" = Some (PyInt 222222222222).
Proof.
  intros a c ev w.
  assert (H4 : forall k s, ddb_table w !! k = Some s -> is_Some (json_loads s)).
  { intros k s Hk. unfold w, world_of in Hk. cbn in Hk.
    apply lookup_insert_Some in Hk as [[_ <-]|[_ Hk]]; [|by rewrite lookup_empty in Hk].
    vm_compute. by eexists. }
  split_and!; [reflexivity|reflexivity|reflexivity|exact H4|].
  destruct (work_set_typed c ev w "t" [[a]] eq_refl eq_refl eq_refl H4) as (prev & work & _ & Hk & _).
  exists work. split; [exact Hk|]. rewrite Hk. vm_compute. reflexivity.
Defined.

(** The requests of a loop over [work] all concern keys of [work]. *)
Lemma loop_keys c ram ddb prev (work : list (string * PyVal)) fr :
  exists l,
    api_calls (fr_world (snd (se_foldM (fun _ item => refresh_share c ram ddb prev item) tt work fr)))
      = api_calls (fr_world fr) ++ l /\
    Forall (fun a => call_key a ∈ work.*1) l.
Proof.
  revert fr. induction work as [|[k v] work IH]; intros fr.
  - exists []. cbn. by rewrite app_nil_r.
  - cbn [se_foldM]. unfold se_bind.
    pose proof (refresh_share_only_at c ram ddb prev k v fr) as (_ & _ & l1 & Hl1 & Hk1).
    destruct (refresh_share c ram ddb prev (k, v) fr) as [[e|[]] fr1]; cbn [snd] in Hl1 |- *.
    + exists l1. split; [done|]. eapply Forall_impl; [exact Hk1|]. intros a ->. set_solver.
    + destruct (IH fr1) as (l2 & Hl2 & Hk2). exists (l1 ++ l2). split.
      * by rewrite Hl2, Hl1, app_assoc.
      * apply Forall_app. split.
        -- eapply Forall_impl; [exact Hk1|]. intros a ->. set_solver.
        -- eapply Forall_impl; [exact Hk2|]. intros a Ha. set_solver.
Qed.

(** The shares an invocation may act on: those of the failure table and
    those of an expired association in the listing. *)
Definition in_scope (c : Cloud) (m : RamManager) (w : World) (k : string) : Prop :=
  k ∈ dom (ddb_table w) \/
  exists page inv, inr page ∈ ram_pages c /\ inv ∈ page /\
    RamManager.is_expired m inv = true /\ resourceShareArn inv = k.

Lemma work_set_in_scope c m ddb w ps expired prev k :
  ram_pages c = map inr ps -> expired = collect_page m [] (concat ps) ->
  get_previously_failed_accounts_for_resource_share c ddb w = (inr prev, w) ->
  k ∈ (dict_update expired prev).*1 -> in_scope c m w k.
Proof.
  intros Hp -> Hprev Hk. apply get_previously_failed_ok in Hprev as (_ & _ & Hget & _).
  apply dict_update_keys_sub in Hk as [Hk|Hk].
  - apply collect_page_keys in Hk as [Hk|(inv & Hin & He & Ha)]; [set_solver|].
    apply list_elem_of_In, in_concat in Hin as (page & Hpage & Hin).
    right. exists page, inv. rewrite Hp. split_and!; [|by apply list_elem_of_In|done|done].
    apply list_elem_of_fmap. exists page. split; [done|by apply list_elem_of_In].
  - left. apply elem_of_dom. destruct (dict_get prev k) as [v|] eqn:Hv.
    + rewrite Hget in Hv. destruct (ddb_table w !! k); [done|discriminate].
    + by apply dict_get_None in Hv.
Qed.

(** C34: an invocation sends requests only about shares in its scope:
    whatever the cloud answers and on every branch, errors included, the
    request log only grows, and every request it adds names a share of the
    failure table or of an expired [LakeFormation-] association of the
    listing. *)
Theorem lambda_handler_requests_in_scope c ev w :
  let m := RamManager.init c (default ELEVEN_HOURS_IN_SECS (ev_ram_timeout_in_seconds ev))
             (default true (ev_dry_run ev)) in
  exists l, api_calls (snd (lambda_handler c ev w)) = api_calls w ++ l /\
    Forall (fun a => in_scope c m w (call_key a)) l.
Proof.
  intros m. unfold lambda_handler. rewrite se_try_reraise. fold m.
  destruct (ev_ddb_table_name ev) as [name|]; [|exists []; by rewrite app_nil_r].
  unfold se_bind at 1.
  pose proof (get_new_expired_pure c m w) as P1.
  destruct (get_new_expired_ram_invitations c m w) as [[e|expired] w1] eqn:E1;
    cbn [snd] in P1; subst w1; [exists []; by rewrite app_nil_r|].
  apply get_new_expired_ok in E1 as (ps & Hps & Hexp & _).
  unfold se_bind at 1.
  pose proof (get_previously_failed_pure c (mkDdbManager name) w) as P2.
  destruct (get_previously_failed_accounts_for_resource_share c (mkDdbManager name) w)
    as [[e|prev] w2] eqn:E2; cbn [snd] in P2; subst w2; [exists []; by rewrite app_nil_r|].
  destruct (dict_update expired prev) as [|x xs] eqn:Eu; [exists []; by rewrite app_nil_r|].
  unfold se_bind, run_loop.
  destruct (loop_keys c m (mkDdbManager name) prev (x :: xs) (mkFrame w 0 0)) as (l & Hl & Hk).
  destruct (se_foldM _ tt (x :: xs) _) as [[e|[]] fr] eqn:Ef; cbn in Hl |- *;
    exists l; (split; [done|]); eapply Forall_impl; try exact Hk;
    intros a Ha; eapply work_set_in_scope; try done; by rewrite Eu.
Qed.

End Handler.
