(* ===== verification/EntrySpec.v ===== *)
(** * The specification's per-entry state machine

    The specification of the reconciliation driver (section 4.3 of the
    specification document) describes the life of one work-set entry in one
    invocation:

    START --remove ok--> REMOVED --add ok--> REFRESHED
    START --remove unknown resource--> GONE
    START --remove fails otherwise--> FAILED (no durable write)
    REMOVED --add fails--> FAILED (durable marker written)

    with the counters (REFRESHED counts as recreated, FAILED as failed,
    GONE as neither) and the effect on the failure store (REFRESHED and
    GONE delete the marker of an entry that was previously failed; FAILED
    after REMOVED writes the marker).  This file states that machine
    abstractly, over the replies of the sharing service, with no reference
    to the code; [Refinement] proves what of it the handler implements. *)

From S2P Require Import Prelude.

Module EntrySpec.

(** The reply of the sharing service to a remove or add request. *)
Inductive Reply : Type := Ok | UnknownResource | OtherError.

#[export] Instance Reply_eq_dec : EqDecision Reply.
Proof. solve_decision. Defined.

Inductive EntryState : Type := Start | Removed | Refreshed | Gone | Failed.

#[export] Instance EntryState_eq_dec : EqDecision EntryState.
Proof. solve_decision. Defined.

(** The transitions, labelled by the reply that causes them.  An add
    request is never answered [UnknownResource] in the specification's
    interface; such a reply is a failure like any other. *)
Inductive step : EntryState -> Reply -> EntryState -> Prop :=
| remove_ok : step Start Ok Removed
| remove_unknown : step Start UnknownResource Gone
| remove_other : step Start OtherError Failed
| add_ok : step Removed Ok Refreshed
| add_unknown : step Removed UnknownResource Failed
| add_other : step Removed OtherError Failed.

Definition terminal (s : EntryState) : bool :=
  match s with Refreshed | Gone | Failed => true | Start | Removed => false end.

(** Runs: sequences of replies. *)
Inductive steps : EntryState -> list Reply -> EntryState -> Prop :=
| steps_nil s : steps s [] s
| steps_cons s r s' rs s'' : step s r s' -> steps s' rs s'' -> steps s (r :: rs) s''.

(** The replies an entry receives: an add request is sent only after a
    successful remove. *)
Definition replies (rem add : Reply) : list Reply :=
  match rem with Ok => [Ok; add] | _ => [rem] end.

Definition final_state (rem add : Reply) : EntryState :=
  match rem, add with
  | Ok, Ok => Refreshed
  | Ok, _ => Failed
  | UnknownResource, _ => Gone
  | OtherError, _ => Failed
  end.

(** The counters and the failure store after one entry: [was_failed] says
    whether the entry came from the store, [k] and [p] are its share and
    principal. *)
Definition entry_effect (rem add : Reply) (was_failed : bool) (k p : string)
    (t : gmap string string) (cnt : nat * nat) : gmap string string * (nat * nat) :=
  let clear := if was_failed then delete k t else t in
  match rem, add with
  | Ok, Ok => (clear, (S cnt.1, cnt.2))
  | Ok, _ => (<[k := p]> t, (cnt.1, S cnt.2))
  | UnknownResource, _ => (clear, cnt)
  | OtherError, _ => (t, (cnt.1, S cnt.2))
  end.

(** ** The machine *)

Lemma step_deterministic s r s1 s2 : step s r s1 -> step s r s2 -> s1 = s2.
Proof. intros H1 H2. inversion H1; subst; inversion H2; subst; done. Qed.

Lemma steps_deterministic s rs s1 s2 : steps s rs s1 -> steps s rs s2 -> s1 = s2.
Proof.
  intros H1. revert s2. induction H1 as [s|s r s' rs s'' Hs _ IH]; intros s2 H2;
    inversion H2 as [|? ? s3 ? ? Hs' Hrest]; subst; [done|].
  apply IH. by rewrite (step_deterministic _ _ _ _ Hs Hs').
Qed.

Lemma terminal_no_step s r s' : terminal s = true -> ~ step s r s'.
Proof. intros Ht Hs. inversion Hs; subst; discriminate. Qed.

(** Every pair of replies drives an entry from [Start] to the terminal
    state [final_state]. *)
Lemma replies_steps rem add : steps Start (replies rem add) (final_state rem add).
Proof.
  destruct rem; simpl; [destruct add|..];
    repeat econstructor.
Qed.

Lemma final_state_terminal rem add : terminal (final_state rem add) = true.
Proof. by destruct rem, add. Qed.

(** The counters follow the terminal state. *)
Lemma entry_effect_counts rem add was_failed k p t cnt :
  (entry_effect rem add was_failed k p t cnt).2 =
  match final_state rem add with
  | Refreshed => (S cnt.1, cnt.2)
  | Failed => (cnt.1, S cnt.2)
  | _ => cnt
  end.
Proof. by destruct rem, add. Qed.

End EntrySpec.
