(* ===== verification/Refinement.v ===== *)
(** * The handler against the specification's state machine

    [refresh_share] implements one run of [EntrySpec]'s machine, with its
    counters and its effect on the failure table, exactly when

    - the flag [dry_run] is true (its default), so that the requests are
      sent;
    - a failed re-association fails with a [ClientError]: a connection
      error or timeout ([BotoCoreError]) escapes the inner [except] and is
      counted without writing the marker;
    - the table writes of the entry succeed: a failed [put_item] leaves the
      marker unwritten, and a failed [delete_item] after a re-association
      is counted twice, or aborts the run when it happens in the
      [UnknownResourceException] clause.

    The findings of [Handler] show each of these hypotheses to be needed.
    Under them, the loop computes [spec_run], the fold of the machine over
    the work set. *)

From S2P Require Import Prelude PyDict Json Aws RamManager DdbManager Handler EntrySpec.
Import RamManager DdbManager Handler EntrySpec.

Module Refinement.

(** The specification's reading of a service reply. *)
Definition reply (o : option Exn) : Reply :=
  match o with
  | None => Ok
  | Some UnknownResourceException => UnknownResource
  | Some _ => OtherError
  end.

(** What the cloud must do for the entry [(arn, s)] to follow the
    specification. *)
Record entry_ok (c : Cloud) (arn s : string) : Prop := {
  associate_client_error :
    forall e, ram_associate_error c arn s = Some e -> is_client_error e = true;
  put_ok : ddb_put_error c arn s = None;
  delete_ok : ddb_delete_error c arn = None;
}.

Definition view (fr : Frame) : gmap string string * (nat * nat) :=
  (ddb_table (fr_world fr), (refreshed_ram_shares fr, failed_ram_shares_count fr)).

(** The specification run over a work set of (share, principal) pairs. *)
Fixpoint spec_run (c : Cloud) (prev : list (string * PyVal)) (items : list (string * string))
    (t : gmap string string) (cnt : nat * nat) : gmap string string * (nat * nat) :=
  match items with
  | [] => (t, cnt)
  | (k, p) :: items' =>
      let eff := entry_effect (reply (ram_disassociate_error c k p))
                   (reply (ram_associate_error c k p)) (dict_contains prev k) k p t cnt in
      spec_run c prev items' eff.1 eff.2
  end.

(** Refinement of one iteration. *)
Lemma refresh_share_refines c ram ddb prev arn s fr :
  dry_run ram = true -> entry_ok c arn s ->
  exists fr', refresh_share c ram ddb prev (arn, PyStr s) fr = (inr tt, fr') /\
    view fr' = entry_effect (reply (ram_disassociate_error c arn s))
                 (reply (ram_associate_error c arn s)) (dict_contains prev arn) arn s
                 (ddb_table (fr_world fr)) (refreshed_ram_shares fr, failed_ram_shares_count fr).
Proof.
  intros Hd [Hae Hput Hdel]. destruct fr as [w r f].
  unfold refresh_share, deassociate_account_from_ram_share, associate_account_with_ram_share,
    clear_if_previously_failed, remove_resource_share_from_ddb, add_resource_share_to_ddb.
  rewrite Hd. cbn [fr_world refreshed_ram_shares failed_ram_shares_count].
  unfold se_try, se_bind, on_world, send, ddb_delete_item, ddb_put_item,
    ram_disassociate_resource_share, ram_associate_resource_share.
  destruct (ram_disassociate_error c arn s) as [e1|] eqn:E1; simpl.
  - destruct (decide (e1 = UnknownResourceException)) as [->|Hne]; simpl.
    + destruct (dict_contains prev arn); simpl; rewrite ?Hdel; eexists; by split.
    + eexists. split; [reflexivity|]. by destruct e1.
  - destruct (ram_associate_error c arn s) as [e2|] eqn:E2; simpl.
    + rewrite (Hae e2 eq_refl), Hput. simpl. eexists. split; [reflexivity|]. by destruct e2.
    + destruct (dict_contains prev arn); simpl; rewrite ?Hdel; eexists; by split.
Qed.

(** The loop implements the fold of the machine over the work set. *)
Lemma loop_refines c ram ddb prev items fr :
  dry_run ram = true -> Forall (fun kp => entry_ok c kp.1 kp.2) items ->
  exists fr', se_foldM (fun _ item => refresh_share c ram ddb prev item) tt (as_work_set items) fr
              = (inr tt, fr') /\
    view fr' = spec_run c prev items (ddb_table (fr_world fr))
                 (refreshed_ram_shares fr, failed_ram_shares_count fr).
Proof.
  intros Hd Hok. revert fr. induction Hok as [|[k p] items Hkp _ IH]; intros fr.
  - by exists fr.
  - destruct (refresh_share_refines c ram ddb prev k p fr Hd Hkp) as (fr1 & E1 & V1).
    destruct (IH fr1) as (fr2 & E2 & V2). exists fr2. cbn [as_work_set map se_foldM].
    rewrite (se_bind_inr _ _ _ _ _ E1). split; [done|]. rewrite V2. simpl.
    unfold view in V1. by rewrite <- V1.
Qed.

Lemma run_loop_refines c ram ddb prev items w :
  dry_run ram = true -> Forall (fun kp => entry_ok c kp.1 kp.2) items ->
  let res := spec_run c prev items (ddb_table w) (0, 0) in
  exists w', run_loop c ram ddb prev (as_work_set items) w = (inr res.2, w') /\
             ddb_table w' = res.1.
Proof.
  intros Hd Hok. destruct (loop_refines c ram ddb prev items (mkFrame w 0 0) Hd Hok)
    as (fr & E & V). unfold run_loop. rewrite E. exists (fr_world fr).
  unfold view in V. simpl in V. by rewrite <- V.
Qed.

Lemma work_set_of_str (l : list (string * PyVal)) :
  Forall (fun kv => is_str kv.2 = true) l -> exists items, l = as_work_set items.
Proof.
  induction 1 as [|[k v] l Hv _ [items ->]]; [by exists []|].
  destruct v; try discriminate. by exists ((k, s) :: items).
Qed.

(** ** What one run does to one record *)

Lemma entry_effect_other rem add was_failed k p t cnt k' :
  k' <> k -> (entry_effect rem add was_failed k p t cnt).1 !! k' = t !! k'.
Proof.
  intros Hne. unfold entry_effect.
  destruct rem, add, was_failed; simpl; by simplify_map_eq.
Qed.

Lemma spec_run_untouched c prev items t cnt k :
  k ∉ items.*1 -> (spec_run c prev items t cnt).1 !! k = t !! k.
Proof.
  revert t cnt. induction items as [|[k' p'] items IH]; intros t cnt Hk; [done|].
  cbn [spec_run]. rewrite IH by set_solver. apply entry_effect_other. set_solver.
Qed.

(** A record of a share that the work set holds once is deleted by the
    run when both of its replies succeed. *)
Lemma spec_run_clears c prev items t cnt k p :
  NoDup items.*1 -> (k, p) ∈ items ->
  ram_disassociate_error c k p = None -> ram_associate_error c k p = None ->
  dict_contains prev k = true ->
  (spec_run c prev items t cnt).1 !! k = None.
Proof.
  intros Hnd Hin Hd Ha Hc. revert t cnt.
  induction items as [|[k' p'] items IH]; intros t cnt; [set_solver|].
  inversion Hnd as [|? ? Hnin Hnd']; subst. cbn [spec_run].
  apply elem_of_cons in Hin as [[= <- <-]|Hin].
  - rewrite spec_run_untouched by done. rewrite Hd, Ha, Hc. simpl. by simplify_map_eq.
  - apply IH; [done|done].
Qed.

Lemma as_work_set_keys items : (as_work_set items).*1 = items.*1.
Proof. unfold as_work_set. rewrite <- !list_fmap_compose. done. Qed.

Lemma as_work_set_elem items k p : (k, PyStr p) ∈ as_work_set items -> (k, p) ∈ items.
Proof.
  unfold as_work_set. intros ([k' p'] & [= -> ->] & Hin)%list_elem_of_fmap. done.
Qed.

(** The whole invocation, under the hypotheses of the refinement: the
    reads return, the work set is [expired.update(previously_failed)] of
    [str] principals, and the loop runs the specification's machine over
    it. *)
Lemma lambda_handler_spec_run c ev w name ps :
  ev_ddb_table_name ev = Some name -> default true (ev_dry_run ev) = true ->
  ram_pages c = map inr ps -> ddb_scan_error c = None ->
  (forall k s, ddb_table w !! k = Some s -> exists p, json_loads s = Some (PyStr p)) ->
  (forall k p, entry_ok c k p) ->
  let m := RamManager.init c (default ELEVEN_HOURS_IN_SECS (ev_ram_timeout_in_seconds ev)) true in
  exists prev items w',
    as_work_set items = dict_update (collect_page m [] (concat ps)) prev /\
    dict_wf prev /\ (forall k, dict_get prev k = ddb_table w !! k ≫= json_loads) /\
    let res := spec_run c prev items (ddb_table w) (0, 0) in
    lambda_handler c ev w =
      (inr (match items with
            | [] => Summary "No expired RAM shares found." 0 0
            | _ => Summary (summary_message res.2.1 res.2.2) res.2.1 res.2.2
            end), w') /\
    ddb_table w' = match items with [] => ddb_table w | _ => res.1 end.
Proof.
  intros Hname Hd Hpages Hscan Hstr Hok m.
  destruct (get_previously_failed_total c (mkDdbManager name) w Hscan) as [prev Hprev].
  { intros k s Hk. destruct (Hstr k s Hk) as [p ->]. by eexists. }
  pose proof Hprev as (_ & Hwf & Hget & _)%get_previously_failed_ok.
  set (expired := collect_page m [] (concat ps)).
  assert (Hexp : get_new_expired_ram_invitations c m w = (inr expired, w)).
  { unfold get_new_expired_ram_invitations. rewrite Hpages, for_pages_ret_ok.
    by rewrite collect_pages. }
  destruct (work_set_of_str (dict_update expired prev)) as [items Hitems].
  { apply Forall_forall. intros [k v] Hin. apply dict_update_elem in Hin as [Hin|Hin].
    - assert (Hs : Forall (fun kv => is_str kv.2 = true) expired)
        by (apply collect_page_str; constructor).
      rewrite Forall_forall in Hs. by apply (Hs (k, v)).
    - apply dict_wf_elem in Hin; [|done]. rewrite Hget in Hin.
      destruct (ddb_table w !! k) as [s|] eqn:Hk; [|done]. simpl in Hin.
      destruct (Hstr k s Hk) as [p Hp]. rewrite Hp in Hin. by injection Hin as <-. }
  exists prev, items.
  unfold lambda_handler. rewrite Hname, Hd.
  unfold se_try at 1. rewrite (se_bind_inr _ _ _ _ _ Hexp), (se_bind_inr _ _ _ _ _ Hprev).
  fold m. rewrite Hitems.
  destruct (run_loop_refines c m (mkDdbManager name) prev items w) as (w' & Erun & Et);
    [done|apply Forall_forall; intros [k p] _; apply Hok|].
  destruct items as [|kp items'].
  - exists w. by split_and!.
  - exists w'. split_and!; [done|done|done| |done].
    cbn [as_work_set map] in Erun |- *. unfold se_bind. by rewrite Erun.
Qed.

(** C1: refinement of the whole invocation: when both listings succeed,
    every stored account decodes to a [str], the flag has its default and
    every entry meets [entry_ok], the handler returns the summary of the
    specification's run over the work set [expired.update(previously_failed)],
    whose entries are the table's (decoded) over the scan's, and leaves the
    table that run leaves. *)
Theorem lambda_handler_refines c ev w name ps :
  ev_ddb_table_name ev = Some name -> default true (ev_dry_run ev) = true ->
  ram_pages c = map inr ps -> ddb_scan_error c = None ->
  (forall k s, ddb_table w !! k = Some s -> exists p, json_loads s = Some (PyStr p)) ->
  (forall k p, entry_ok c k p) ->
  let m := RamManager.init c (default ELEVEN_HOURS_IN_SECS (ev_ram_timeout_in_seconds ev)) true in
  exists prev items w',
    as_work_set items = dict_update (collect_page m [] (concat ps)) prev /\
    (forall k, dict_get (as_work_set items) k =
               match ddb_table w !! k ≫= json_loads with
               | Some v => Some v
               | None => dict_get (collect_page m [] (concat ps)) k
               end) /\
    (forall k, dict_get prev k = ddb_table w !! k ≫= json_loads) /\
    let res := spec_run c prev items (ddb_table w) (0, 0) in
    lambda_handler c ev w =
      (inr (match items with
            | [] => Summary "No expired RAM shares found." 0 0
            | _ => Summary (summary_message res.2.1 res.2.2) res.2.1 res.2.2
            end), w') /\
    ddb_table w' = match items with [] => ddb_table w | _ => res.1 end.
Proof.
  intros Hname Hd Hpages Hscan Hstr Hok m.
  destruct (lambda_handler_spec_run c ev w name ps Hname Hd Hpages Hscan Hstr Hok)
    as (prev & items & w' & Hitems & Hwf & Hget & Hrun).
  exists prev, items, w'. split_and!; [done| |done|apply Hrun].
  intros k. rewrite Hitems, dict_get_update, Hget by done. by destruct (ddb_table w !! k ≫= _).
Qed.

Lemma lambda_handler_refines_witness :
  let a := mkAssociation "arn:s" "LakeFormation-x" "111" 0 in
  let c := {| time_now := 1731110400000000; ram_pages := [inr [a]];
              ram_disassociate_error := fun _ _ => None; ram_associate_error := fun _ _ => None;
              ddb_scan_page_size := 0; ddb_scan_error := None;
              ddb_put_error := fun _ _ => None; ddb_delete_error := fun _ => None |} in
  let ev := mkEvent None None (Some "t") in
  let w := world_of [] [] in
  ev_ddb_table_name ev = Some "t" /\ default true (ev_dry_run ev) = true /\
  ram_pages c = map inr [[a]] /\ ddb_scan_error c = None /\
  (forall k s, ddb_table w !! k = Some s -> exists p, json_loads s = Some (PyStr p)) /\
  (forall k p, entry_ok c k p) /\
  let m := RamManager.init c (default ELEVEN_HOURS_IN_SECS (ev_ram_timeout_in_seconds ev)) true in
  exists prev items w',
    as_work_set items = dict_update (collect_page m [] (concat [[a]])) prev /\
    (forall k, dict_get (as_work_set items) k =
               match ddb_table w !! k ≫= json_loads with
               | Some v => Some v
               | None => dict_get (collect_page m [] (concat [[a]])) k
               end) /\
    (forall k, dict_get prev k = ddb_table w !! k ≫= json_loads) /\
    let res := spec_run c prev items (ddb_table w) (0, 0) in
    lambda_handler c ev w =
      (inr (match items with
            | [] => Summary "No expired RAM shares found." 0 0
            | _ => Summary (summary_message res.2.1 res.2.2) res.2.1 res.2.2
            end), w') /\
    ddb_table w' = match items with [] => ddb_table w | _ => res.1 end.
Proof.
  intros a c ev w.
  assert (H1 : ev_ddb_table_name ev = Some "t") by reflexivity.
  assert (H2 : default true (ev_dry_run ev) = true) by reflexivity.
  assert (H3 : ram_pages c = map inr [[a]]) by reflexivity.
  assert (H4 : ddb_scan_error c = None) by reflexivity.
  assert (H5 : forall k s, ddb_table w !! k = Some s -> exists p, json_loads s = Some (PyStr p))
    by (intros k s Hk; discriminate).
  assert (H6 : forall k p, entry_ok c k p) by (intros k p; split; [discriminate|done|done]).
  split_and!; [exact H1|exact H2|exact H3|exact H4|exact H5|exact H6|].
  exact (lambda_handler_refines c ev w "t" [[a]] H1 H2 H3 H4 H5 H6).
Defined.

(** C28: progress of the retry mechanism: a failure record stored as a
    JSON [str] (as the specification intends) is cleared by the first
    invocation whose replies for it succeed, when that invocation meets
    the hypotheses of the refinement. *)
Theorem failure_record_cleared c ev w name ps arn s p :
  ev_ddb_table_name ev = Some name -> default true (ev_dry_run ev) = true ->
  ram_pages c = map inr ps -> ddb_scan_error c = None ->
  (forall k s, ddb_table w !! k = Some s -> exists p, json_loads s = Some (PyStr p)) ->
  (forall k p, entry_ok c k p) ->
  ddb_table w !! arn = Some s -> json_loads s = Some (PyStr p) ->
  ram_disassociate_error c arn p = None -> ram_associate_error c arn p = None ->
  ddb_table (snd (lambda_handler c ev w)) !! arn = None.
Proof.
  intros Hname Hd Hpages Hscan Hstr Hok Ht Hj Hdis Hass.
  destruct (lambda_handler_spec_run c ev w name ps Hname Hd Hpages Hscan Hstr Hok)
    as (prev & items & w' & Hitems & Hwf & Hget & Hrun & Htab).
  assert (Hp : dict_get prev arn = Some (PyStr p)) by (by rewrite Hget, Ht).
  assert (Hin : (arn, p) ∈ items).
  { apply as_work_set_elem, dict_get_Some_elem. by rewrite Hitems, dict_get_update, Hp. }
  assert (Hnd : NoDup items.*1).
  { rewrite <- as_work_set_keys. change (dict_wf (as_work_set items)). rewrite Hitems.
    apply dict_update_wf, collect_page_wf. constructor. }
  rewrite Hrun. cbn [snd]. rewrite Htab.
  destruct items as [|kp items']; [set_solver|].
  apply spec_run_clears with p; [done|done|done|done|]. apply dict_contains_get. by rewrite Hp.
Qed.

Lemma failure_record_cleared_witness :
  let acct := String dquote ("111111111111" ++ String dquote EmptyString) in
  let w := world_of [("arn:s", acct)] [] in
  let ev := mkEvent None None (Some "t") in
  ev_ddb_table_name ev = Some "t" /\ default true (ev_dry_run ev) = true /\
  ram_pages cloud_ok = map inr [] /\ ddb_scan_error cloud_ok = None /\
  (forall k s, ddb_table w !! k = Some s -> exists p, json_loads s = Some (PyStr p)) /\
  (forall k p, entry_ok cloud_ok k p) /\
  ddb_table w !! "arn:s" = Some acct /\ json_loads acct = Some (PyStr "111111111111") /\
  ram_disassociate_error cloud_ok "arn:s" "111111111111" = None /\
  ram_associate_error cloud_ok "arn:s" "111111111111" = None /\
  ddb_table (snd (lambda_handler cloud_ok ev w)) !! "arn:s" = None.
Proof.
  intros acct w ev.
  assert (H1 : ev_ddb_table_name ev = Some "t") by reflexivity.
  assert (H2 : default true (ev_dry_run ev) = true) by reflexivity.
  assert (H3 : ram_pages cloud_ok = map inr []) by reflexivity.
  assert (H4 : ddb_scan_error cloud_ok = None) by reflexivity.
  assert (H8 : json_loads acct = Some (PyStr "111111111111")) by (vm_compute; reflexivity).
  assert (H5 : forall k s, ddb_table w !! k = Some s -> exists p, json_loads s = Some (PyStr p)).
  { intros k s0 Hk. unfold w, world_of in Hk. simpl in Hk.
    destruct (decide (k = "arn:s")) as [->|Hne].
    - rewrite lookup_insert_eq in Hk. injection Hk as <-. by eexists.
    - by rewrite lookup_insert_ne, lookup_empty in Hk. }
  assert (H6 : forall k p, entry_ok cloud_ok k p) by (intros k p; split; [discriminate|done|done]).
  assert (H7 : ddb_table w !! "arn:s" = Some acct) by reflexivity.
  assert (H9 : ram_disassociate_error cloud_ok "arn:s" "111111111111" = None) by reflexivity.
  assert (H10 : ram_associate_error cloud_ok "arn:s" "111111111111" = None) by reflexivity.
  split_and!; [exact H1|exact H2|exact H3|exact H4|exact H5|exact H6|exact H7|exact H8
              |exact H9|exact H10|].
  exact (failure_record_cleared cloud_ok ev w "t" [] "arn:s" acct "111111111111"
           H1 H2 H3 H4 H5 H6 H7 H8 H9 H10).
Defined.

End Refinement.
