(* ===== verification/TestMain.v ===== *)
(** * tests/unit/test_main.py: the repository's unit test

    [test_ram_succeeds] runs the handler against moto with the RAM calls
    patched: one [ASSOCIATING] association of a [LakeFormation-] share,
    created five minutes before the test module was loaded, every RAM
    request answered, and the failure table that [setUp] has just created,
    empty; the event sets a timeout of one second.  The test asserts one
    recreated share and no failure.  This file states the test's data
    ([mock_cloud], [test_event], [setUp_world]) and the test method as a
    boolean check ([test_ram_succeeds]), and proves that it passes for
    every load time and every later start time of the handler, not only
    the ones of one run of the test. *)

From S2P Require Import Prelude PyDict Json Aws RamManager DdbManager Handler.
Import RamManager DdbManager Handler.

Module TestMain.

Local Open Scope Z_scope.

Definition ACCOUNT_ID : string := "111111111111".
Definition DDB_TABLE_NAME : string := "test-ddb-table".
Definition RESOURCE_SHARE_ARN : string :=
  "arn:aws:ram:us-east-1:123456789012:resource-share/4af299d5-debf-482e-9e4f-d02aef7364ef".

(** [FIVE_MINS_AGO], in microseconds, for a test module loaded at [t0]. *)
Definition FIVE_MINS_AGO (t0 : Z) : Z := t0 - 5 * 60 * 1000000.

(** The association [mock_make_api_call] lists for
    [GetResourceShareAssociations]. *)
Definition test_association (t0 : Z) : Association :=
  mkAssociation RESOURCE_SHARE_ARN "LakeFormation-V4-ACTJVKOTWF" ACCOUNT_ID (FIVE_MINS_AGO t0).

(** [mock_make_api_call]: one page with that association, and every
    disassociate, associate, put and delete succeeds; the handler reads
    the clock at [now]. *)
Definition mock_cloud (t0 now : Z) : Cloud :=
  cloud_with now [inr [test_association t0]] None None None None.

(** [event = {"ddb_table_name": DDB_TABLE_NAME, "ram_timeout_in_seconds": 1}] *)
Definition test_event : Event := mkEvent (Some 1) None (Some DDB_TABLE_NAME).

(** [setUp]: a fresh moto account, in which the table [DDB_TABLE_NAME]
    has just been created, empty, and RAM has no associations. *)
Definition setUp_world : World := world_of [] [].

(** [test_ram_succeeds]: run the handler on [event] and check
    [result["recreated_count"] == 1] and [result["failed_count"] == 0]; an
    exception, or a dict without these keys, fails the test. *)
Definition test_ram_succeeds (t0 now : Z) : bool :=
  match fst (lambda_handler (mock_cloud t0 now) test_event setUp_world) with
  | inr (Summary _ recreated failed) => (recreated =? 1)%nat && (failed =? 0)%nat
  | _ => false
  end.

Lemma test_association_expired t0 now :
  5 * 60 * 1000000 <= t0 <= now ->
  is_expired (init (mock_cloud t0 now) 1 true) (test_association t0) = true.
Proof.
  intros Hnow. unfold is_expired, init, py_int_seconds. simpl. unfold FIVE_MINS_AGO.
  apply Z.ltb_lt. rewrite !Z.quot_div_nonneg by lia. Z.div_mod_to_equations. lia.
Qed.

(** The run of the test's scenario from any world with an empty table. *)
Lemma mock_run t0 now w :
  5 * 60 * 1000000 <= t0 <= now -> ddb_table w = ∅ ->
  exists w', lambda_handler (mock_cloud t0 now) test_event w =
      (inr (Summary "Recreated 1 RAM invitations. Failed = 0" 1 0), w') /\
    (RESOURCE_SHARE_ARN, ACCOUNT_ID) ∈ ram_associations w' /\ ddb_table w' = ∅.
Proof.
  intros Hnow Ht. unfold lambda_handler. rewrite se_try_reraise. cbn [test_event ev_ddb_table_name
    ev_dry_run ev_ram_timeout_in_seconds default].
  set (m := init (mock_cloud t0 now) 1 true).
  assert (Hexp : get_new_expired_ram_invitations (mock_cloud t0 now) m w
                 = (inr [(RESOURCE_SHARE_ARN, PyStr ACCOUNT_ID)], w)).
  { unfold get_new_expired_ram_invitations.
    change (ram_pages (mock_cloud t0 now)) with (map (@inr Exn (list Association)) [[test_association t0]]).
    rewrite for_pages_ret_ok. cbn [fold_left collect_page].
    unfold collect_page, m. cbn [fold_left]. by rewrite test_association_expired. }
  rewrite (se_bind_inr _ _ _ _ _ Hexp), (se_bind_inr _ _ _ _ _ (get_previously_failed_empty (mock_cloud t0 now) _ _ eq_refl Ht)).
  unfold run_loop. run_share. eexists. split; [reflexivity|]. simpl. split; [set_solver|done].
Qed.

(** C12: the unit test [test_ram_succeeds] passes: for every time [t0] at
    which the test module is loaded, at least five minutes after the epoch,
    and every later time [now] at which the handler runs, the handler
    returns one recreated share and no failure, and the share is
    associated again with the test's account. *)
Theorem unit_test_ram_succeeds t0 now :
  5 * 60 * 1000000 <= t0 <= now ->
  test_ram_succeeds t0 now = true /\
  (RESOURCE_SHARE_ARN, ACCOUNT_ID) ∈
    ram_associations (snd (lambda_handler (mock_cloud t0 now) test_event setUp_world)).
Proof.
  intros Hnow. destruct (mock_run t0 now setUp_world Hnow eq_refl) as (w' & E & Hin & _).
  unfold test_ram_succeeds. by rewrite E.
Qed.

Lemma unit_test_ram_succeeds_witness :
  5 * 60 * 1000000 <= 1731110400000000 <= 1731110401000000 /\
  test_ram_succeeds 1731110400000000 1731110401000000 = true /\
  (RESOURCE_SHARE_ARN, ACCOUNT_ID) ∈
    ram_associations (snd (lambda_handler (mock_cloud 1731110400000000 1731110401000000)
                             test_event setUp_world)).
Proof.
  assert (H : 5 * 60 * 1000000 <= 1731110400000000 <= 1731110401000000) by lia.
  split; [exact H|exact (unit_test_ram_succeeds 1731110400000000 1731110401000000 H)].
Defined.

End TestMain.
