(* ===== verification/Utility.v ===== *)
(** * utility/fix_lakeformation_ram_invites.py: the repair script

    A stand-alone command-line script, separate from the Lambda function:
    it pages through the Lake Formation permissions ([list_permissions]);
    for every permission granted through a RAM share it derives the account
    id of the principal ([get_account_id]), reads the share's principal
    association, and, unless [IS_DRY_RUN], associates the account again, or
    disassociates and re-associates it when the association has FAILED or
    is older than eleven hours.

    The script's module-level code after argument parsing is modelled as
    the function [fix_lakeformation_ram_invites] of [IS_DRY_RUN], the
    parsed [namespace.no_dry_run] (the command line itself is modelled in
    [UtilityCli]); the Lake Formation service and the RAM read are an
    oracle [UCloud] next to the [Cloud] of the mutating RAM requests.  The
    [while] loop, which Python does not bound, takes fuel and returns
    [true] when it exits and [false] when the fuel runs out.  Pagination
    tokens are opaque strings. *)

From Stdlib Require Import Ascii String.
From S2P Require Import Prelude PyDict Json Aws RamManager.
Import RamManager.

Module Utility.

(** ** Data *)

(** A Lake Formation permission: [permission['Principal']
    ['DataLakePrincipalIdentifier']] and, when [permission] has
    ['AdditionalDetails'] with ['ResourceShare'], that list of share ARNs. *)
Record Permission : Type := mkPermission {
  principal : string;
  resource_share : option (list string);
}.

(** A response of [lf.list_permissions]. *)
Record PermissionsPage : Type := mkPermissionsPage {
  principal_resource_permissions : list Permission;
  next_token : option string;
}.

Inductive AssociationStatus : Type :=
| ASSOCIATING | ASSOCIATED | FAILED | DISASSOCIATING | DISASSOCIATED.

#[export] Instance AssociationStatus_eq_dec : EqDecision AssociationStatus.
Proof. solve_decision. Defined.

(** An element of [resourceShareAssociations] as the script reads it;
    [associatedEntity] is [None] when the key is absent. *)
Record ShareAssociation : Type := mkShareAssociation {
  associatedEntity : option string;
  status : AssociationStatus;
  resourceShareName : string;
  creationTime : Z;
}.

(** The services the script talks to: Lake Formation's [list_permissions]
    (the argument is the [NextToken], [None] for the first call), RAM's
    [get_resource_share_associations] for one share, and the [Cloud] of
    the clock and of the RAM requests that change associations. *)
Record UCloud : Type := mkUCloud {
  ram_cloud : Cloud;
  lf_list_permissions : option string -> Exn + PermissionsPage;
  get_resource_share_associations : string -> Exn + list ShareAssociation;
}.

(** A service reply: its value, or the exception botocore raises. *)
Definition from_reply {A} (r : Exn + A) : PyM A :=
  match r with inl e => se_raise e | inr a => se_ret a end.

(** ** [get_account_id] *)

(** [str.split(sep)] on characters: the pieces between separators, empty
    ones included. *)
Fixpoint split_chars (sep : ascii) (l : list ascii) : list (list ascii) :=
  match l with
  | [] => [[]]
  | c :: r =>
      let rest := split_chars sep r in
      if Ascii.eqb c sep then [] :: rest
      else match rest with
           | w :: ws => (c :: w) :: ws
           | [] => [[c]]
           end
  end.

Definition py_split (sep : ascii) (s : string) : list string :=
  map string_of_list_ascii (split_chars sep (chars s)).

(** [str.isdigit()] on 8-bit characters (Latin-1): non-empty, and every
    character a decimal digit or one of the superscripts [²], [³], [¹],
    which Unicode counts as digits. *)
Definition py_isdigit_char (c : ascii) : bool :=
  is_digit c || (code c =? 178)%nat || (code c =? 179)%nat || (code c =? 185)%nat.

Definition py_isdigit (s : string) : bool :=
  negb (String.eqb s "") && forallb py_isdigit_char (chars s).

(** [get_account_id(principal)]: the fifth field of an IAM ARN, or a
    12-digit account id, else [ValueError]; indexing a list too short is
    [IndexError]. *)
Definition get_account_id (principal : string) : Exn + string :=
  if String.prefix "arn:aws:iam::" principal then
    match nth_error (py_split ":" principal) 4 with
    | Some a => inr a
    | None => inl IndexError
    end
  else if py_isdigit principal && (List.length (chars principal) =? 12)%nat then inr principal
  else inl ValueError.

(** ** The loop *)

Section Script.
Variable uc : UCloud.
Variable is_dry_run : bool.
Variable timeout_timestamp : Z.

(** [ram.disassociate_resource_share(...)] then
    [ram.associate_resource_share(...)] unless [IS_DRY_RUN]. *)
Definition recreate (arn account_id : string) : PyM unit :=
  if negb is_dry_run
  then ram_disassociate_resource_share (ram_cloud uc) arn (PyStr account_id) ;;;
       ram_associate_resource_share (ram_cloud uc) arn (PyStr account_id)
  else se_ret tt.

(** The body of [for resource_share_arn in resource_share_arns]: the [try]
    with its [except ram.exceptions.UnknownResourceException]. *)
Definition process_share (account_id arn : string) : PyM unit :=
  se_try
    (let* share_associations := from_reply (get_resource_share_associations uc arn) in
     match share_associations with
     | [resource_share] =>
         match associatedEntity resource_share with
         | None => se_raise (KeyError "associatedEntity")
         | Some entity =>
             if String.eqb entity "" then
               if negb is_dry_run
               then ram_associate_resource_share (ram_cloud uc) arn (PyStr account_id)
               else se_ret tt
             else if negb (String.eqb entity account_id) then se_ret tt
             else if decide (status resource_share = FAILED) then recreate arn account_id
             else if (py_int_seconds (creationTime resource_share) <? timeout_timestamp)%Z
             then recreate arn account_id
             else se_ret tt
         end
     | _ => se_ret tt
     end)
    (fun e => if decide (e = UnknownResourceException) then Some (se_ret tt) else None).

(** The body of [for permission in perms["PrincipalResourcePermissions"]]:
    [get_account_id] is outside the [try], so its [ValueError] escapes. *)
Definition process_permission (permission : Permission) : PyM unit :=
  match resource_share permission with
  | None => se_ret tt
  | Some resource_share_arns =>
      match get_account_id (principal permission) with
      | inl e => se_raise e
      | inr account_id =>
          se_foldM (fun _ arn => process_share account_id arn) tt resource_share_arns
      end
  end.

Definition process_page (perms : PermissionsPage) : PyM unit :=
  se_foldM (fun _ p => process_permission p) tt (principal_resource_permissions perms).

(** [while perms.get("NextToken") is not None: ...; if perms.get
    ("NextToken") is None: break; perms = lf.list_permissions(NextToken=...)] *)
Fixpoint while_loop (fuel : nat) (perms : PermissionsPage) : PyM bool :=
  match fuel with
  | O => se_ret false
  | S fuel' =>
      match next_token perms with
      | None => se_ret true
      | Some _ =>
          process_page perms ;;;
          match next_token perms with
          | None => se_ret true
          | Some tok =>
              let* perms' := from_reply (lf_list_permissions uc (Some tok)) in
              while_loop fuel' perms'
          end
      end
  end.
End Script.

(** [timeout_timestamp = int(time.time()) - ELEVEN_HOURS_IN_SECS] *)
Definition script_timeout_timestamp (c : Cloud) : Z :=
  (py_int_seconds (time_now c) - 11 * 60 * 60)%Z.

(** The module-level code after argument parsing, as a function of
    [IS_DRY_RUN]; [UtilityCli] models the parsing. *)
Definition fix_lakeformation_ram_invites (fuel : nat) (uc : UCloud) (is_dry_run : bool)
    : PyM bool :=
  let* perms := from_reply (lf_list_permissions uc None) in
  while_loop uc is_dry_run (script_timeout_timestamp (ram_cloud uc)) fuel perms.

(** ** A paginated Lake Formation listing

    [paged ps] serves the pages [ps]: the first call returns the first page,
    and page [i] carries a token naming page [i + 1] when there is one. *)
Definition token (i : nat) : string := string_of_list_ascii (repeat "x"%char i).

Definition page_at (ps : list (list Permission)) (i : nat) : PermissionsPage :=
  mkPermissionsPage (nth i ps []) (if (S i <? List.length ps)%nat then Some (token (S i)) else None).

Definition paged (ps : list (list Permission)) : option string -> Exn + PermissionsPage :=
  fun tok => inr (page_at ps (match tok with None => 0 | Some t => List.length (chars t) end)).

(** ** [get_account_id] *)

Lemma chars_app (s1 s2 : string) : chars (s1 ++ s2)%string = chars s1 ++ chars s2.
Proof. induction s1 as [|c s1 IH]; [done|]. simpl. f_equal. exact IH. Qed.

Lemma prefix_app (s1 s2 : string) : String.prefix s1 s2 = true -> exists r, s2 = (s1 ++ r)%string.
Proof.
  revert s2. induction s1 as [|c s1 IH]; intros s2 Hp; [by exists s2|].
  destruct s2 as [|c' s2]; [done|]. simpl in Hp.
  destruct (ascii_dec c c') as [<-|]; [|done].
  destruct (IH s2 Hp) as [r ->]. by exists r.
Qed.

Lemma split_chars_cons sep l : exists w ws, split_chars sep l = w :: ws.
Proof.
  induction l as [|c l [w [ws IH]]]; [by eexists _, _|]. simpl. rewrite IH.
  destruct (Ascii.eqb c sep); by eexists _, _.
Qed.

(** An IAM ARN has at least five [':']-separated fields. *)
Lemma py_split_iam (p : string) :
  String.prefix "arn:aws:iam::" p = true -> exists a, nth_error (py_split ":" p) 4 = Some a.
Proof.
  intros (r & ->)%prefix_app. unfold py_split. rewrite chars_app.
  destruct (split_chars_cons ":"%char (chars r)) as (w & ws & Hw).
  simpl. rewrite Hw. by eexists.
Qed.

(** C32: [get_account_id] never raises [IndexError]: an IAM ARN always
    has a fifth field, which is returned; otherwise a 12-digit principal
    is returned unchanged and anything else raises [ValueError]. *)
Theorem get_account_id_spec (p : string) :
  get_account_id p =
  if String.prefix "arn:aws:iam::" p then inr (nth 4 (py_split ":" p) "")
  else if py_isdigit p && (List.length (chars p) =? 12)%nat then inr p
  else inl ValueError.
Proof.
  unfold get_account_id. destruct (String.prefix "arn:aws:iam::" p) eqn:Hp; [|done].
  destruct (py_split_iam p Hp) as [a Ha]. rewrite Ha. f_equal.
  symmetry. by apply nth_error_nth.
Qed.

(** ** The loop over a paginated listing *)

Section Paged.
Variable uc : UCloud.
Variable is_dry_run : bool.
Variable ts : Z.
Variable ps : list (list Permission).
Hypothesis Hlf : lf_list_permissions uc = paged ps.

Lemma token_length i : List.length (chars (token i)) = i.
Proof. unfold token. by rewrite chars_of_list, repeat_length. Qed.

Lemma process_page_token perms tok :
  process_page uc is_dry_run ts (mkPermissionsPage perms tok) =
  process_page uc is_dry_run ts (mkPermissionsPage perms None).
Proof. done. Qed.

Lemma drop_removelast_nth (i : nat) (l : list (list Permission)) :
  (S i < length l)%nat -> drop i (removelast l) = nth i l [] :: drop (S i) (removelast l).
Proof.
  revert l. induction i as [|i IH]; intros l Hl.
  - destruct l as [|x [|y l]]; simpl in *; [lia|lia|done].
  - destruct l as [|x l]; [simpl in Hl; lia|]. destruct l as [|y l]; [simpl in Hl; lia|].
    change (removelast (x :: y :: l)) with (x :: removelast (y :: l)).
    cbn [drop nth]. apply IH. simpl in *. lia.
Qed.

Lemma drop_removelast_last (i : nat) (l : list (list Permission)) :
  S i = length l -> drop i (removelast l) = [].
Proof.
  intros Hl. apply drop_ge. rewrite removelast_firstn_len, length_firstn. lia.
Qed.

Lemma while_loop_paged fuel i w :
  (i < length ps)%nat -> (length ps <= fuel + i)%nat ->
  while_loop uc is_dry_run ts fuel (page_at ps i) w =
  se_bind (se_foldM (fun _ l => process_page uc is_dry_run ts (mkPermissionsPage l None)) tt
             (drop i (removelast ps)))
          (fun _ => se_ret true) w.
Proof.
  revert i w. induction fuel as [|fuel IH]; intros i w Hi Hf; [lia|].
  cbn [while_loop]. unfold page_at at 1 2. cbn [next_token].
  destruct (S i <? length ps)%nat eqn:E.
  - apply Nat.ltb_lt in E. rewrite drop_removelast_nth by done.
    cbn [se_foldM]. rewrite se_bind_assoc. unfold se_bind at 1 3.
    rewrite (process_page_token _ (Some _)).
    destruct (process_page _ _ _ _ w) as [[e|[]] w1]; [done|].
    unfold page_at at 1. cbn [next_token]. rewrite (proj2 (Nat.ltb_lt _ _) E).
    unfold from_reply. rewrite Hlf. unfold paged. rewrite token_length. cbn [se_bind se_ret].
    apply IH; lia.
  - apply Nat.ltb_ge in E. rewrite drop_removelast_last by lia. done.
Qed.
End Paged.

(** C21: over a listing of pages [ps], the script processes every page
    but the last, in order: the [while] condition is tested before each
    page, and the last page has no [NextToken].  In particular a listing
    that fits in one page is not processed at all. *)
Theorem fix_lakeformation_ram_invites_paged fuel uc is_dry_run ps w :
  lf_list_permissions uc = paged ps -> ps <> [] -> (length ps <= fuel)%nat ->
  fix_lakeformation_ram_invites fuel uc is_dry_run w =
  se_bind (se_foldM (fun _ l => process_page uc is_dry_run
                                  (script_timeout_timestamp (ram_cloud uc))
                                  (mkPermissionsPage l None)) tt (removelast ps))
          (fun _ => se_ret true) w.
Proof.
  intros Hlf Hne Hf. unfold fix_lakeformation_ram_invites, from_reply.
  rewrite Hlf. cbn [paged se_bind se_ret].
  destruct ps as [|p ps']; [done|].
  rewrite (while_loop_paged uc is_dry_run _ (p :: ps') Hlf fuel 0 w); [done|simpl; lia|lia].
Qed.

Lemma fix_lakeformation_ram_invites_paged_witness :
  let perm := mkPermission "111111111111" (Some ["arn:s"]) in
  let uc := mkUCloud cloud_ok (paged [[perm]; [perm]])
              (fun _ => inr [mkShareAssociation (Some "111111111111") FAILED "LakeFormation-x" 0]) in
  lf_list_permissions uc = paged [[perm]; [perm]] /\ [[perm]; [perm]] <> [] /\
  (length [[perm]; [perm]] <= 2)%nat /\
  fix_lakeformation_ram_invites 2 uc false (world_of [] []) =
  se_bind (se_foldM (fun _ l => process_page uc false (script_timeout_timestamp (ram_cloud uc))
                                  (mkPermissionsPage l None)) tt (removelast [[perm]; [perm]]))
          (fun _ => se_ret true) (world_of [] []).
Proof.
  intros perm uc.
  assert (H1 : lf_list_permissions uc = paged [[perm]; [perm]]) by reflexivity.
  assert (H2 : [[perm]; [perm]] <> []) by discriminate.
  assert (H3 : (length [[perm]; [perm]] <= 2)%nat) by (simpl; lia).
  split_and!; [exact H1|exact H2|exact H3|].
  exact (fix_lakeformation_ram_invites_paged 2 uc false _ (world_of [] []) H1 H2 H3).
Defined.

(** ** Dry run *)

Lemma from_reply_preserves {A} I (r : Exn + A) : se_preserves I (from_reply r).
Proof. destruct r; [apply se_preserves_raise|apply se_preserves_ret]. Qed.
#[export] Hint Resolve from_reply_preserves : lfm.

Section DryRun.
Variable uc : UCloud.
Variable ts : Z.
Variable I : World -> Prop.

Lemma process_share_dry acct arn : se_preserves I (process_share uc true ts acct arn).
Proof.
  unfold process_share, recreate. cbn [negb].
  apply se_preserves_try; [apply se_preserves_bind; [auto with lfm|]|].
  - intros l. repeat case_match; auto using se_preserves_ret, se_preserves_raise.
  - intros e k. case_decide; intros [= <-]. apply se_preserves_ret.
Qed.

Lemma process_page_dry perms : se_preserves I (process_page uc true ts perms).
Proof.
  unfold process_page. apply se_preserves_foldM. intros _ p _. unfold process_permission.
  repeat case_match; auto using se_preserves_ret, se_preserves_raise, se_preserves_foldM,
    process_share_dry.
Qed.

Lemma while_loop_dry fuel perms : se_preserves I (while_loop uc true ts fuel perms).
Proof.
  revert perms. induction fuel as [|fuel IH]; intros perms; cbn [while_loop];
    [apply se_preserves_ret|].
  destruct (next_token perms) as [tok|]; [|apply se_preserves_ret].
  apply se_preserves_bind; [apply process_page_dry|]. intros _.
  apply se_preserves_bind; auto with lfm.
Qed.
End DryRun.

Lemma fix_lakeformation_ram_invites_dry fuel uc I :
  se_preserves I (fix_lakeformation_ram_invites fuel uc true).
Proof.
  unfold fix_lakeformation_ram_invites. apply se_preserves_bind; [auto with lfm|].
  intros perms. apply while_loop_dry.
Qed.

(** C23: in its dry-run mode ([IS_DRY_RUN] true, the default without
    [--no-dry-run]) the script sends no request and changes nothing,
    however the listing, the shares and the services behave and however
    long its loop runs. *)
Theorem fix_lakeformation_ram_invites_dry_run fuel uc w :
  snd (fix_lakeformation_ram_invites fuel uc true w) = w.
Proof.
  by apply (fix_lakeformation_ram_invites_dry fuel uc (fun w' => w' = w)).
Qed.

(** ** Termination *)

(** C27: on a finite listing the loop exits: given fuel at least the number
    of pages, it never runs out of fuel, and the script either returns
    [true] or raises. *)
Theorem fix_lakeformation_ram_invites_terminates fuel uc is_dry_run ps w :
  lf_list_permissions uc = paged ps -> ps <> [] -> (length ps <= fuel)%nat ->
  fst (fix_lakeformation_ram_invites fuel uc is_dry_run w) <> inr false.
Proof.
  intros Hlf Hne Hf. unfold fix_lakeformation_ram_invites, from_reply.
  rewrite Hlf. cbn [paged se_bind se_ret]. destruct ps as [|p ps']; [done|].
  rewrite (while_loop_paged uc is_dry_run _ (p :: ps') Hlf fuel 0 w) by (simpl in *; lia).
  unfold se_bind. destruct (se_foldM _ tt _ w) as [[e|u] w']; cbn; congruence.
Qed.

Lemma fix_lakeformation_ram_invites_terminates_witness :
  let uc := mkUCloud cloud_ok (paged [[]; []; []]) (fun _ => inr []) in
  lf_list_permissions uc = paged [[]; []; []] /\ [[]; []; []] <> @nil (list Permission) /\
  (length [@nil Permission; []; []] <= 3)%nat /\
  fst (fix_lakeformation_ram_invites 3 uc false (world_of [] [])) <> inr false.
Proof.
  intros uc.
  assert (H1 : lf_list_permissions uc = paged [[]; []; []]) by reflexivity.
  assert (H2 : [[]; []; []] <> @nil (list Permission)) by discriminate.
  assert (H3 : (length [@nil Permission; []; []] <= 3)%nat) by (simpl; lia).
  split_and!; [exact H1|exact H2|exact H3|].
  exact (fix_lakeformation_ram_invites_terminates 3 uc false _ (world_of [] []) H1 H2 H3).
Defined.

(** ** Per-share behaviour and aborts *)

(** C22: a principal that [get_account_id] rejects (an organization or OU
    ARN, [IAM_ALLOWED_PRINCIPALS], an IAM ARN ...) in a permission granted
    through a share makes the whole script stop with that exception: the
    call is outside the [try], so the rest of the listing is never
    processed. *)
Theorem fix_lakeformation_ram_invites_invalid_principal fuel uc is_dry_run p rest more arns w e :
  lf_list_permissions uc = paged ((p :: rest) :: more) -> more <> [] ->
  (length more < fuel)%nat ->
  resource_share p = Some arns -> get_account_id (principal p) = inl e ->
  fst (fix_lakeformation_ram_invites fuel uc is_dry_run w) = inl e.
Proof.
  intros Hlf Hm Hf Hrs He. unfold fix_lakeformation_ram_invites, from_reply.
  rewrite Hlf. cbn [paged se_bind se_ret].
  rewrite (while_loop_paged uc is_dry_run _ _ Hlf fuel 0 w) by (simpl; lia).
  destruct more as [|m more]; [done|]. cbn [drop removelast se_foldM].
  unfold process_page at 1. cbn [principal_resource_permissions se_foldM].
  unfold process_permission at 1. rewrite Hrs, He. done.
Qed.

Lemma fix_lakeformation_ram_invites_invalid_principal_witness :
  let p := mkPermission "arn:aws:organizations::111111111111:ou/o-1/ou-2" (Some ["arn:s"]) in
  let uc := mkUCloud cloud_ok (paged [[p]; []]) (fun _ => inr []) in
  lf_list_permissions uc = paged ((p :: []) :: [[]]) /\ [[]] <> @nil (list Permission) /\
  (length [@nil Permission] < 2)%nat /\ resource_share p = Some ["arn:s"] /\
  get_account_id (principal p) = inl ValueError /\
  fst (fix_lakeformation_ram_invites 2 uc false (world_of [] [])) = inl ValueError.
Proof.
  intros p uc.
  assert (H1 : lf_list_permissions uc = paged ((p :: []) :: [[]])) by reflexivity.
  assert (H2 : [[]] <> @nil (list Permission)) by discriminate.
  assert (H3 : (length [@nil Permission] < 2)%nat) by (simpl; lia).
  assert (H4 : resource_share p = Some ["arn:s"]) by reflexivity.
  assert (H5 : get_account_id (principal p) = inl ValueError) by (vm_compute; reflexivity).
  split_and!; [exact H1|exact H2|exact H3|exact H4|exact H5|].
  exact (fix_lakeformation_ram_invites_invalid_principal 2 uc false p [] [[]] ["arn:s"]
           (world_of [] []) ValueError H1 H2 H3 H4 H5).
Defined.

(** C24: a share whose one principal association has FAILED, or was
    created before the cutoff, is disassociated and then associated again
    with the account when the script runs with [--no-dry-run] and RAM
    accepts both requests. *)
Theorem process_share_recreates uc ts acct arn rs w :
  get_resource_share_associations uc arn = inr [rs] ->
  associatedEntity rs = Some acct -> acct <> "" ->
  (status rs = FAILED \/ (py_int_seconds (creationTime rs) < ts)%Z) ->
  ram_disassociate_error (ram_cloud uc) arn acct = None ->
  ram_associate_error (ram_cloud uc) arn acct = None ->
  exists w', process_share uc false ts acct arn w = (inr tt, w') /\
    api_calls w' = api_calls w ++ [DisassociateResourceShare arn acct;
                                   AssociateResourceShare arn acct] /\
    (arn, acct) ∈ ram_associations w'.
Proof.
  intros Hg He Hne Hst Hd Ha. unfold process_share, recreate, from_reply, se_try. rewrite Hg.
  cbn [se_bind se_ret negb]. rewrite He.
  rewrite (proj2 (String.eqb_neq _ _) Hne), String.eqb_refl. cbn [negb].
  assert (Hrec : forall w0, exists w', (ram_disassociate_resource_share (ram_cloud uc) arn
            (PyStr acct) ;;; ram_associate_resource_share (ram_cloud uc) arn
            (PyStr acct)) w0 = (inr tt, w') /\
            api_calls w' = api_calls w0 ++ [DisassociateResourceShare arn acct;
                                            AssociateResourceShare arn acct] /\
            (arn, acct) ∈ ram_associations w').
  { intros w0. unfold se_bind, ram_disassociate_resource_share, ram_associate_resource_share, send.
    rewrite Hd, Ha. eexists. split_and!; [done|cbn; by rewrite <- app_assoc|cbn; set_solver]. }
  destruct (decide (status rs = FAILED)) as [_|Hf].
  - destruct (Hrec w) as (w' & E & Hc & Hin). exists w'. by rewrite E.
  - destruct Hst as [?|Hlt]; [done|]. rewrite (proj2 (Z.ltb_lt _ _) Hlt).
    destruct (Hrec w) as (w' & E & Hc & Hin). exists w'. by rewrite E.
Qed.

Lemma process_share_recreates_witness :
  let rs := mkShareAssociation (Some "111111111111") FAILED "LakeFormation-x" 0 in
  let uc := mkUCloud cloud_ok (paged []) (fun _ => inr [rs]) in
  get_resource_share_associations uc "arn:s" = inr [rs] /\
  associatedEntity rs = Some "111111111111" /\ "111111111111" <> "" /\
  (status rs = FAILED \/ (py_int_seconds (creationTime rs) < 0)%Z) /\
  ram_disassociate_error (ram_cloud uc) "arn:s" "111111111111" = None /\
  ram_associate_error (ram_cloud uc) "arn:s" "111111111111" = None /\
  exists w', process_share uc false 0 "111111111111" "arn:s" (world_of [] []) = (inr tt, w') /\
    api_calls w' = api_calls (world_of [] []) ++
      [DisassociateResourceShare "arn:s" "111111111111";
       AssociateResourceShare "arn:s" "111111111111"] /\
    ("arn:s", "111111111111") ∈ ram_associations w'.
Proof.
  intros rs uc.
  assert (H1 : get_resource_share_associations uc "arn:s" = inr [rs]) by reflexivity.
  assert (H2 : associatedEntity rs = Some "111111111111") by reflexivity.
  assert (H3 : "111111111111" <> "") by discriminate.
  assert (H4 : status rs = FAILED \/ (py_int_seconds (creationTime rs) < 0)%Z) by (left; done).
  assert (H5 : ram_disassociate_error (ram_cloud uc) "arn:s" "111111111111" = None) by done.
  assert (H6 : ram_associate_error (ram_cloud uc) "arn:s" "111111111111" = None) by done.
  split_and!; [exact H1|exact H2|exact H3|exact H4|exact H5|exact H6|].
  exact (process_share_recreates uc 0 "111111111111" "arn:s" rs (world_of [] [])
           H1 H2 H3 H4 H5 H6).
Defined.

(** C25: a share whose associated principal is another account is left
    alone: no request, no change, whatever the mode. *)
Theorem process_share_mismatch_untouched uc is_dry_run ts acct arn rs ent w :
  get_resource_share_associations uc arn = inr [rs] ->
  associatedEntity rs = Some ent -> ent <> "" -> ent <> acct ->
  process_share uc is_dry_run ts acct arn w = (inr tt, w).
Proof.
  intros Hg He Hne Hacct. unfold process_share, from_reply, se_try. rewrite Hg. cbn [se_bind se_ret].
  rewrite He, (proj2 (String.eqb_neq _ _) Hne), (proj2 (String.eqb_neq _ _) Hacct). done.
Qed.

Lemma process_share_mismatch_untouched_witness :
  let rs := mkShareAssociation (Some "222222222222") FAILED "LakeFormation-x" 0 in
  let uc := mkUCloud cloud_ok (paged []) (fun _ => inr [rs]) in
  get_resource_share_associations uc "arn:s" = inr [rs] /\
  associatedEntity rs = Some "222222222222" /\
  "222222222222" <> "" /\ "222222222222" <> "111111111111" /\
  process_share uc false 0 "111111111111" "arn:s" (world_of [] []) = (inr tt, world_of [] []).
Proof.
  intros rs uc.
  assert (H1 : get_resource_share_associations uc "arn:s" = inr [rs]) by reflexivity.
  assert (H2 : associatedEntity rs = Some "222222222222") by reflexivity.
  assert (H3 : "222222222222" <> "") by discriminate.
  assert (H4 : "222222222222" <> "111111111111") by discriminate.
  split_and!; [exact H1|exact H2|exact H3|exact H4|].
  exact (process_share_mismatch_untouched uc false 0 "111111111111" "arn:s" rs _ _ H1 H2 H3 H4).
Defined.


End Utility.
