(* ===== verification/UtilityCli.v ===== *)
(** * utility/fix_lakeformation_ram_invites.py: the command line

    Lines 40-48 of the script build [argParser] with two arguments,
    [--no-dry-run] ([action='store_false'], so [namespace.no_dry_run] is
    [True] unless the flag is given) and [--log_level]/[-l] (one value,
    default ["INFO"]), call [argParser.parse_args()], pass the level to
    [logging.basicConfig] and set [IS_DRY_RUN = namespace.no_dry_run];
    the rest of the module is [Utility.fix_lakeformation_ram_invites].

    [parse_args] follows [ArgumentParser.parse_args] of CPython 3.11
    (argparse.py: [_parse_optional], [_get_option_tuples], the option
    loop of [_parse_known_args] with [consume_optional], [_get_values]) for
    a parser with no positional arguments and options [-h]/[--help]
    ([nargs=0], added by [ArgumentParser]), [--no-dry-run] ([nargs=0]) and
    [--log_level]/[-l] ([nargs=None]): exact option strings, unique
    prefixes of long options, [--opt=value], [-lVALUE], chains of
    single-dash flags ([-hl X]), the [--] marker, strings that look like
    negative numbers or contain a space taken as values, and [SystemExit]
    with status 2 for a usage error and 0 after printing the help.  The
    help and usage text themselves are output only. *)

From Stdlib Require Import Ascii String.
From S2P Require Import Prelude PyDict Json Aws Utility.
Import Utility.

Module UtilityCli.

(** ** The parser *)

(** The actions of [argParser]. *)
Inductive Action : Type :=
| Help                 (** [-h], [--help] *)
| StoreFalseNoDryRun   (** [--no-dry-run], [action='store_false'] *)
| StoreLogLevel.       (** [--log_level], [-l] *)

#[export] Instance Action_eq_dec : EqDecision Action.
Proof. solve_decision. Defined.

(** [parser._option_string_actions], in insertion order. *)
Definition option_string_actions : list (string * Action) :=
  [("-h", Help); ("--help", Help); ("--no-dry-run", StoreFalseNoDryRun);
   ("--log_level", StoreLogLevel); ("-l", StoreLogLevel)].

(** [nargs=0]: the help and the [store_false] action take no value. *)
Definition takes_no_argument (a : Action) : bool :=
  match a with StoreLogLevel => false | _ => true end.

Definition lookup_action (s : string) : option Action :=
  snd <$> List.find (fun p => String.eqb p.1 s) option_string_actions.

(** The value of [namespace.log_level]: a [str], or the empty list that
    [_get_values] makes of an explicit value [--] (it removes the first
    [--] of the values and keeps the list). *)
Inductive LogLevel : Type :=
| LevelStr (s : string)
| LevelList.

Record Namespace : Type := mkNamespace {
  no_dry_run : bool;
  log_level : LogLevel;
}.

(** The defaults: [store_false] defaults to [True], [default="INFO"]. *)
Definition namespace_defaults : Namespace := mkNamespace true (LevelStr "INFO").

(** [arg_string.split('=', 1)], when there is an ['=']. *)
Fixpoint split_at_eq (s : string) : option (string * string) :=
  match s with
  | EmptyString => None
  | String c r => if Ascii.eqb c "=" then Some (EmptyString, r)
                  else (fun '(a, b) => (String c a, b)) <$> split_at_eq r
  end.

(** An option tuple [(action, option_string, explicit_arg)]; the action is
    [None] for an option string the parser does not know. *)
Definition OptionTuple : Type := option Action * string * option string.

(** [_get_option_tuples] with [allow_abbrev=True]. *)
Definition get_option_tuples (s : string) : list OptionTuple :=
  match s with
  | String c1 (String c2 r) =>
      if Ascii.eqb c1 "-" && Ascii.eqb c2 "-" then
        let '(option_prefix, explicit_arg) :=
          match split_at_eq s with
          | Some (p, e) => (p, Some e)
          | None => (s, None)
          end in
        (fun p => (Some p.2, p.1, explicit_arg)) <$>
          filter (fun p => String.prefix option_prefix p.1 = true) option_string_actions
      else if Ascii.eqb c1 "-" then
        flat_map (fun p =>
          if String.eqb p.1 (String c1 (String c2 EmptyString))
          then [(Some p.2, p.1, Some r)]
          else if String.prefix s p.1 then [(Some p.2, p.1, None)] else [])
          option_string_actions
      else []
  | _ => []
  end.

(** [_negative_number_matcher = '^-\d+$|^-\d*\.\d+$']; [$] also matches
    before a final newline. *)
Definition strip_final_newline (l : list ascii) : list ascii :=
  match last l with
  | Some c => if Ascii.eqb c "010" then removelast l else l
  | None => l
  end.

Definition number_body (l : list ascii) : bool :=
  let '(ds, rest) := span_digits l in
  match rest with
  | [] => negb (bool_decide (ds = []))
  | c :: ds2 => Ascii.eqb c "." && negb (bool_decide (ds2 = [])) && forallb is_digit ds2
  end.

Definition is_negative_number (s : string) : bool :=
  match chars s with
  | c :: r => Ascii.eqb c "-" && number_body (strip_final_newline r)
  | [] => false
  end.

Definition has_space (s : string) : bool := existsb (fun c => Ascii.eqb c " ") (chars s).

(** The end of [_parse_optional]: the abbreviations, then the strings
    that are values although they start with ['-'], then an option string
    of no action. *)
Definition parse_abbrev (s : string) : Exn + option OptionTuple :=
  match get_option_tuples s with
  | _ :: _ :: _ => inl (SystemExit 2)
  | [t] => inr (Some t)
  | [] => if is_negative_number s || has_space s then inr None else inr (Some (None, s, None))
  end.

(** [_parse_optional]: [None] for an argument, an option tuple for an
    option; an ambiguous abbreviation is a usage error. *)
Definition parse_optional (s : string) : Exn + option OptionTuple :=
  match s with
  | EmptyString => inr None
  | String c _ =>
      if negb (Ascii.eqb c "-") then inr None
      else match lookup_action s with
      | Some a => inr (Some (Some a, s, None))
      | None =>
          if (String.length s =? 1)%nat then inr None
          else match split_at_eq s with
          | Some (p, e) =>
              match lookup_action p with
              | Some a => inr (Some (Some a, p, Some e))
              | None => parse_abbrev s
              end
          | None => parse_abbrev s
          end
      end
  end.

(** The pattern of an argument string: ['A'], ['O'] with its option tuple,
    or ['-'] for the first [--]. *)
Inductive ArgPattern : Type :=
| PatA
| PatO (t : OptionTuple)
| PatDash.

(** The first loop of [_parse_known_args]: every string after the first
    [--] is an argument. *)
Fixpoint arg_patterns (args : list string) : Exn + list (string * ArgPattern) :=
  match args with
  | [] => inr []
  | a :: rest =>
      if String.eqb a "--" then inr ((a, PatDash) :: ((fun a' => (a', PatA)) <$> rest))
      else match parse_optional a, arg_patterns rest with
           | inl e, _ => inl e
           | inr _, inl e => inl e
           | inr None, inr ps => inr ((a, PatA) :: ps)
           | inr (Some t), inr ps => inr ((a, PatO t) :: ps)
           end
  end.

(** An action with its values, as [consume_optional] queues it. *)
Inductive Queued : Type :=
| QHelp
| QStoreFalse
| QStore (v : LogLevel).

(** [_get_values] for [nargs=None]: the first [--] is removed. *)
Definition store_value (v : string) : LogLevel :=
  if String.eqb v "--" then LevelList else LevelStr v.

Definition queued_no_arg (a : Action) : Queued :=
  match a with StoreFalseNoDryRun => QStoreFalse | _ => QHelp end.

(** The loop of [consume_optional] on an explicit argument: a value for
    [-l]; for a single-dash flag, the next character names the next
    single-dash option.  The result is the queued actions and the option
    still to be matched against the following strings, if any. *)
Fixpoint consume_explicit (a : Action) (os : string) (e : string)
    : Exn + (list Queued * option Action) :=
  if takes_no_argument a then
    match e, os with
    | String c e', String _ (String c1 _) =>
        if negb (Ascii.eqb c1 "-") then
          let os' := String "-" (String c EmptyString) in
          match lookup_action os' with
          | Some a' =>
              match e' with
              | EmptyString => inr ([queued_no_arg a], Some a')
              | String _ _ =>
                  match consume_explicit a' os' e' with
                  | inl err => inl err
                  | inr (q, r) => inr (queued_no_arg a :: q, r)
                  end
              end
          | None => inl (SystemExit 2)
          end
        else inl (SystemExit 2)
    | _, _ => inl (SystemExit 2)
    end
  else inr ([QStore (store_value e)], None).

(** [take_action] on the queued actions, in order: the help action prints
    the help and exits with status 0. *)
Fixpoint take_actions (ns : Namespace) (q : list Queued) : Exn + Namespace :=
  match q with
  | [] => inr ns
  | QHelp :: _ => inl (SystemExit 0)
  | QStoreFalse :: q' => take_actions (mkNamespace false (log_level ns)) q'
  | QStore v :: q' => take_actions (mkNamespace (no_dry_run ns) v) q'
  end.

(** The option loop of [_parse_known_args] with [consume_optional]: the
    parser has no positional argument, so every argument and every unknown
    option string is an extra, reported once the loop is done; an option
    that needs a value takes the next string when it is an argument. *)
Fixpoint consume (ns : Namespace) (extras : bool) (items : list (string * ArgPattern))
    : Exn + Namespace :=
  match items with
  | [] => if extras then inl (SystemExit 2) else inr ns
  | (_, PatA) :: rest | (_, PatDash) :: rest | (_, PatO (None, _, _)) :: rest =>
      consume ns true rest
  | (_, PatO (Some a, os, explicit)) :: rest =>
      let started := match explicit with
                     | None => inr ([], Some a)
                     | Some e => consume_explicit a os e
                     end in
      match started with
      | inl err => inl err
      | inr (q, None) =>
          match take_actions ns q with inl err => inl err | inr ns' => consume ns' extras rest end
      | inr (q, Some a') =>
          if takes_no_argument a' then
            match take_actions ns (q ++ [queued_no_arg a']) with
            | inl err => inl err
            | inr ns' => consume ns' extras rest
            end
          else match rest with
               | (v, PatA) :: rest' =>
                   match take_actions ns (q ++ [QStore (store_value v)]) with
                   | inl err => inl err
                   | inr ns' => consume ns' extras rest'
                   end
               | _ => inl (SystemExit 2)
               end
      end
  end.

(** [namespace = argParser.parse_args()] on [sys.argv[1:]]. *)
Definition parse_args (argv : list string) : Exn + Namespace :=
  match arg_patterns argv with
  | inl e => inl e
  | inr items => consume namespace_defaults false items
  end.

(** [logging.basicConfig(level=namespace.log_level)] in a fresh
    interpreter, where the root logger has no handler yet: [_checkLevel]
    accepts the names of [logging._nameToLevel], raises [ValueError] for
    any other [str] and [TypeError] for a list. *)
Definition level_names : list string :=
  ["CRITICAL"; "FATAL"; "ERROR"; "WARN"; "WARNING"; "INFO"; "DEBUG"; "NOTSET"].

Definition check_level (l : LogLevel) : Exn + unit :=
  match l with
  | LevelStr s => if existsb (String.eqb s) level_names then inr tt else inl ValueError
  | LevelList => inl TypeError
  end.

(** The script run with the command-line arguments [argv]: parsing,
    logging setup, [IS_DRY_RUN = namespace.no_dry_run], then the body. *)
Definition script_main (fuel : nat) (uc : UCloud) (argv : list string) : PyM bool :=
  match parse_args argv with
  | inl e => se_raise e
  | inr namespace =>
      match check_level (log_level namespace) with
      | inl e => se_raise e
      | inr _ => fix_lakeformation_ram_invites fuel uc (no_dry_run namespace)
      end
  end.

(** ** Only an argument starting with [--n] selects [--no-dry-run] *)

Lemma lookup_action_Some s a : lookup_action s = Some a -> (s, a) ∈ option_string_actions.
Proof.
  unfold lookup_action. destruct (List.find _ _) as [[k b]|] eqn:E; [|done].
  intros H. injection H as <-. apply find_some in E as [Hin Heq]. apply String.eqb_eq in Heq. simpl in Heq. subst.
  by apply list_elem_of_In.
Qed.

Lemma no_dry_run_key s : (s, StoreFalseNoDryRun) ∈ option_string_actions -> s = "--no-dry-run".
Proof. intros H. apply list_elem_of_In in H. simpl in H. naive_solver. Qed.

Lemma lookup_action_no_dry_run s : lookup_action s = Some StoreFalseNoDryRun -> s = "--no-dry-run".
Proof. intros H%lookup_action_Some. by apply no_dry_run_key. Qed.

Lemma lookup_action_short c a :
  lookup_action (String "-" (String c EmptyString)) = Some a -> a <> StoreFalseNoDryRun.
Proof. intros H ->. apply lookup_action_no_dry_run in H. by simplify_eq. Qed.

Lemma split_at_eq_Some s p e : split_at_eq s = Some (p, e) -> s = (p ++ String "=" e)%string.
Proof.
  revert p e. induction s as [|c s IH]; intros p e H; simpl in H; [done|].
  destruct (Ascii.eqb c "=") eqn:Ec.
  - injection H as <- <-. apply Ascii.eqb_eq in Ec. by subst.
  - destruct (split_at_eq s) as [[p' e']|]; simplify_eq/=. by rewrite (IH _ _ eq_refl).
Qed.

Lemma prefix_self_app s r : String.prefix s (s ++ r) = true.
Proof. induction s as [|c s IH]; [by destruct r|]. simpl. by destruct (ascii_dec c c). Qed.

Lemma prefix_n_app r : String.prefix "--n" (String "-" (String "-" (String "n" r))) = true.
Proof. exact (prefix_self_app "--n" r). Qed.

(** A long-option abbreviation selects [--no-dry-run] only if it is a
    prefix of it. *)
Lemma long_tuple_no_dry_run (o : string) (ex : option string) os ex' :
  (Some StoreFalseNoDryRun, os, ex') ∈
    (fun p : string * Action => (Some p.2, p.1, ex)) <$>
      filter (fun p : string * Action => String.prefix o p.1 = true) option_string_actions ->
  String.prefix o "--no-dry-run" = true.
Proof.
  intros ([k a] & Hp & Hin)%list_elem_of_fmap. simplify_eq/=.
  apply list_elem_of_filter in Hin as [Hpre Hin]. simpl in Hpre.
  apply no_dry_run_key in Hin. by subst.
Qed.

Lemma option_tuples_no_dry_run s os ex :
  get_option_tuples s = [(Some StoreFalseNoDryRun, os, ex)] -> String.prefix "--n" s = true.
Proof.
  intros H. assert (Hm : (Some StoreFalseNoDryRun, os, ex) ∈ get_option_tuples s)
    by (rewrite H; left). revert Hm.
  unfold get_option_tuples. destruct s as [|c1 [|c2 r]]; [by intros ?%not_elem_of_nil..|].
  destruct (Ascii.eqb c1 "-") eqn:E1; [apply Ascii.eqb_eq in E1; subst|by intros ?%not_elem_of_nil].
  destruct (Ascii.eqb c2 "-") eqn:E2; cbn [andb].
  - apply Ascii.eqb_eq in E2. subst. destruct r as [|c3 r]; [vm_compute in H; congruence|].
    destruct (ascii_dec c3 "n") as [->|Hn]; [intros _; apply prefix_n_app|].
    cbn [split_at_eq]. destruct (Ascii.eqb c3 "=") eqn:E3.
    + apply Ascii.eqb_eq in E3. subst. vm_compute in H. congruence.
    + destruct (split_at_eq r) as [[p e]|]; simpl; intros Hm%long_tuple_no_dry_run;
        simpl in Hm; by destruct (ascii_dec c3 "n").
  - intros Hm. apply list_elem_of_In, in_flat_map in Hm as ([k a] & Hin & Hm).
    simpl in Hm. destruct (String.eqb k _) eqn:Ek.
    + destruct Hm as [Hm|[]]. simplify_eq.
      apply list_elem_of_In, no_dry_run_key in Hin. subst.
      apply String.eqb_eq in Ek. by simplify_eq.
    + destruct (String.prefix _ k) eqn:Ep; [|done]. destruct Hm as [Hm|[]]. simplify_eq.
      apply list_elem_of_In, no_dry_run_key in Hin. subst. simpl in Ep.
      destruct (ascii_dec c2 "-") as [->|]; [by rewrite Ascii.eqb_refl in E2|done].
Qed.

Lemma parse_abbrev_no_dry_run s os ex :
  parse_abbrev s = inr (Some (Some StoreFalseNoDryRun, os, ex)) -> String.prefix "--n" s = true.
Proof.
  unfold parse_abbrev. destruct (get_option_tuples s) as [|t [|t' l]] eqn:E;
    [case_match; intros; simplify_eq| |intros; simplify_eq].
  intros H. simplify_eq. by eapply option_tuples_no_dry_run.
Qed.

Lemma parse_optional_no_dry_run s os ex :
  parse_optional s = inr (Some (Some StoreFalseNoDryRun, os, ex)) -> String.prefix "--n" s = true.
Proof.
  unfold parse_optional. destruct s as [|c r]; [done|].
  destruct (Ascii.eqb c "-"); cbn [negb]; [|done].
  destruct (lookup_action (String c r)) eqn:El.
  { intros H. simplify_eq. by rewrite (lookup_action_no_dry_run _ El). }
  destruct (String.length _ =? 1)%nat; [done|].
  destruct (split_at_eq (String c r)) as [[p e]|] eqn:Es; [|apply parse_abbrev_no_dry_run].
  destruct (lookup_action p) eqn:Ep; [|apply parse_abbrev_no_dry_run].
  intros H. simplify_eq. apply lookup_action_no_dry_run in Ep. apply split_at_eq_Some in Es.
  rewrite Es, Ep. apply prefix_n_app.
Qed.

Lemma arg_patterns_no_dry_run argv items s os ex :
  arg_patterns argv = inr items -> (s, PatO (Some StoreFalseNoDryRun, os, ex)) ∈ items ->
  Exists (fun a => String.prefix "--n" a = true) argv.
Proof.
  revert items. induction argv as [|a argv IH]; intros items H Hin; simpl in H.
  { simplify_eq. by apply not_elem_of_nil in Hin. }
  destruct (String.eqb a "--").
  { simplify_eq. apply elem_of_cons in Hin as [Hin|(? & ? & ?)%list_elem_of_fmap];
      simplify_eq. }
  destruct (parse_optional a) as [|[t|]] eqn:Ep, (arg_patterns argv) as [|ps];
    simplify_eq; apply elem_of_cons in Hin as [Hin|Hin]; simplify_eq.
  - apply Exists_cons_hd. by eapply parse_optional_no_dry_run.
  - apply Exists_cons_tl. by eapply IH.
  - apply Exists_cons_tl. by eapply IH.
Qed.

Lemma take_actions_no_dry_run ns q ns' :
  take_actions ns q = inr ns' -> no_dry_run ns' = false ->
  no_dry_run ns = false \/ QStoreFalse ∈ q.
Proof.
  revert ns. induction q as [|x q IH]; intros ns H Hf; simpl in H; [simplify_eq; by left|].
  destruct x; [done|right; left|].
  destruct (IH _ H Hf) as [Hn|Hin]; [by left|right; by right].
Qed.

(** Chains of single-dash flags queue only [-h] and [-l]. *)
Lemma consume_explicit_no_dry_run a os e q r :
  consume_explicit a os e = inr (q, r) -> a <> StoreFalseNoDryRun ->
  (QStoreFalse ∉ q) /\ r <> Some StoreFalseNoDryRun.
Proof.
  revert a os q r. induction e as [|c e IH]; intros a os q r H Ha;
    destruct a; simpl in H; simplify_eq; try (split; [set_solver|done]).
  destruct os as [|? [|c1 ?]]; simplify_eq.
  destruct (negb (Ascii.eqb c1 "-")); [|done].
  destruct (lookup_action (String "-" (String c EmptyString))) as [a'|] eqn:El; [|done].
  pose proof (lookup_action_short _ _ El) as Ha'.
  destruct e as [|c' e']; simplify_eq.
  - split; [set_solver|congruence].
  - destruct (consume_explicit a' _ _) as [|[q' r']] eqn:Ec; simplify_eq.
    destruct (IH _ _ _ _ Ec Ha') as [Hq Hr]. split; [set_solver|done].
Qed.

Lemma queued_no_arg_no_dry_run a : a <> StoreFalseNoDryRun -> queued_no_arg a <> QStoreFalse.
Proof. by destruct a. Qed.

(** The option loop turns [no_dry_run] off only for an option tuple of
    [--no-dry-run]. *)
Lemma consume_no_dry_run ns extras items ns' :
  consume ns extras items = inr ns' -> no_dry_run ns' = false ->
  no_dry_run ns = false \/ exists s os ex, (s, PatO (Some StoreFalseNoDryRun, os, ex)) ∈ items.
Proof.
  revert ns extras.
  induction items as [items IH] using (induction_ltof1 _ (@List.length (string * ArgPattern)));
    unfold ltof in IH. intros ns extras H Hf.
  destruct items as [|[s p] rest]; cbn [consume] in H; [destruct extras; simplify_eq; by left|].
  assert (Htl : forall ns0 ex0 l, List.length l <= List.length rest ->
            consume ns0 ex0 l = inr ns' ->
            no_dry_run ns0 = false \/ exists s os ex, (s, PatO (Some StoreFalseNoDryRun, os, ex)) ∈ l).
  { intros ns0 ex0 l Hl Hc. eapply IH; [simpl; lia|exact Hc|exact Hf]. }
  assert (Hstep : forall q' ns0 l, QStoreFalse ∉ q' -> take_actions ns q' = inr ns0 ->
            List.length l <= List.length rest -> (forall x, x ∈ l -> x ∈ rest) ->
            consume ns0 extras l = inr ns' ->
            no_dry_run ns = false \/
            exists s' os ex, (s', PatO (Some StoreFalseNoDryRun, os, ex)) ∈ (s, p) :: rest).
  { intros q' ns0 l Hq Ht Hl Hsub Hc. destruct (Htl _ _ _ Hl Hc) as [H0|(s' & os' & ex' & Hs')].
    - destruct (take_actions_no_dry_run _ _ _ Ht H0); [by left|done].
    - right. exists s', os', ex'. right. by apply Hsub. }
  destruct p as [|[[[a|] os] explicit]|];
    try (destruct (Htl _ _ rest (le_n _) H) as [?|(s' & os' & ex' & Hs')];
         [by left|right; exists s', os', ex'; by right]).
  destruct (decide (a = StoreFalseNoDryRun)) as [->|Ha]; [right; exists s, os, explicit; by left|].
  assert (Hst : forall q r,
    match explicit with None => inr ([], Some a) | Some e => consume_explicit a os e end = inr (q, r) ->
    (QStoreFalse ∉ q) /\ r <> Some StoreFalseNoDryRun).
  { intros q r Es. destruct explicit as [e|]; [by eapply consume_explicit_no_dry_run|].
    simplify_eq. split; [set_solver|congruence]. }
  destruct (match explicit with None => inr ([], Some a) | Some e => consume_explicit a os e end)
    as [|[q [a'|]]] eqn:Es; [done| |].
  - destruct (Hst _ _ eq_refl) as [Hq Ha'].
    assert (queued_no_arg a' <> QStoreFalse) by (apply queued_no_arg_no_dry_run; congruence).
    destruct (takes_no_argument a').
    + destruct (take_actions ns (q ++ [queued_no_arg a'])) as [|ns0] eqn:Et; [done|].
      apply (Hstep (q ++ [queued_no_arg a']) ns0 rest); [set_solver|exact Et|done|done|exact H].
    + destruct rest as [|[v []] rest']; try done.
      destruct (take_actions ns (q ++ [QStore (store_value v)])) as [|ns0] eqn:Et; [done|].
      apply (Hstep (q ++ [QStore (store_value v)]) ns0 rest'); [set_solver|exact Et|simpl; lia|set_solver|exact H].
  - destruct (Hst _ _ eq_refl) as [Hq _].
    destruct (take_actions ns q) as [|ns0] eqn:Et; [done|].
    apply (Hstep q ns0 rest); [done|exact Et|done|done|exact H].
Qed.

Lemma parse_args_no_dry_run argv ns :
  parse_args argv = inr ns -> no_dry_run ns = false ->
  Exists (fun a => String.prefix "--n" a = true) argv.
Proof.
  unfold parse_args. destruct (arg_patterns argv) as [|items] eqn:Ea; [done|].
  intros H Hf. destruct (consume_no_dry_run _ _ _ _ H Hf) as [Hd|(s & os & ex & Hin)]; [done|].
  by eapply arg_patterns_no_dry_run.
Qed.

(** A string that does not start with ['-'] is always a value. *)
Lemma parse_optional_value L :
  String.prefix "-" L = false ->
  parse_optional L = inr None /\ String.eqb L "--" = false /\ store_value L = LevelStr L.
Proof.
  destruct L as [|c r]; [done|]. simpl. destruct (ascii_dec "-" c) as [<-|Hc]; [by destruct r|].
  intros _. unfold store_value. simpl.
  assert (Ascii.eqb c "-" = false) as -> by (apply Ascii.eqb_neq; congruence). done.
Qed.

(** ** What the command line does *)

(** C26: run as [[--no-dry-run] [-l L]], with a level [L] that does not
    start with ['-'], the script is the body with [IS_DRY_RUN] false
    exactly when [--no-dry-run] is given, although its help text says that
    the flag does not perform any action; and a level that is not one of
    [logging]'s names (such as [info] in lower case) raises [ValueError]
    in [logging.basicConfig], before any request. *)
Theorem script_main_command_line fuel uc (b : bool) (ol : option string) :
  (forall L, ol = Some L -> String.prefix "-" L = false) ->
  script_main fuel uc ((if b then ["--no-dry-run"] else []) ++
                       match ol with Some L => ["-l"; L] | None => [] end) =
  if existsb (String.eqb (default "INFO" ol)) level_names
  then fix_lakeformation_ram_invites fuel uc (negb b)
  else se_raise ValueError.
Proof.
  intros HL. unfold script_main, parse_args.
  destruct ol as [L|].
  - destruct (parse_optional_value L (HL L eq_refl)) as (H1 & H2 & H3).
    destruct b; cbn [app arg_patterns]; rewrite H2;
      [change (String.eqb "--no-dry-run" "--") with false; cbn iota|];
      change (String.eqb "-l" "--") with false; cbn iota;
      rewrite H1; vm_compute parse_optional; cbn -[check_level existsb level_names];
      rewrite H3; unfold check_level; by destruct (existsb (String.eqb L) level_names).
  - by destruct b.
Qed.

Lemma script_main_command_line_witness :
  (forall L, Some "info" = Some L -> String.prefix "-" L = false) /\
  script_main 3 (mkUCloud cloud_ok (paged []) (fun _ => inr [])) ["--no-dry-run"; "-l"; "info"] =
  se_raise ValueError.
Proof.
  assert (H : forall L, Some "info" = Some L -> String.prefix "-" L = false)
    by (intros L [= <-]; reflexivity).
  split; [exact H|].
  exact (script_main_command_line 3 (mkUCloud cloud_ok (paged []) (fun _ => inr [])) true (Some "info") H).
Defined.

(** C35: without an argument starting with [--n] (an abbreviation of
    [--no-dry-run]) the script changes nothing, whatever else its command
    line holds, the services reply and its loop runs: every other command
    line keeps the default dry run, or exits or raises before any request. *)
Theorem script_main_dry_without_flag fuel uc argv w :
  Forall (fun a => String.prefix "--n" a = false) argv ->
  snd (script_main fuel uc argv w) = w.
Proof.
  intros Hf. unfold script_main. destruct (parse_args argv) as [e|ns] eqn:Ep; [done|].
  destruct (check_level _); [done|].
  destruct (no_dry_run ns) eqn:Hd.
  - by apply (fix_lakeformation_ram_invites_dry fuel uc (fun w' => w' = w)).
  - apply parse_args_no_dry_run in Ep; [|done].
    apply Exists_exists in Ep as (a & Hin & Ha). eapply Forall_forall in Hf; [|exact Hin]. congruence.
Qed.

Lemma script_main_dry_without_flag_witness :
  Forall (fun a => String.prefix "--n" a = false) ["--log"; "DEBUG"; "--help"] /\
  snd (script_main 3 (mkUCloud cloud_ok (paged []) (fun _ => inr [])) ["--log"; "DEBUG"; "--help"]
        (world_of [] [])) = world_of [] [].
Proof.
  assert (H : Forall (fun a => String.prefix "--n" a = false) ["--log"; "DEBUG"; "--help"])
    by (repeat constructor).
  split; [exact H|].
  exact (script_main_dry_without_flag 3 (mkUCloud cloud_ok (paged []) (fun _ => inr []))
           ["--log"; "DEBUG"; "--help"] (world_of [] []) H).
Defined.

End UtilityCli.
